(** * zfs-restic: lock check, snapshot and restic backup

    A shallow embedding of the two scripts of the repository,

      - [zfs-check-unlocked.py]  (module [CheckUnlocked])
      - [zfs-restic-backup.py]   (module [Backup])

    together with the Python primitives they rely on (module [Py]) and the
    process runner [subprocess.run] (module [Subprocess]).

    Python [str] values are modelled as Rocq strings whose characters are
    the code points below 256 (the two characters beyond, both in one
    literal of the check script, are held as their UTF-8 bytes); every
    external program is answered by a host, a state-passing oracle, with
    output that is text, and every call made is recorded in a trace. *)

From Stdlib Require Import ZArith List String Ascii Bool Lia.
From Stdlib Require Import DecimalString DecimalZ.
Import ListNotations.

Local Open Scope list_scope.
Local Open Scope string_scope.
Local Open Scope Z_scope.

(** ** Python primitives *)

Module Py.

(** [c.isspace()] for a code point below 256: TAB, LF, VT, FF, CR,
    FS, GS, RS, US, SPACE, NEL and NBSP. *)
Definition isspace (c : ascii) : bool :=
  let n := nat_of_ascii c in
  ((9 <=? n) && (n <=? 13))%nat || ((28 <=? n) && (n <=? 32))%nat
  || (n =? 133)%nat || (n =? 160)%nat.

(** [s.lstrip(chars)] with the stripped set given as a predicate. *)
Fixpoint lstrip_with (p : ascii -> bool) (s : string) : string :=
  match s with
  | EmptyString => EmptyString
  | String c r => if p c then lstrip_with p r else s
  end.

(** [s.rstrip(chars)]. *)
Fixpoint rstrip_with (p : ascii -> bool) (s : string) : string :=
  match s with
  | EmptyString => EmptyString
  | String c r =>
      match rstrip_with p r with
      | EmptyString => if p c then EmptyString else String c EmptyString
      | r' => String c r'
      end
  end.

Definition strip_with (p : ascii -> bool) (s : string) : string :=
  rstrip_with p (lstrip_with p s).

(** [s.strip()] *)
Definition strip (s : string) : string := strip_with isspace s.

(** [s.strip("-")] *)
Definition strip_hyphen (s : string) : string :=
  strip_with (Ascii.eqb "-") s.

(** Truthiness of a [str]: [not s] *)
Definition is_empty (s : string) : bool :=
  match s with EmptyString => true | _ => false end.

(** Truthiness of a [str | None]. *)
Definition truthy (o : option string) : bool :=
  match o with Some s => negb (is_empty s) | None => false end.

(** [s or None] *)
Definition or_none (s : string) : option string :=
  if is_empty s then None else Some s.

(** The line boundaries of [str.splitlines] below 256, CR apart:
    LF, VT, FF, FS, GS, RS and NEL. *)
Definition is_linebreak (c : ascii) : bool :=
  let n := nat_of_ascii c in
  ((10 <=? n) && (n <=? 12))%nat || ((28 <=? n) && (n <=? 30))%nat
  || (n =? 133)%nat.

Definition is_cr (c : ascii) : bool := (nat_of_ascii c =? 13)%nat.
Definition is_lf (c : ascii) : bool := (nat_of_ascii c =? 10)%nat.

(** [s.splitlines()]: CR LF is one boundary, and a final boundary
    opens no further line. *)
Fixpoint splitlines (s : string) : list string :=
  match s with
  | EmptyString => []
  | String c r =>
      if is_cr c then
        match r with
        | String c2 r2 =>
            if is_lf c2 then EmptyString :: splitlines r2
            else EmptyString :: splitlines r
        | EmptyString => [EmptyString]
        end
      else if is_linebreak c then EmptyString :: splitlines r
      else
        match splitlines r with
        | [] => [String c EmptyString]
        | l :: ls => String c l :: ls
        end
  end.

Definition is_tab (c : ascii) : bool := (nat_of_ascii c =? 9)%nat.

(** ["\t" in line] together with [line.split("\t", 1)]: [None] when the
    line has no TAB, otherwise the text before and after the first one. *)
Fixpoint split_tab (line : string) : option (string * string) :=
  match line with
  | EmptyString => None
  | String c r =>
      if is_tab c then Some (EmptyString, r)
      else
        match split_tab r with
        | Some (a, b) => Some (String c a, b)
        | None => None
        end
  end.

Definition is_digit (c : ascii) : bool :=
  let n := nat_of_ascii c in ((48 <=? n) && (n <=? 57))%nat.

Definition digit_val (c : ascii) : Z := Z.of_nat (nat_of_ascii c) - 48.

(** The digit part of a base-10 integer literal as [int()] reads it:
    digits, with single underscores between digits only. *)
Fixpoint parse_digits (acc : Z) (after_digit : bool) (s : string)
  : option Z :=
  match s with
  | EmptyString => if after_digit then Some acc else None
  | String c r =>
      if is_digit c then parse_digits (10 * acc + digit_val c) true r
      else if Ascii.eqb c "_" then
        if after_digit then parse_digits acc false r else None
      else None
  end.

(** The limit of [int()] on the digits of a decimal numeral,
    [sys.get_int_max_str_digits()]: 4300 unless configured (CPython
    3.11 and later). *)
Definition max_str_digits : nat := 4300.

(** The digits of a numeral as the limit counts them: leading zeros
    count, underscores do not. *)
Fixpoint count_digits (s : string) : nat :=
  match s with
  | EmptyString => O
  | String c r => if is_digit c then S (count_digits r) else count_digits r
  end.

(** [int(s)]: surrounding white space, an optional sign, the digits,
    no more of them than the limit; [None] stands for [ValueError]. *)
Definition int (s : string) : option Z :=
  match strip s with
  | String c r =>
      let numeral :=
        if Ascii.eqb c "-" || Ascii.eqb c "+" then r else String c r in
      if (max_str_digits <? count_digits numeral)%nat then None
      else if Ascii.eqb c "-" then option_map Z.opp (parse_digits 0 false r)
      else if Ascii.eqb c "+" then parse_digits 0 false r
      else parse_digits 0 false (String c r)
  | EmptyString => None
  end.

(** [str(n)] for an [int]. *)
Definition str (n : Z) : string := NilEmpty.string_of_int (Z.to_int n).

(** [sep.join(l)] *)
Fixpoint join (sep : string) (l : list string) : string :=
  match l with
  | [] => EmptyString
  | [x] => x
  | x :: r => x ++ sep ++ join sep r
  end.

(** [x in l] for a list of [str]. *)
Fixpoint contains (x : string) (l : list string) : bool :=
  match l with
  | [] => false
  | y :: r => String.eqb y x || contains x r
  end.

(** [l[l.index(x) + 1:]], or [None] where [l.index(x)] raises. *)
Fixpoint after_first (x : string) (l : list string) : option (list string) :=
  match l with
  | [] => None
  | y :: r => if String.eqb y x then Some r else after_first x r
  end.

(** [l[:len(prefix)] == prefix] *)
Fixpoint starts_with (prefix l : list string) : bool :=
  match prefix, l with
  | [], _ => true
  | p :: prefix', x :: l' => String.eqb p x && starts_with prefix' l'
  | _ :: _, [] => false
  end.

End Py.

(** ** Calendar time: [datetime] *)

Module Datetime.

Record datetime : Type := mkDatetime {
  year : Z; month : Z; day : Z;
  hour : Z; minute : Z; second : Z; microsecond : Z
}.

(** Civil date (year, month, day) of a day count relative to
    1970-01-01 in the proleptic Gregorian calendar. *)
Definition civil_of_days (z : Z) : Z * Z * Z :=
  let z := z + 719468 in
  let era := z / 146097 in
  let doe := z - era * 146097 in
  let yoe := (doe - doe / 1460 + doe / 36524 - doe / 146096) / 365 in
  let doy := doe - (365 * yoe + yoe / 4 - yoe / 100) in
  let mp := (5 * doy + 2) / 153 in
  let d := doy - (153 * mp + 2) / 5 + 1 in
  let m := if mp <? 10 then mp + 3 else mp - 9 in
  let y := yoe + era * 400 in
  (if m <=? 2 then y + 1 else y, m, d).

(** What [datetime.fromtimestamp(t)] does with an [int]. *)
Inductive stamp : Type :=
| Stamp (d : datetime)   (* the local calendar time *)
| OutOfTimeT             (* OverflowError: t does not fit the platform time_t *)
| OutOfRange.            (* ValueError or OSError: a year outside 1..9999 *)

(** Local time at instant [u], in seconds, and its year. *)
Definition local (utcoffset : Z -> Z) (u : Z) : Z := u + utcoffset u.

Definition year_of (l : Z) : Z := fst (fst (civil_of_days (l / 86400))).

Definition is_year (y : Z) : bool := (1 <=? y) && (y <=? 9999).

(** [datetime.fromtimestamp(t)]; [utcoffset t] is the offset in seconds
    of local time from UTC at instant [t], time_t has 64 bits.  To
    detect a fold the library also converts the instant a day earlier
    and, when the offset went down in between, the instant that much
    earlier; each conversion fails on a year outside 1..9999. *)
Definition fromtimestamp (utcoffset : Z -> Z) (t : Z) : stamp :=
  if negb ((- 2 ^ 63 <=? t) && (t <? 2 ^ 63)) then OutOfTimeT
  else
    let l := local utcoffset t in
    let '(y, m, d) := civil_of_days (l / 86400) in
    let s := l mod 86400 in
    if negb (is_year y) then OutOfRange
    else
      let probe := local utcoffset (t - 86400) in
      if negb (is_year (year_of probe)) then OutOfRange
      else
        let transition := l - probe - 86400 in
        if (transition <? 0)
           && negb (is_year (year_of (local utcoffset (t + transition))))
        then OutOfRange
        else
          Stamp (mkDatetime y m d (s / 3600) (s mod 3600 / 60) (s mod 60) 0).

(** A two-digit field of [strftime] (%m, %d, %H, %M, %S). *)
Definition pad2 (n : Z) : string :=
  if n <? 10 then "0" ++ Py.str n else Py.str n.

(** [dt.strftime("%Y-%m-%d %H:%M:%S")]; %Y is the year in decimal. *)
Definition strftime_restic (dt : datetime) : string :=
  Py.str (year dt) ++ "-" ++ pad2 (month dt) ++ "-" ++ pad2 (day dt)
  ++ " " ++ pad2 (hour dt) ++ ":" ++ pad2 (minute dt) ++ ":"
  ++ pad2 (second dt).

(** [str(n).zfill(w)] for [n >= 0] *)
Definition zfill (w : nat) (n : Z) : string :=
  let d := Py.str n in
  String.concat "" (repeat "0" (w - String.length d)) ++ d.

(** [dt.isoformat()]: the fraction is left out when it is zero. *)
Definition isoformat (dt : datetime) : string :=
  zfill 4 (year dt) ++ "-" ++ pad2 (month dt) ++ "-" ++ pad2 (day dt)
  ++ "T" ++ pad2 (hour dt) ++ ":" ++ pad2 (minute dt) ++ ":"
  ++ pad2 (second dt)
  ++ (if microsecond dt =? 0 then "" else "." ++ zfill 6 (microsecond dt)).

(** [dt.strftime("%Y%m%d-%H%M%S")] *)
Definition strftime_snap (dt : datetime) : string :=
  Py.str (year dt) ++ pad2 (month dt) ++ pad2 (day dt)
  ++ "-" ++ pad2 (hour dt) ++ pad2 (minute dt) ++ pad2 (second dt).

End Datetime.

(** ** Running external programs: [subprocess.run] *)

Module Subprocess.

(** One call of [subprocess.run]: the command list, whether output is
    captured as text, and the working directory override. *)
Record Invocation : Type := mkInvocation {
  argv : list string;
  capture : bool;
  cwd : option string
}.

(** What the host makes of an invocation; the output of a program is
    text (output that cannot be decoded is no answer of a host). *)
Inductive Spawned : Type :=
| Exited (rc : Z) (out err : string)  (* the program ran and exited *)
| NotFound                            (* no such program *)
| Failed.                             (* any other failure to start it *)

(** [subprocess.CompletedProcess]; an output that was not captured
    (Python's [None]) reads as the empty string. *)
Record CompletedProcess : Type := mkCompleted {
  args : list string;
  returncode : Z;
  stdout : string;
  stderr : string
}.

Inductive exn : Type :=
| CalledProcessError (rc : Z) (cmd : list string)
| FileNotFoundError
| OSError
| OverflowError.

Inductive result (A : Type) : Type :=
| Ret (a : A)
| Raise (e : exn).
Arguments Ret {A} a.
Arguments Raise {A} e.

(** The machine the scripts run on: programs and the file system. *)
Record Host (World : Type) : Type := mkHost {
  spawn : World -> Invocation -> Spawned * World;
  is_dir : World -> string -> bool;      (* Path(p).is_dir() *)
  is_file : World -> string -> bool;     (* Path(p).is_file() *)
  access_x : World -> string -> bool;    (* os.access(p, os.X_OK) *)
  resolve : World -> string -> string;   (* str(Path(p).resolve()) *)
  now : World -> Datetime.datetime       (* datetime.now() *)
}.
Arguments spawn {World} h w i.
Arguments is_dir {World} h w p.
Arguments is_file {World} h w p.
Arguments access_x {World} h w p.
Arguments resolve {World} h w p.
Arguments now {World} h w.

(** What a script observes of the world: a program run with its outcome,
    or a probe of the file system with its answer. *)
Inductive Event : Type :=
| Ran (i : Invocation) (r : Spawned)
| IsDir (p : string) (b : bool)
| IsFile (p : string) (b : bool)
| AccessX (p : string) (b : bool).

(** State of a run: the world, every event so far (oldest first), and
    the lines the script has printed. *)
Record State (World : Type) : Type := mkState {
  world : World;
  trace : list Event;
  printed : list string
}.
Arguments mkState {World} world trace printed.
Arguments world {World} s.
Arguments trace {World} s.
Arguments printed {World} s.

Definition M (World A : Type) : Type :=
  State World -> result A * State World.

Definition ret {World A} (a : A) : M World A := fun s => (Ret a, s).

Definition raise {World A} (e : exn) : M World A := fun s => (Raise e, s).

(** A result computed without touching the world. *)
Definition lift {World A} (x : result A) : M World A := fun s => (x, s).

Definition bind {World A B} (c : M World A) (k : A -> M World B)
  : M World B :=
  fun s =>
    match c s with
    | (Ret a, s') => k a s'
    | (Raise e, s') => (Raise e, s')
    end.

(** [try: body / except <the exceptions handled>: handler] *)
Definition try_except {World A} (body : M World A)
    (handler : exn -> option (M World A)) : M World A :=
  fun s =>
    match body s with
    | (Raise e, s') =>
        match handler e with
        | Some h => h s'
        | None => (Raise e, s')
        end
    | done => done
    end.

(** [print(msg)] *)
Definition print {World} (msg : string) : M World unit :=
  fun s => (Ret tt, mkState (world s) (trace s) (printed s ++ [msg])).

(** A read of the world that does not change it. *)
Definition query {World A} (f : World -> A) : M World A :=
  fun s => (Ret (f (world s)), s).

(** A probe of the file system, recorded in the trace. *)
Definition probe {World} (f : World -> string -> bool)
    (ev : string -> bool -> Event) (p : string) : M World bool :=
  fun s =>
    let b := f (world s) p in
    (Ret b, mkState (world s) (trace s ++ [ev p b]) (printed s)).

(** The state a script starts in. *)
Definition initial {World} (w : World) : State World := mkState w [] [].

(** [subprocess.run(cmd, check=..., capture_output=capture, text=capture,
    cwd=...)] *)
Definition run {World} (h : Host World) (cmd : list string)
    (check capture : bool) (cwd : option string)
  : M World CompletedProcess :=
  fun s =>
    let inv := mkInvocation cmd capture cwd in
    let '(r, w') := spawn h (world s) inv in
    let s' := mkState w' (trace s ++ [Ran inv r]) (printed s) in
    match r with
    | Exited rc out err =>
        if check && negb (rc =? 0) then (Raise (CalledProcessError rc cmd), s')
        else
          (Ret (mkCompleted cmd rc (if capture then out else "")
                            (if capture then err else "")), s')
    | NotFound => (Raise FileNotFoundError, s')
    | Failed => (Raise OSError, s')
    end.

End Subprocess.

Declare Scope py_scope.
Delimit Scope py_scope with py.
Notation "x <- c ;; k" := (Subprocess.bind c (fun x => k))
  (at level 61, c at next level, right associativity) : py_scope.
Notation "c ;;; k" := (Subprocess.bind c (fun _ => k))
  (at level 61, right associativity) : py_scope.

Local Open Scope py_scope.

(** ** zfs-check-unlocked.py *)

Module CheckUnlocked.
Import Subprocess.

(** The three characters before [unlock] in the literal of line 80,
    U+00E2 U+20AC U+201D: the first as it is, the two beyond U+00FF as
    their UTF-8 bytes. *)
Definition locked_separator : string :=
  String "226"
    (String "226" (String "130" (String "172"
       (String "226" (String "128" (String "157" EmptyString)))))).

Section Script.
Context {World : Type} (host : Host World).

(** [os.path.abspath] under the working directory of the process. *)
Variable abspath : string -> string.

Definition run_cmd (cmd : list string) (capture : bool)
  : M World CompletedProcess :=
  run host cmd false capture None.

(** The [for line in ...] loop of [get_dataset_for_path]. *)
Fixpoint find_mountpoint (path : string) (lines : list string)
  : option string :=
  match lines with
  | [] => None
  | line :: rest =>
      match Py.split_tab line with
      | Some (name, mnt) =>
          if String.eqb mnt path then Some name
          else find_mountpoint path rest
      | None => find_mountpoint path rest
      end
  end.

Definition get_dataset_for_path (path : string)
  : M World (option string) :=
  result <- run_cmd ["zfs"; "list"; "-H"; "-o"; "name,mountpoint"] true ;;
  if negb (returncode result =? 0) then ret None
  else ret (find_mountpoint path (Py.splitlines (Py.strip (stdout result)))).

Definition get_encryption_root (dataset : string)
  : M World (option string) :=
  result <- run_cmd ["zfs"; "get"; "-H"; "-o"; "value"; "encryptionroot";
                     dataset] true ;;
  if negb (returncode result =? 0) then ret None
  else
    let value := Py.strip (stdout result) in
    if Py.is_empty value || String.eqb value "-" then ret None
    else ret (Some value).

Definition get_keystatus (dataset : string) : M World (option string) :=
  result <- run_cmd ["zfs"; "get"; "-H"; "-o"; "value"; "keystatus";
                     dataset] true ;;
  if negb (returncode result =? 0) then ret None
  else ret (Py.or_none (Py.strip (stdout result))).

(** [f"{status}"] for a [str | None] *)
Definition fmt_opt (o : option string) : string :=
  match o with Some s => s | None => "None" end.

(** [status in ("unavailable", "locked")] *)
Definition is_locked_status (status : option string) : bool :=
  match status with
  | Some s => String.eqb s "unavailable" || String.eqb s "locked"
  | None => false
  end.

(** [status != "available"] *)
Definition not_available (status : option string) : bool :=
  match status with
  | Some s => negb (String.eqb s "available")
  | None => true
  end.

(** [None] if the dataset of [path] is usable, else the error message. *)
Definition check_path (path : string) : M World (option string) :=
  let resolved := abspath path in
  ds <- get_dataset_for_path resolved ;;
  match ds with
  | Some (String _ _ as ds) =>
      enc_root <- get_encryption_root ds ;;
      match enc_root with
      | Some (String _ _ as enc_root) =>
          status <- get_keystatus enc_root ;;
          if is_locked_status status then
            ret (Some ("Dataset is LOCKED: " ++ resolved
                       ++ " (encryption root " ++ enc_root ++ ") "
                       ++ locked_separator ++ " unlock the dataset first"))
          else if not_available status then
            ret (Some ("Unexpected keystatus '" ++ fmt_opt status
                       ++ "' for " ++ enc_root ++ " (" ++ resolved ++ ")"))
          else ret None
      | _ => ret None
      end
  | _ => ret (Some ("No ZFS dataset with mountpoint: " ++ resolved))
  end.

(** The [for path in sys.argv[1:]] loop of [main]; it carries
    [failed]. *)
Fixpoint check_paths (paths : list string) (failed : bool)
  : M World bool :=
  match paths with
  | [] => ret failed
  | path :: rest =>
      let path := Py.strip path in
      if Py.is_empty path then check_paths rest failed
      else
        err <- check_path path ;;
        if Py.truthy err then
          print (fmt_opt err) ;;; check_paths rest true
        else check_paths rest failed
  end.

Definition usage : string :=
  "Usage: zfs-check-unlocked.py <path> [<path> ...]".

(** [main()] with [sys.argv] given; the lines printed go to stderr. *)
Definition main (sys_argv : list string) : M World Z :=
  if (List.length sys_argv <? 2)%nat then print usage ;;; ret 1
  else
    failed <- check_paths (List.tl sys_argv) false ;;
    ret (if failed then 1 else 0).

End Script.

End CheckUnlocked.

(** ** zfs-restic-backup.py *)

Module Backup.
Import Subprocess.

(** [parse_args(argv)]: optional [--restic-bin <path>] pairs, then the
    mount point, then the arguments after ["--"]. *)
Fixpoint parse_args_from (restic_bin : option string) (args : list string)
  : option string * string * list string :=
  match args with
  | a :: rest =>
      if String.eqb a "--restic-bin" then
        match rest with
        | [] => (Some "", "", [])
        | v :: rest' => parse_args_from (Some (Py.strip v)) rest'
        end
      else if Py.contains "--" args then
        let mount_point := a in
        let restic_args :=
          match Py.after_first "--" args with Some r => r | None => [] end in
        (restic_bin, Py.strip mount_point, restic_args)
      else (restic_bin, Py.strip a, [])
  | [] => (restic_bin, "", [])
  end.

Definition parse_args (argv : list string)
  : option string * string * list string :=
  parse_args_from None argv.

(** [re.sub(r"[^a-zA-Z0-9-]", "-", s)] *)
Definition is_name_char (c : ascii) : bool :=
  let n := nat_of_ascii c in
  ((97 <=? n) && (n <=? 122))%nat || ((65 <=? n) && (n <=? 90))%nat
  || ((48 <=? n) && (n <=? 57))%nat || (n =? 45)%nat.

Fixpoint sub_name_chars (s : string) : string :=
  match s with
  | EmptyString => EmptyString
  | String c r =>
      String (if is_name_char c then c else "-"%char) (sub_name_chars r)
  end.

(** Lines 207 to 210 of [main]: the snapshot name from the process id,
    the node name and the clock. *)
Definition snap_name_of (pid : Z) (nodename : string)
    (snap_ts : Datetime.datetime) : string :=
  let hostname :=
    let h := Py.strip_hyphen (sub_name_chars nodename) in
    if Py.is_empty h then "host" else h in
  "zfs-restic-" ++ Py.str pid ++ "-" ++ hostname ++ "-"
  ++ Datetime.strftime_snap snap_ts.

(** [str(Path(p) / c)] for a normalised absolute [p] and one component. *)
Fixpoint ends_with_slash (p : string) : bool :=
  match p with
  | EmptyString => false
  | String c EmptyString => Ascii.eqb c "/"
  | String _ r => ends_with_slash r
  end.

Definition path_join (p c : string) : string :=
  if ends_with_slash p then p ++ c else p ++ "/" ++ c.

Section Script.
Context {World : Type} (host : Host World).

(** The process: [sys.argv[1:]], [Path(sys.argv[0]).name],
    [os.getpid()], [os.uname().nodename], [os.path.abspath], the
    result of [script_sha256()], and the offset of local time from
    UTC. *)
Variable argv : list string.
Variable script_name : string.
Variable pid : Z.
Variable nodename : string.
Variable abspath : string -> string.
Variable script_digest : option string.
Variable utcoffset : Z -> Z.

Definition log (msg : string) : M World unit :=
  fun s =>
    print ("[" ++ Datetime.isoformat (now host (world s)) ++ "] " ++ msg) s.

Definition run_cmd (cmd : list string) (check capture : bool)
    (cwd : option string) : M World CompletedProcess :=
  run host cmd check capture cwd.

Fixpoint find_mountpoint (path : string) (lines : list string)
  : option string :=
  match lines with
  | [] => None
  | line :: rest =>
      match Py.split_tab line with
      | Some (name, mnt) =>
          if String.eqb mnt path then Some name
          else find_mountpoint path rest
      | None => find_mountpoint path rest
      end
  end.

Definition get_dataset_for_path (path : string)
  : M World (option string) :=
  result <- run_cmd ["zfs"; "list"; "-H"; "-o"; "name,mountpoint"]
                    false true None ;;
  if negb (returncode result =? 0) then ret None
  else ret (find_mountpoint path (Py.splitlines (Py.strip (stdout result)))).

Definition get_encryption_root (dataset : string)
  : M World (option string) :=
  result <- run_cmd ["zfs"; "get"; "-H"; "-o"; "value"; "encryptionroot";
                     dataset] false true None ;;
  if negb (returncode result =? 0) then ret None
  else
    let value := Py.strip (stdout result) in
    if Py.is_empty value || String.eqb value "-" then ret None
    else ret (Some value).

Definition get_keystatus (dataset : string) : M World (option string) :=
  result <- run_cmd ["zfs"; "get"; "-H"; "-o"; "value"; "keystatus";
                     dataset] false true None ;;
  if negb (returncode result =? 0) then ret None
  else ret (Py.or_none (Py.strip (stdout result))).

(** Lines 115 to 127 of [get_snapshot_creation_time]: restic's
    [--time] value from the completed [zfs get creation] call. *)
Definition creation_time_of (result : CompletedProcess)
  : Subprocess.result (option string) :=
  if negb (returncode result =? 0) then Ret None
  else
    let raw := Py.strip (stdout result) in
    if Py.is_empty raw then Ret None
    else
      match Py.int raw with
      | None => Ret None                          (* ValueError *)
      | Some epoch =>
          let epoch :=
            if epoch >? 10 ^ 12 then epoch / 1000000000 else epoch in
          match Datetime.fromtimestamp utcoffset epoch with
          | Datetime.Stamp dt => Ret (Some (Datetime.strftime_restic dt))
          | Datetime.OutOfRange => Ret None       (* ValueError, OSError *)
          | Datetime.OutOfTimeT => Raise OverflowError
          end
      end.

Definition get_snapshot_creation_time (snapshot_spec : string)
  : M World (option string) :=
  result <- run_cmd ["zfs"; "get"; "-H"; "-p"; "-o"; "value"; "creation";
                     snapshot_spec] false true None ;;
  lift (creation_time_of result).

(** [for line in lines: log(f"  {name}: {line}")] *)
Fixpoint log_lines (name : string) (lines : list string) : M World unit :=
  match lines with
  | [] => ret tt
  | line :: more => log ("  " ++ name ++ ": " ++ line) ;;; log_lines name more
  end.

(** The version loop of [main]: [Some 1] when [main] returns 1 from
    inside it. *)
Fixpoint check_versions (version_cmds : list (string * list string))
  : M World (option Z) :=
  match version_cmds with
  | [] => ret None
  | (name, cmd) :: rest =>
      early <-
        try_except
          (result <- run host cmd false true None ;;
           let out :=
             let o := Py.strip (stdout result) in
             if Py.is_empty o then Py.strip (stderr result) else o in
           if negb (returncode result =? 0) then
             log ("ERROR: " ++ name ++ " failed (exit "
                  ++ Py.str (returncode result) ++ ")") ;;;
             (if Py.is_empty out then ret tt else log out) ;;;
             ret (Some 1)
           else
             log_lines name
               (match Py.splitlines out with [] => ["ok"] | l => l end) ;;;
             ret None)
          (fun e =>
             match e with
             | FileNotFoundError =>
                 Some (log ("ERROR: " ++ name ++ " not found") ;;;
                       ret (Some 1))
             | _ => None
             end) ;;
      match early with
      | Some rc => ret (Some rc)
      | None => check_versions rest
      end
  end.

Definition usage : string :=
  "Usage: zfs-restic-backup.py [--restic-bin <path>] <mount_point> [-- <restic_args>...]".

(** Lines 161 to 170 of [main]: the restic command to run, or [None]
    when [main] returns 1 because the given binary is no executable
    file. *)
Definition restic_command (restic_bin : option string)
  : M World (option string) :=
  match restic_bin with
  | Some (String _ _ as restic_bin) =>
      restic_bin_path <- query (fun w => resolve host w restic_bin) ;;
      isf <- probe (is_file host) IsFile restic_bin_path ;;
      if negb isf then
        log ("ERROR: --restic-bin path is not a file: " ++ restic_bin_path) ;;;
        ret None
      else
        acc <- probe (access_x host) AccessX restic_bin_path ;;
        if negb acc then
          log ("ERROR: --restic-bin path is not executable: "
               ++ restic_bin_path) ;;;
          ret None
        else ret (Some restic_bin_path)
  | _ => ret (Some "restic")
  end.

Definition main : M World Z :=
  (* ---------- Parse CLI ---------- *)
  let '(restic_bin, mount_point, restic_cli_args) := parse_args argv in
  if Py.is_empty mount_point then
    (match restic_bin with
     | Some EmptyString => log "ERROR: --restic-bin requires a path argument"
     | _ => log "ERROR: Missing required argument: mount point"
     end) ;;;
    log usage ;;;
    ret 1
  else
  (* ---------- Validate optional restic binary ---------- *)
  checked <- restic_command restic_bin ;;
  match checked with
  | None => ret 1
  | Some restic_cmd =>
  let source_path := abspath mount_point in
  (* ---------- Requirements ---------- *)
  log (match script_digest with
       | Some (String _ _ as digest) =>
           "  " ++ script_name ++ ": sha256:" ++ digest
       | _ => "  " ++ script_name ++ ": (unable to read)"
       end) ;;;
  early <- check_versions [("zfs", ["zfs"; "version"]);
                           ("restic", [restic_cmd; "version"])] ;;
  match early with
  | Some rc => ret rc
  | None =>
  isd <- probe (is_dir host) IsDir source_path ;;
  if negb isd then
    log ("ERROR: Path " ++ source_path ++ " not found") ;;; ret 1
  else
  snap_ts <- query (now host) ;;
  let snap_name := snap_name_of pid nodename snap_ts in
  (* ---------- 1) ZFS lock check ---------- *)
  log "Checking ZFS dataset is unlocked..." ;;;
  ds <- get_dataset_for_path source_path ;;
  match ds with
  | Some (String _ _ as ds) =>
  locked <-
    (enc_root <- get_encryption_root ds ;;
     match enc_root with
     | Some (String _ _ as enc_root) =>
         status <- get_keystatus enc_root ;;
         if CheckUnlocked.is_locked_status status then
           log ("ERROR: " ++ source_path ++ " (encryption root " ++ enc_root
                ++ ") is LOCKED - unlock on TrueNAS first") ;;;
           ret true
         else if CheckUnlocked.not_available status then
           log ("ERROR: keystatus '" ++ CheckUnlocked.fmt_opt status
                ++ "' for " ++ enc_root) ;;;
           ret true
         else log ("  OK: " ++ source_path ++ " unlocked") ;;; ret false
     | _ =>
         log ("  OK: " ++ source_path ++ " (" ++ ds ++ ") not encrypted") ;;;
         ret false
     end) ;;
  if (locked : bool) then ret 1
  else
  (* ---------- 2) Create ZFS snapshot ---------- *)
  log "Creating ZFS snapshot..." ;;;
  _ <- run_cmd ["zfs"; "snapshot"; ds ++ "@" ++ snap_name] true false None ;;
  log ("  Created " ++ ds ++ "@" ++ snap_name) ;;;
  let snapshot_spec := ds ++ "@" ++ snap_name in
  restic_time <- get_snapshot_creation_time snapshot_spec ;;
  match restic_time with
  | Some (String _ _ as restic_time) =>
  let snapshot_dir :=
    path_join (path_join (path_join source_path ".zfs") "snapshot")
              snap_name in
  isd <- probe (is_dir host) IsDir snapshot_dir ;;
  if negb isd then
    log ("ERROR: Snapshot dir not found: " ++ snapshot_dir) ;;;
    _ <- run_cmd ["zfs"; "destroy"; snapshot_spec] false false None ;;
    ret 1
  else
  (* ---------- 3) Restic backup ---------- *)
  log "Running restic backup..." ;;;
  let cmd := ([restic_cmd; "backup"; "--time"; restic_time; "."]
              ++ restic_cli_args)%list in
  log ("  " ++ Py.join " " cmd) ;;;
  result <- run_cmd cmd false false (Some snapshot_dir) ;;
  if negb (returncode result =? 0) then
    log ("ERROR: restic backup failed (" ++ Py.str (returncode result)
         ++ ") - snapshot left in place: " ++ snap_name) ;;;
    ret (returncode result)
  else
  log "Destroying ZFS snapshot..." ;;;
  _ <- run_cmd ["zfs"; "destroy"; snapshot_spec] false false None ;;
  log "Done." ;;;
  ret 0
  | _ =>
    log "ERROR: could not read ZFS snapshot creation time" ;;;
    _ <- run_cmd ["zfs"; "destroy"; snapshot_spec] false false None ;;
    ret 1
  end
  | _ =>
    log ("ERROR: No ZFS dataset with mountpoint " ++ source_path) ;;;
    ret 1
  end
  end
  end.

End Script.

End Backup.

(** ** A simulated host

    A small machine with scripted [zfs] and [restic] programs, for running
    the two scripts on concrete inputs.  Its world is the list of the
    snapshots that exist. *)

Module Sim.
Import Subprocess.

Record Config : Type := mkConfig {
  mountpoint : string;      (* the one mounted dataset's mount point *)
  listing : string;         (* output of zfs list *)
  zfs_list_rc : Z;          (* exit code of zfs list *)
  encryptionroot : string;  (* output of zfs get encryptionroot *)
  keystatus : string;       (* output of zfs get keystatus *)
  keystatus_rc : Z;         (* exit code of zfs get keystatus *)
  snapshot_rc : Z;          (* exit code of zfs snapshot *)
  creation : string;        (* output of zfs get creation *)
  view_visible : bool;      (* snapshots show up under .zfs/snapshot *)
  restic_rc : Z;            (* exit code of restic backup *)
  clock : Datetime.datetime
}.

Definition World : Type := list string.

(** The text after the first ['@'] of a snapshot specification. *)
Fixpoint after_at (s : string) : string :=
  match s with
  | EmptyString => EmptyString
  | String c r => if Ascii.eqb c "@" then r else after_at r
  end.

Definition spawn (c : Config) (w : World) (i : Invocation)
  : Spawned * World :=
  let a := argv i in
  if Py.starts_with ["zfs"; "version"] a then (Exited 0 "zfs-2.2.4-1" "", w)
  else if Py.starts_with ["zfs"; "list"] a then
    (Exited (zfs_list_rc c) (listing c) "", w)
  else if Py.starts_with ["zfs"; "get"; "-H"; "-o"; "value"; "encryptionroot"] a
  then (Exited 0 (encryptionroot c) "", w)
  else if Py.starts_with ["zfs"; "get"; "-H"; "-o"; "value"; "keystatus"] a
  then (Exited (keystatus_rc c) (keystatus c) "", w)
  else if Py.starts_with ["zfs"; "get"; "-H"; "-p"; "-o"; "value"; "creation"] a
  then
    (if Py.contains (nth 7 a "") w then (Exited 0 (creation c) "", w)
     else (Exited 1 "" "dataset does not exist", w))
  else if Py.starts_with ["zfs"; "snapshot"] a then
    (if snapshot_rc c =? 0 then (Exited 0 "" "", nth 2 a "" :: w)
     else (Exited (snapshot_rc c) "" "cannot create snapshot", w))
  else if Py.starts_with ["zfs"; "destroy"] a then
    (Exited 0 "" "", List.filter (fun x => negb (String.eqb x (nth 2 a ""))) w)
  else if String.eqb (nth 1 a "") "version" then
    (Exited 0 "restic 0.16.4 compiled with go1.21.6 on linux/amd64" "", w)
  else if String.eqb (nth 1 a "") "backup" then
    (Exited (restic_rc c) "" "", w)
  else (NotFound, w).

Definition is_dir (c : Config) (w : World) (p : string) : bool :=
  String.eqb p (mountpoint c)
  || (view_visible c
      && existsb (fun sp => String.eqb p (mountpoint c ++ "/.zfs/snapshot/"
                                           ++ after_at sp)) w).

Definition host (c : Config) : Host World :=
  mkHost World (spawn c) (is_dir c)
         (fun _ p => String.eqb p "/usr/local/bin/restic")
         (fun _ p => String.eqb p "/usr/local/bin/restic")
         (fun _ p => p)
         (fun _ => clock c).

Definition tab : string := String "009" EmptyString.
Definition nl : string := String "010" EmptyString.

(** The end-to-end example of the specification: [/mnt/secrets] is the
    mount point of [tank/secrets], whose key is available; the snapshot
    is created on 2024-01-01 00:00:00 UTC. *)
Definition healthy : Config :=
  mkConfig "/mnt/secrets"
           ("tank" ++ tab ++ "/mnt/tank" ++ nl
            ++ "tank/secrets" ++ tab ++ "/mnt/secrets" ++ nl)
           0
           ("tank/secrets" ++ nl) ("available" ++ nl) 0 0
           ("1704067200" ++ nl) true 0
           (Datetime.mkDatetime 2024 1 1 0 0 5 250000).

Definition with_listing (l : string) (c : Config) : Config :=
  mkConfig (mountpoint c) l (zfs_list_rc c) (encryptionroot c)
           (keystatus c) (keystatus_rc c) (snapshot_rc c) (creation c)
           (view_visible c) (restic_rc c) (clock c).

Definition with_list_rc (rc : Z) (c : Config) : Config :=
  mkConfig (mountpoint c) (listing c) rc (encryptionroot c) (keystatus c)
           (keystatus_rc c) (snapshot_rc c) (creation c) (view_visible c)
           (restic_rc c) (clock c).

Definition with_encryptionroot (e : string) (c : Config) : Config :=
  mkConfig (mountpoint c) (listing c) (zfs_list_rc c) e (keystatus c)
           (keystatus_rc c) (snapshot_rc c) (creation c) (view_visible c)
           (restic_rc c) (clock c).

Definition with_keystatus (k : string) (c : Config) : Config :=
  mkConfig (mountpoint c) (listing c) (zfs_list_rc c) (encryptionroot c) k
           (keystatus_rc c) (snapshot_rc c) (creation c) (view_visible c)
           (restic_rc c) (clock c).

Definition with_keystatus_rc (rc : Z) (c : Config) : Config :=
  mkConfig (mountpoint c) (listing c) (zfs_list_rc c) (encryptionroot c)
           (keystatus c) rc (snapshot_rc c) (creation c) (view_visible c)
           (restic_rc c) (clock c).

Definition with_snapshot_rc (rc : Z) (c : Config) : Config :=
  mkConfig (mountpoint c) (listing c) (zfs_list_rc c) (encryptionroot c)
           (keystatus c) (keystatus_rc c) rc (creation c) (view_visible c)
           (restic_rc c) (clock c).

Definition with_creation (t : string) (c : Config) : Config :=
  mkConfig (mountpoint c) (listing c) (zfs_list_rc c) (encryptionroot c)
           (keystatus c) (keystatus_rc c) (snapshot_rc c) t
           (view_visible c) (restic_rc c) (clock c).

Definition with_view (b : bool) (c : Config) : Config :=
  mkConfig (mountpoint c) (listing c) (zfs_list_rc c) (encryptionroot c)
           (keystatus c) (keystatus_rc c) (snapshot_rc c) (creation c) b
           (restic_rc c) (clock c).

Definition with_restic_rc (rc : Z) (c : Config) : Config :=
  mkConfig (mountpoint c) (listing c) (zfs_list_rc c) (encryptionroot c)
           (keystatus c) (keystatus_rc c) (snapshot_rc c) (creation c)
           (view_visible c) rc (clock c).

(** The snapshot a backup of process 4242 on node [truenas.local] makes
    at the clock's time, and where it shows up. *)
Definition snapshot : string :=
  "tank/secrets@zfs-restic-4242-truenas-local-20240101-000005".

Definition view : string :=
  "/mnt/secrets/.zfs/snapshot/zfs-restic-4242-truenas-local-20240101-000005".

(** [os.path.abspath] in the working directory [/root], for paths
    that are normalised already. *)
Definition cwd : string := "/root".

Definition abspath (p : string) : string :=
  match p with
  | EmptyString => cwd
  | String c _ => if Ascii.eqb c "/" then p else cwd ++ "/" ++ p
  end.

(** [zfs-restic-backup.py <args>] as process 4242 on node
    [truenas.local], local time being UTC. *)
Definition backup (c : Config) (args : list string)
  : result Z * State World :=
  Backup.main (host c) args "zfs-restic-backup.py" 4242 "truenas.local"
              abspath (Some "0f3a") (fun _ => 0) (initial []).

(** [zfs-check-unlocked.py <paths>] *)
Definition check (c : Config) (paths : list string)
  : result Z * State World :=
  CheckUnlocked.main (host c) abspath
                     ("zfs-check-unlocked.py" :: paths) (initial []).

(** The host [h], except that it answers the invocations that satisfy
    [p] with [sp] and leaves the world as it is. *)
Definition answering (p : Invocation -> bool) (sp : Spawned)
    (h : Host World) : Host World :=
  mkHost World
         (fun w i => if p i then (sp, w) else Subprocess.spawn h w i)
         (Subprocess.is_dir h) (is_file h) (access_x h) (resolve h) (now h).

(** The two scripts on any host over the same world. *)
Definition backup_on (h : Host World) (args : list string)
  : result Z * State World :=
  Backup.main h args "zfs-restic-backup.py" 4242 "truenas.local"
              abspath (Some "0f3a") (fun _ => 0) (initial []).

Definition check_on (h : Host World) (paths : list string)
  : result Z * State World :=
  CheckUnlocked.main h abspath
                     ("zfs-check-unlocked.py" :: paths) (initial []).

End Sim.

(** ** Vocabulary of the statements *)

Module Spec.
Import Subprocess.

(** Every character of [s] satisfies [p]. *)
Fixpoint all_chars (p : ascii -> bool) (s : string) : bool :=
  match s with
  | EmptyString => true
  | String c r => p c && all_chars p r
  end.

(** [n] characters satisfying [p], then the rest. *)
Fixpoint take_chars (p : ascii -> bool) (n : nat) (s : string)
  : option string :=
  match n, s with
  | O, _ => Some s
  | S n', String c r => if p c then take_chars p n' r else None
  | S _, EmptyString => None
  end.

(** The literal character [c], then the rest. *)
Definition take_char (c : ascii) (s : string) : option string :=
  match s with
  | String c' r => if Ascii.eqb c' c then Some r else None
  | EmptyString => None
  end.

Definition and_then {A B} (o : option A) (f : A -> option B) : option B :=
  match o with Some a => f a | None => None end.

Definition at_end (o : option string) : bool :=
  match o with Some EmptyString => true | _ => false end.

(** The shape YYYYMMDD-HHMMSS. *)
Definition is_snap_stamp (s : string) : bool :=
  at_end (and_then (and_then (take_chars Py.is_digit 8 s) (take_char "-"))
                   (take_chars Py.is_digit 6)).

(** The shape YYYY-MM-DD HH:MM:SS. *)
Definition is_restic_time (s : string) : bool :=
  at_end
    (and_then (and_then (and_then (and_then (and_then (and_then (and_then
      (and_then (and_then (and_then
        (take_chars Py.is_digit 4 s) (take_char "-"))
        (take_chars Py.is_digit 2)) (take_char "-"))
        (take_chars Py.is_digit 2)) (take_char " "))
        (take_chars Py.is_digit 2)) (take_char ":"))
        (take_chars Py.is_digit 2)) (take_char ":"))
        (take_chars Py.is_digit 2)).

Definition two_digits (s : string) : bool :=
  at_end (take_chars Py.is_digit 2 s).

Definition four_digits (s : string) : bool :=
  at_end (take_chars Py.is_digit 4 s).

(** A calendar time with a four-digit year. *)
Definition four_digit_year (dt : Datetime.datetime) : Prop :=
  1000 <= Datetime.year dt <= 9999
  /\ 1 <= Datetime.month dt <= 12 /\ 1 <= Datetime.day dt <= 31
  /\ 0 <= Datetime.hour dt <= 23 /\ 0 <= Datetime.minute dt <= 59
  /\ 0 <= Datetime.second dt <= 59.

(** The world moves from [w] to [w'] along the events, each of them
    answered by the host. *)
Inductive replay {World} (h : Host World)
  : World -> list Event -> World -> Prop :=
| replay_nil w : replay h w [] w
| replay_ran w i r w' evs w'' :
    spawn h w i = (r, w') -> replay h w' evs w'' ->
    replay h w (Ran i r :: evs) w''
| replay_is_dir w p evs w' :
    replay h w evs w' -> replay h w (IsDir p (is_dir h w p) :: evs) w'
| replay_is_file w p evs w' :
    replay h w evs w' -> replay h w (IsFile p (is_file h w p) :: evs) w'
| replay_access_x w p evs w' :
    replay h w evs w' -> replay h w (AccessX p (access_x h w p) :: evs) w'.

(** From state [s] the script reaches [s'] through the events [evs],
    printing [lines]. *)
Definition leads {World} (h : Host World) (s : State World)
    (evs : list Event) (lines : list string) (s' : State World) : Prop :=
  trace s' = (trace s ++ evs)%list
  /\ printed s' = (printed s ++ lines)%list
  /\ replay h (world s) evs (world s').

(** What [subprocess.run] returns or raises for an outcome. *)
Definition completed (cmd : list string) (check capture : bool)
    (r : Spawned) : result CompletedProcess :=
  match r with
  | Exited rc out err =>
      if check && negb (rc =? 0) then Raise (CalledProcessError rc cmd)
      else Ret (mkCompleted cmd rc (if capture then out else "")
                            (if capture then err else ""))
  | NotFound => Raise FileNotFoundError
  | Failed => Raise OSError
  end.

(** The requests the scripts send to [zfs]. *)
Definition list_query : Invocation :=
  mkInvocation ["zfs"; "list"; "-H"; "-o"; "name,mountpoint"] true None.

Definition encryptionroot_query (dataset : string) : Invocation :=
  mkInvocation ["zfs"; "get"; "-H"; "-o"; "value"; "encryptionroot"; dataset]
               true None.

Definition keystatus_query (dataset : string) : Invocation :=
  mkInvocation ["zfs"; "get"; "-H"; "-o"; "value"; "keystatus"; dataset]
               true None.

Definition creation_query (snapshot : string) : Invocation :=
  mkInvocation ["zfs"; "get"; "-H"; "-p"; "-o"; "value"; "creation"; snapshot]
               true None.

Definition snapshot_request (snapshot : string) : Invocation :=
  mkInvocation ["zfs"; "snapshot"; snapshot] false None.

Definition destroy_request (snapshot : string) : Invocation :=
  mkInvocation ["zfs"; "destroy"; snapshot] false None.

(** The subcommand of an invocation: [zfs <verb> ...], [restic <verb> ...]. *)
Definition verb (i : Invocation) : string := nth 1 (argv i) "".

(** [zfs <v> ...] *)
Definition is_zfs (v : string) (i : Invocation) : bool :=
  String.eqb (verb i) v && String.eqb (nth 0 (argv i) "") "zfs".

Definition is_snapshot_request (i : Invocation) : bool := is_zfs "snapshot" i.

(** The events of the environment check: probes of the restic binary
    and version queries. *)
Definition is_environment_check (e : Event) : bool :=
  match e with
  | Ran i _ => String.eqb (verb i) "version"
  | IsFile _ _ | AccessX _ _ => true
  | IsDir _ _ => false
  end.

Definition is_destroy_request (i : Invocation) : bool := is_zfs "destroy" i.

(** [zfs get ... keystatus <dataset>] *)
Definition is_keystatus_query (i : Invocation) : bool :=
  is_zfs "get" i && String.eqb (nth 5 (argv i) "") "keystatus".

(** The backup-tool invocation: [<program> backup ...]. *)
Definition is_backup_invocation (i : Invocation) : bool :=
  String.eqb (verb i) "backup".

(** No destroy request among the events. *)
Definition no_destroy (evs : list Event) : bool :=
  forallb (fun e => match e with
                    | Ran i _ => negb (is_destroy_request i)
                    | _ => true
                    end) evs.

(** The snapshot named by the first snapshot request that exited with
    status 0, and the events after it. *)
Fixpoint first_snapshot (evs : list Event) : option (string * list Event) :=
  match evs with
  | [] => None
  | Ran i (Exited rc _ _) :: rest =>
      if is_snapshot_request i && (rc =? 0)
      then Some (nth 2 (argv i) "", rest)
      else first_snapshot rest
  | _ :: rest => first_snapshot rest
  end.

(** The (name, mountpoint) entries of a [zfs list] output: one for each
    line that has a TAB. *)
Definition listing (out : string) : list (string * string) :=
  flat_map (fun line =>
              match Py.split_tab line with Some e => [e] | None => [] end)
           (Py.splitlines (Py.strip out)).

(** The name of the first entry whose mountpoint is exactly [path]. *)
Fixpoint lookup (path : string) (l : list (string * string))
  : option string :=
  match l with
  | [] => None
  | (name, mnt) :: rest =>
      if String.eqb mnt path then Some name else lookup path rest
  end.

(** Dataset resolution, from the outcome of the one listing call. *)
Definition resolved (path : string) (r : Spawned) : result (option string) :=
  match r with
  | Exited rc out _ =>
      Ret (if rc =? 0 then lookup path (listing out) else None)
  | NotFound => Raise FileNotFoundError
  | Failed => Raise OSError
  end.

(** Creation time that is read as far as seconds: the integer of the
    output, scaled down when it is above 10^12. *)
Definition epoch_seconds (n : Z) : Z :=
  if n >? 10 ^ 12 then n / 10 ^ 9 else n.

(** Some event is an invocation that satisfies [p]. *)
Definition some_invocation (p : Invocation -> bool) (evs : list Event)
  : bool :=
  existsb (fun e => match e with Ran i _ => p i | _ => false end) evs.

Definition has_keystatus_query : list Event -> bool :=
  some_invocation is_keystatus_query.

Definition requests_snapshot : list Event -> bool :=
  some_invocation is_snapshot_request.

Definition has_backup : list Event -> bool :=
  some_invocation is_backup_invocation.

(** The encryption-root attribute, as answered with exit status [rc] and
    output [out], is absent, empty or the sentinel for none. *)
Definition no_encryption_root (rc : Z) (out : string) : bool :=
  negb (rc =? 0) || Py.is_empty (Py.strip out)
  || String.eqb (Py.strip out) "-".

(** The three classes of a keystatus answer: [available] is unlocked,
    [unavailable] and [locked] are locked, anything else (an unreadable
    or empty status too) is unexpected. *)
Inductive keystate : Type := Available | Locked | Unexpected.

Definition keystate_of (rc : Z) (out : string) : keystate :=
  if negb (rc =? 0) then Unexpected
  else
    let v := Py.strip out in
    if String.eqb v "available" then Available
    else if String.eqb v "unavailable" || String.eqb v "locked" then Locked
    else Unexpected.

(** The keystatus as the scripts hold it: [None] when it is unreadable
    or empty. *)
Definition status_of (rc : Z) (out : string) : option string :=
  if rc =? 0 then Py.or_none (Py.strip out) else None.

(** What the check script takes as a pass of the path [p], read off
    the events [evs] of its check: the listing resolves [p] to a
    dataset, and the encryption-root query for that dataset is answered
    with no root (a query that fails, an empty answer or ["-"]), or
    with a root whose keystatus query is answered [available]. *)
Definition passes (p : string) (evs : list Event) : Prop :=
  exists sp dataset rc out err,
    resolved p sp = Ret (Some dataset) /\ dataset <> ""
    /\ ((no_encryption_root rc out = true
         /\ evs = [Ran list_query sp;
                   Ran (encryptionroot_query dataset) (Exited rc out err)])
        \/ (no_encryption_root rc out = false
            /\ exists rc' out' err',
                keystate_of rc' out' = Available
                /\ evs = [Ran list_query sp;
                          Ran (encryptionroot_query dataset)
                              (Exited rc out err);
                          Ran (keystatus_query (Py.strip out))
                              (Exited rc' out' err')])).

(** The paths checked in a run of the check script, each with the
    events of its check and the message it got. *)
Definition Verdict : Type := string * list Event * option string.

Definition path_of (v : Verdict) : string := fst (fst v).
Definition events_of (v : Verdict) : list Event := snd (fst v).
Definition message_of (v : Verdict) : option string := snd v.

(** The messages of the paths that failed, in order. *)
Definition diagnostics (vs : list Verdict) : list string :=
  flat_map (fun v => match message_of v with Some m => [m] | None => [] end)
           vs.

Definition silent (v : Verdict) : bool :=
  match message_of v with None => true | Some _ => false end.

(** [--restic-bin v] for each [v], in order. *)
Definition restic_bin_options (vs : list string) : list string :=
  flat_map (fun v => ["--restic-bin"; v]) vs.

(** The value [parse_args] keeps of repeated [--restic-bin] options. *)
Definition last_restic_bin (vs : list string) : option string :=
  fold_left (fun _ v => Some (Py.strip v)) vs None.

(** A line of [log] that carries [msg]: the time in ISO format between
    brackets, a space, the message. *)
Definition logged (msg line : string) : Prop :=
  exists dt, line = "[" ++ Datetime.isoformat dt ++ "] " ++ msg.

(** The event is a program run. *)
Definition is_run (e : Event) : bool :=
  match e with Ran _ _ => true | _ => false end.

(** The program ran and exited with status 0. *)
Definition exited_zero (sp : Spawned) : bool :=
  match sp with Exited rc _ _ => rc =? 0 | _ => false end.

(** What the version loop logs for a program that is missing or that
    exits with a nonzero status. *)
Definition version_failure (name : string) (sp : Spawned) : string :=
  match sp with
  | Exited rc _ _ =>
      "ERROR: " ++ name ++ " failed (exit " ++ Py.str rc ++ ")"
  | _ => "ERROR: " ++ name ++ " not found"
  end.

(** What [subprocess.run] raises when the program cannot be started. *)
Definition start_error (sp : Spawned) : option exn :=
  match sp with
  | Exited _ _ _ => None
  | NotFound => Some FileNotFoundError
  | Failed => Some OSError
  end.

(** The read-only requests: [zfs list ...] and [zfs get ...]. *)
Definition is_read_only (e : Event) : bool :=
  match e with
  | Ran i _ => is_zfs "list" i || is_zfs "get" i
  | _ => false
  end.

End Spec.
(** ** Facts about the Python primitives *)

Section PyFacts.

Lemma length_append (a b : string) :
  String.length (a ++ b) = (String.length a + String.length b)%nat.
Proof. induction a as [|c a IH]; simpl; [reflexivity | now rewrite IH]. Qed.

Lemma append_inv_tail (a b t : string) : a ++ t = b ++ t -> a = b.
Proof.
  revert b. induction a as [|c a IH]; intros [|d b] H; simpl in *.
  - reflexivity.
  - apply (f_equal String.length) in H. simpl in H.
    rewrite length_append in H. lia.
  - apply (f_equal String.length) in H. simpl in H.
    rewrite length_append in H. lia.
  - injection H as -> H. f_equal. now apply IH.
Qed.

Lemma str_inj (n m : Z) : Py.str n = Py.str m -> n = m.
Proof.
  unfold Py.str. intros H.
  apply DecimalZ.to_int_inj.
  assert (E : Some (Z.to_int n) = Some (Z.to_int m))
    by (rewrite <- !NilEmpty.isi; now rewrite H).
  now injection E.
Qed.

Lemma all_chars_app p a b :
  Spec.all_chars p (a ++ b) = Spec.all_chars p a && Spec.all_chars p b.
Proof.
  induction a as [|c a IH]; simpl; [reflexivity|].
  now rewrite IH, andb_assoc.
Qed.

Lemma uint_digits (d : Decimal.uint) :
  Spec.all_chars Py.is_digit (NilEmpty.string_of_uint d) = true.
Proof. induction d; simpl; auto. Qed.

Lemma str_digits (n : Z) :
  0 <= n -> Spec.all_chars Py.is_digit (Py.str n) = true.
Proof.
  intros Hn. unfold Py.str. destruct n as [|p|p]; try lia.
  - reflexivity.
  - simpl. apply uint_digits.
Qed.

Lemma all_chars_lstrip p q s :
  Spec.all_chars p s = true -> Spec.all_chars p (Py.lstrip_with q s) = true.
Proof.
  induction s as [|c s IH]; simpl; [easy|].
  intros H. apply andb_true_iff in H as [Hc Hs].
  destruct (q c); [auto|]. simpl. now rewrite Hc, Hs.
Qed.

Lemma all_chars_rstrip p q s :
  Spec.all_chars p s = true -> Spec.all_chars p (Py.rstrip_with q s) = true.
Proof.
  induction s as [|c s IH]; simpl; [easy|].
  intros H. apply andb_true_iff in H as [Hc Hs].
  specialize (IH Hs).
  destruct (Py.rstrip_with q s) eqn:E.
  - destruct (q c); simpl; [reflexivity|]. now rewrite Hc.
  - simpl in *. now rewrite Hc, IH.
Qed.

Lemma sub_name_chars_ok s :
  Spec.all_chars Backup.is_name_char (Backup.sub_name_chars s) = true.
Proof.
  induction s as [|c s IH]; simpl; [reflexivity|].
  rewrite IH, andb_true_r.
  destruct (Backup.is_name_char c) eqn:E; [exact E|reflexivity].
Qed.

(** A property checked on every number below [N] holds below [N]. *)
Lemma below_forall (P : Z -> bool) (N : Z) :
  forallb (fun k => P (Z.of_nat k)) (seq 0 (Z.to_nat N)) = true ->
  forall n, 0 <= n < N -> P n = true.
Proof.
  intros H n Hn. rewrite forallb_forall in H.
  rewrite <- (Z2Nat.id n) by lia. apply H.
  apply in_seq. lia.
Qed.

Lemma pad2_table :
  forallb (fun k => Spec.two_digits (Datetime.pad2 (Z.of_nat k)))
          (seq 0 (Z.to_nat 100)) = true.
Proof. vm_compute. reflexivity. Qed.

Lemma str_table :
  forallb (fun k => (Z.of_nat k <? 1000)
                    || Spec.four_digits (Py.str (Z.of_nat k)))
          (seq 0 (Z.to_nat 10000)) = true.
Proof. vm_compute. reflexivity. Qed.

Lemma pad2_two_digits (n : Z) :
  0 <= n < 100 ->
  exists a b, Datetime.pad2 n = String a (String b EmptyString)
              /\ Py.is_digit a = true /\ Py.is_digit b = true.
Proof.
  intros Hn.
  pose proof (below_forall (fun n => Spec.two_digits (Datetime.pad2 n))
                           100 pad2_table n Hn) as H.
  cbv beta in H. unfold Spec.two_digits in H.
  destruct (Datetime.pad2 n) as [|a [|b [|]]]; simpl in H; try discriminate;
    destruct (Py.is_digit a) eqn:Ea; try discriminate;
    destruct (Py.is_digit b) eqn:Eb; try discriminate.
  exists a, b. tauto.
Qed.

Lemma str_four_digits (n : Z) :
  1000 <= n <= 9999 ->
  exists a b c d,
    Py.str n = String a (String b (String c (String d EmptyString)))
    /\ Py.is_digit a = true /\ Py.is_digit b = true
    /\ Py.is_digit c = true /\ Py.is_digit d = true.
Proof.
  intros Hn.
  assert (Hn' : 0 <= n < 10000) by lia.
  pose proof (below_forall
                (fun n => (n <? 1000) || Spec.four_digits (Py.str n))
                10000 str_table n Hn') as H.
  cbv beta in H. unfold Spec.four_digits in H.
  destruct (Z.ltb_spec n 1000); [lia|]. simpl in H.
  destruct (Py.str n) as [|a [|b [|c [|d [|]]]]]; simpl in H;
    try discriminate;
    destruct (Py.is_digit a) eqn:Ea; try discriminate;
    destruct (Py.is_digit b) eqn:Eb; try discriminate;
    destruct (Py.is_digit c) eqn:Ec; try discriminate;
    destruct (Py.is_digit d) eqn:Ed; try discriminate.
  exists a, b, c, d. tauto.
Qed.

Lemma snap_stamp_shape (dt : Datetime.datetime) :
  Spec.four_digit_year dt ->
  Spec.is_snap_stamp (Datetime.strftime_snap dt) = true.
Proof.
  intros (Hy & Hm & Hd & HH & HM & HS).
  unfold Datetime.strftime_snap.
  destruct (str_four_digits _ Hy) as (y1 & y2 & y3 & y4 & -> & ? & ? & ? & ?).
  destruct (pad2_two_digits (Datetime.month dt)) as (m1 & m2 & -> & ? & ?);
    [lia|].
  destruct (pad2_two_digits (Datetime.day dt)) as (d1 & d2 & -> & ? & ?);
    [lia|].
  destruct (pad2_two_digits (Datetime.hour dt)) as (h1 & h2 & -> & ? & ?);
    [lia|].
  destruct (pad2_two_digits (Datetime.minute dt)) as (i1 & i2 & -> & ? & ?);
    [lia|].
  destruct (pad2_two_digits (Datetime.second dt)) as (s1 & s2 & -> & ? & ?);
    [lia|].
  unfold Spec.is_snap_stamp.
  repeat first
    [ progress cbn -[Py.is_digit]
    | match goal with
      | H : Py.is_digit ?c = true |- context [Py.is_digit ?c] => rewrite H
      end ].
  reflexivity.
Qed.

Lemma restic_time_shape (dt : Datetime.datetime) :
  Spec.four_digit_year dt ->
  Spec.is_restic_time (Datetime.strftime_restic dt) = true.
Proof.
  intros (Hy & Hm & Hd & HH & HM & HS).
  unfold Datetime.strftime_restic.
  destruct (str_four_digits _ Hy) as (y1 & y2 & y3 & y4 & -> & ? & ? & ? & ?).
  destruct (pad2_two_digits (Datetime.month dt)) as (m1 & m2 & -> & ? & ?);
    [lia|].
  destruct (pad2_two_digits (Datetime.day dt)) as (d1 & d2 & -> & ? & ?);
    [lia|].
  destruct (pad2_two_digits (Datetime.hour dt)) as (h1 & h2 & -> & ? & ?);
    [lia|].
  destruct (pad2_two_digits (Datetime.minute dt)) as (i1 & i2 & -> & ? & ?);
    [lia|].
  destruct (pad2_two_digits (Datetime.second dt)) as (s1 & s2 & -> & ? & ?);
    [lia|].
  unfold Spec.is_restic_time.
  repeat first
    [ progress cbn -[Py.is_digit]
    | match goal with
      | H : Py.is_digit ?c = true |- context [Py.is_digit ?c] => rewrite H
      end ].
  reflexivity.
Qed.

End PyFacts.

(** ** The last element of a list *)

Section LastElement.

Lemma last_app_cons {A} (pre : list A) (x : A) (post : list A) (d : A) :
  last (pre ++ x :: post) d = last (x :: post) d.
Proof.
  induction pre as [|y pre IH]; [reflexivity|].
  cbn [app]. rewrite <- IH. destruct pre; reflexivity.
Qed.

Lemma last_in_cons {A} (y : A) (l : list A) (x d : A) :
  In x l -> last (y :: l) d = last l d.
Proof. destruct l; [intros []|reflexivity]. Qed.

Lemma last_app_in {A} (pre l : list A) (x d : A) :
  In x l -> last (pre ++ l) d = last l d.
Proof.
  destruct l as [|y l]; [intros []|]. intros _. apply last_app_cons.
Qed.

End LastElement.

(** ** Calendar facts *)

Section Calendar.

Lemma day_of_era_range (z : Z) :
  0 <= z - z / 146097 * 146097 <= 146096.
Proof. Z.div_mod_to_equations. lia. Qed.

Lemma day_of_year_range (doe : Z) :
  0 <= doe <= 146096 ->
  let yoe := (doe - doe / 1460 + doe / 36524 - doe / 146096) / 365 in
  0 <= doe - (365 * yoe + yoe / 4 - yoe / 100) <= 365.
Proof. intros H yoe. subst yoe. Z.div_mod_to_equations. lia. Qed.

Lemma month_day_range (doy : Z) :
  0 <= doy <= 365 ->
  let mp := (5 * doy + 2) / 153 in
  0 <= mp <= 11 /\ 1 <= doy - (153 * mp + 2) / 5 + 1 <= 31.
Proof. intros H mp. subst mp. Z.div_mod_to_equations. lia. Qed.

Lemma civil_of_days_range (z y m d : Z) :
  Datetime.civil_of_days z = (y, m, d) -> 1 <= m <= 12 /\ 1 <= d <= 31.
Proof.
  unfold Datetime.civil_of_days. cbv zeta. intros H.
  apply pair_equal_spec in H as [H Hd].
  apply pair_equal_spec in H as [_ Hm].
  pose proof (day_of_era_range (z + 719468)) as Hdoe.
  pose proof (day_of_year_range _ Hdoe) as Hdoy. cbv zeta in Hdoy.
  pose proof (month_day_range _ Hdoy) as [Hmp Hday]. cbv zeta in Hmp, Hday.
  split; [|lia].
  match type of Hm with (if ?b then _ else _) = _ => destruct b eqn:E end;
    lia.
Qed.

Lemma fromtimestamp_range (utcoffset : Z -> Z) (t : Z)
    (dt : Datetime.datetime) :
  Datetime.fromtimestamp utcoffset t = Datetime.Stamp dt ->
  1 <= Datetime.year dt <= 9999
  /\ 1 <= Datetime.month dt <= 12 /\ 1 <= Datetime.day dt <= 31
  /\ 0 <= Datetime.hour dt <= 23 /\ 0 <= Datetime.minute dt <= 59
  /\ 0 <= Datetime.second dt <= 59.
Proof.
  unfold Datetime.fromtimestamp.
  destruct (negb _); [discriminate|].
  destruct (Datetime.civil_of_days _) as [[y m] d] eqn:E.
  apply civil_of_days_range in E.
  unfold Datetime.is_year at 1.
  destruct (Z.leb_spec 1 y); [|discriminate].
  destruct (Z.leb_spec y 9999); [|discriminate].
  cbn [andb negb].
  destruct (negb _); [discriminate|].
  destruct (_ && _); [discriminate|].
  intros [= <-]. simpl.
  repeat split; try lia; Z.div_mod_to_equations; lia.
Qed.

(** The first local day of year 1 has no day before it to probe. *)
Lemma fromtimestamp_first_day :
  Datetime.fromtimestamp (fun _ => 0) (-62135596800) = Datetime.OutOfRange.
Proof. vm_compute. reflexivity. Qed.

Lemma fromtimestamp_second_day :
  Datetime.fromtimestamp (fun _ => 0) (-62135510400)
  = Datetime.Stamp (Datetime.mkDatetime 1 1 2 0 0 0 0).
Proof. vm_compute. reflexivity. Qed.

End Calendar.
(** ** Command-line parsing *)

Section ParseArgs.

Lemma parse_args_from_options (vs tail : list string) (rb : option string) :
  Backup.parse_args_from rb (Spec.restic_bin_options vs ++ tail)
  = Backup.parse_args_from
      (fold_left (fun _ v => Some (Py.strip v)) vs rb) tail.
Proof.
  revert rb. induction vs as [|v vs IH]; intros rb; [reflexivity|].
  simpl. apply IH.
Qed.

Lemma contains_separator (x : string) (pre post : list string) :
  Py.contains x (pre ++ x :: post) = true.
Proof.
  induction pre as [|y pre IH]; simpl.
  - now rewrite String.eqb_refl.
  - rewrite IH. apply orb_true_r.
Qed.

Lemma after_first_separator (x : string) (pre post : list string) :
  ~ In x pre -> Py.after_first x (pre ++ x :: post) = Some post.
Proof.
  induction pre as [|y pre IH]; simpl; intros H.
  - now rewrite String.eqb_refl.
  - destruct (String.eqb_spec y x) as [->|_]; [tauto|]. apply IH. tauto.
Qed.

Lemma parse_args_from_separator (rb : option string) (m : string)
    (mid rest : list string) :
  m <> "--restic-bin" -> ~ In "--" (m :: mid) ->
  Backup.parse_args_from rb (m :: mid ++ "--" :: rest)
  = (rb, Py.strip m, rest).
Proof.
  intros Hm Hsep.
  change (m :: mid ++ "--" :: rest)%list
    with ((m :: mid) ++ "--" :: rest)%list.
  unfold Backup.parse_args_from. cbn [app].
  destruct (String.eqb_spec m "--restic-bin") as [E|_]; [contradiction|].
  change (m :: mid ++ "--" :: rest)%list
    with ((m :: mid) ++ "--" :: rest)%list.
  rewrite contains_separator, after_first_separator by exact Hsep.
  reflexivity.
Qed.

End ParseArgs.
(** ** Running the scripts step by step *)

Section Steps.
Import Subprocess.
Context {World : Type} (host : Host World).

Lemma replay_app (w w' w'' : World) (e1 e2 : list Event) :
  Spec.replay host w e1 w' -> Spec.replay host w' e2 w'' ->
  Spec.replay host w (e1 ++ e2) w''.
Proof.
  induction 1; simpl; intros; [assumption | econstructor; eauto | ..];
    constructor; auto.
Qed.

Lemma leads_refl (s : State World) : Spec.leads host s [] [] s.
Proof.
  unfold Spec.leads. rewrite !app_nil_r. repeat split. constructor.
Qed.

Lemma leads_trans (s s1 s2 : State World) e1 l1 e2 l2 :
  Spec.leads host s e1 l1 s1 -> Spec.leads host s1 e2 l2 s2 ->
  Spec.leads host s (e1 ++ e2) (l1 ++ l2) s2.
Proof.
  intros (T1 & P1 & R1) (T2 & P2 & R2). repeat split.
  - now rewrite T2, T1, app_assoc.
  - now rewrite P2, P1, app_assoc.
  - eapply replay_app; eauto.
Qed.

Lemma bind_inv {A B} (c : M World A) (k : A -> M World B) s r s' :
  bind c k s = (r, s') ->
  (exists a s1, c s = (Ret a, s1) /\ k a s1 = (r, s'))
  \/ (exists e, c s = (Raise e, s') /\ r = Raise e).
Proof.
  unfold bind. destruct (c s) as [[a|e] s1]; intros H.
  - left. eauto.
  - right. injection H as <- <-. eauto.
Qed.

Lemma ret_inv {A} (a : A) (s : State World) r s' :
  ret a s = (r, s') -> r = Ret a /\ s' = s.
Proof. unfold ret. intros [= <- <-]. auto. Qed.

Lemma raise_inv {A} (e : exn) (s : State World) (r : result A) s' :
  raise e s = (r, s') -> r = Raise e /\ s' = s.
Proof. unfold raise. intros [= <- <-]. auto. Qed.

Lemma lift_inv {A} (x : result A) (s : State World) r s' :
  lift x s = (r, s') -> r = x /\ s' = s.
Proof. unfold lift. intros [= <- <-]. auto. Qed.

Lemma print_inv (msg : string) (s : State World) r s' :
  print msg s = (r, s') -> r = Ret tt /\ Spec.leads host s [] [msg] s'.
Proof.
  unfold print. intros [= <- <-]. split; [reflexivity|].
  unfold Spec.leads; simpl. rewrite app_nil_r. repeat split. constructor.
Qed.

Lemma log_inv (msg : string) (s : State World) r s' :
  Backup.log host msg s = (r, s') ->
  r = Ret tt
  /\ Spec.leads host s []
       ["[" ++ Datetime.isoformat (now host (world s)) ++ "] " ++ msg] s'.
Proof. unfold Backup.log. apply print_inv. Qed.

Lemma query_inv {A} (f : World -> A) (s : State World) r s' :
  query f s = (r, s') -> r = Ret (f (world s)) /\ s' = s.
Proof. unfold query. intros [= <- <-]. auto. Qed.

Lemma is_dir_inv (p : string) (s : State World) r s' :
  probe (is_dir host) IsDir p s = (r, s') ->
  exists b, r = Ret b /\ Spec.leads host s [IsDir p b] [] s'.
Proof.
  unfold probe. intros [= <- <-]. eexists. split; [reflexivity|].
  unfold Spec.leads; simpl. rewrite app_nil_r. repeat split.
  repeat constructor.
Qed.

Lemma is_file_inv (p : string) (s : State World) r s' :
  probe (is_file host) IsFile p s = (r, s') ->
  exists b, r = Ret b /\ Spec.leads host s [IsFile p b] [] s'.
Proof.
  unfold probe. intros [= <- <-]. eexists. split; [reflexivity|].
  unfold Spec.leads; simpl. rewrite app_nil_r. repeat split.
  repeat constructor.
Qed.

Lemma access_x_inv (p : string) (s : State World) r s' :
  probe (access_x host) AccessX p s = (r, s') ->
  exists b, r = Ret b /\ Spec.leads host s [AccessX p b] [] s'.
Proof.
  unfold probe. intros [= <- <-]. eexists. split; [reflexivity|].
  unfold Spec.leads; simpl. rewrite app_nil_r. repeat split.
  repeat constructor.
Qed.

Lemma try_except_inv {A} (body : M World A)
    (handler : exn -> option (M World A)) s r s' :
  try_except body handler s = (r, s') ->
  (exists a, body s = (Ret a, s') /\ r = Ret a)
  \/ (exists e s1,
        body s = (Raise e, s1)
        /\ ((handler e = None /\ r = Raise e /\ s' = s1)
            \/ (exists h, handler e = Some h /\ h s1 = (r, s')))).
Proof.
  unfold try_except. destruct (body s) as [[a|e] s1]; intros H.
  - left. injection H as <- <-. eauto.
  - right. exists e, s1. split; [reflexivity|].
    destruct (handler e) as [h|]; [right; eauto|].
    left. injection H as <- <-. auto.
Qed.

Lemma log_lines_inv (name : string) (lines : list string) s r s' :
  Backup.log_lines host name lines s = (r, s') ->
  r = Ret tt /\ exists printed, Spec.leads host s [] printed s'.
Proof.
  revert s. induction lines as [|line more IH]; intros s H; simpl in H.
  - apply ret_inv in H as [-> ->]. split; [reflexivity|].
    eexists. apply leads_refl.
  - apply bind_inv in H as [(a & s1 & Hc & Hk) | (e & Hc & ->)].
    + apply log_inv in Hc as [_ L1]. apply IH in Hk as [-> [p L2]].
      split; [reflexivity|]. eexists.
      exact (leads_trans _ _ _ _ _ _ _ L1 L2).
    + apply log_inv in Hc as [Hc _]. discriminate Hc.
Qed.

Lemma run_inv (cmd : list string) (check capture : bool)
    (cwd : option string) (s : State World) r s' :
  run host cmd check capture cwd s = (r, s') ->
  exists sp,
    Spec.leads host s [Ran (mkInvocation cmd capture cwd) sp] [] s'
    /\ r = Spec.completed cmd check capture sp.
Proof.
  unfold run.
  destruct (spawn host (world s) (mkInvocation cmd capture cwd))
    as [sp w'] eqn:E.
  intros H. exists sp.
  assert (L : Spec.leads host s [Ran (mkInvocation cmd capture cwd) sp] []
                (mkState w' (trace s ++ [Ran (mkInvocation cmd capture cwd) sp])
                         (printed s))).
  { unfold Spec.leads; simpl. rewrite app_nil_r. repeat split.
    econstructor; [exact E | constructor]. }
  destruct sp as [rc out err| |]; simpl in *.
  - destruct (check && negb (rc =? 0)); injection H as <- <-; auto.
  - injection H as <- <-; auto.
  - injection H as <- <-; auto.
Qed.

Section Snapshots.
(** What the host is assumed to do with snapshots: a snapshot request
    that exits with status 0 creates the snapshot it names, and only a
    destroy request removes a snapshot. *)
Variable exists_snapshot : World -> string -> Prop.
Hypothesis created :
  forall w i out err w',
    spawn host w i = (Exited 0 out err, w') ->
    Spec.is_snapshot_request i = true ->
    exists_snapshot w' (nth 2 (argv i) "").
Hypothesis kept :
  forall w i r w' snap,
    spawn host w i = (r, w') ->
    Spec.is_destroy_request i = false ->
    exists_snapshot w snap -> exists_snapshot w' snap.

Lemma replay_keeps w evs w' snap :
  Spec.replay host w evs w' ->
  Spec.no_destroy evs = true ->
  exists_snapshot w snap -> exists_snapshot w' snap.
Proof.
  induction 1; simpl; intros Hn Hs; auto.
  apply andb_true_iff in Hn as [Hi Hn]. apply negb_true_iff in Hi.
  eauto.
Qed.

Lemma replay_first_snapshot w evs w' snap post :
  Spec.replay host w evs w' ->
  Spec.first_snapshot evs = Some (snap, post) ->
  Spec.no_destroy post = true ->
  exists_snapshot w' snap.
Proof.
  induction 1 as [w|w i r w1 evs w2 Hsp Hrep IH| | |]; simpl;
    intros Hf Hn; auto; try discriminate.
  destruct r as [rc out err| |]; auto.
  destruct (Spec.is_snapshot_request i) eqn:Ei; simpl in Hf; auto.
  destruct (Z.eqb_spec rc 0) as [->|]; auto.
  injection Hf as <- <-.
  eapply replay_keeps; eauto.
Qed.
End Snapshots.

End Steps.
(** Symbolic execution of a hypothesis [H : c s = (r, s')]: the run is cut
    at every call, each call contributes a [Spec.leads] fact, and
    consecutive facts are joined. *)

Ltac join_leads :=
  repeat match goal with
  | H1 : Spec.leads ?h ?a ?e1 ?l1 ?b, H2 : Spec.leads ?h ?b ?e2 ?l2 ?c |- _ =>
      let L := fresh "L" in
      pose proof (leads_trans h a b c e1 l1 e2 l2 H1 H2) as L;
      clear H1 H2; rewrite <- ?app_assoc in L; cbn [app] in L
  end.

Ltac tidy :=
  repeat match goal with
  | H : _ /\ _ |- _ => destruct H
  | H : exists _, _ |- _ => destruct H
  | H : Subprocess.Ret _ = Subprocess.Ret _ |- _ => injection H as H
  | H : Subprocess.Raise _ = Subprocess.Raise _ |- _ => injection H as H
  | H : Subprocess.Ret _ = Subprocess.Raise _ |- _ => discriminate H
  | H : Subprocess.Raise _ = Subprocess.Ret _ |- _ => discriminate H
  | H : Some _ = Some _ |- _ => injection H as H
  | H : Some _ = None |- _ => discriminate H
  | H : None = Some _ |- _ => discriminate H
  | H : (_, _) = (_, _) |- _ => injection H as ? ?
  | H : ?x = _ |- _ => is_var x; subst x
  | H : _ = ?x |- _ => is_var x; subst x
  end.

Ltac reduce_in H := cbv beta iota in H.

Ltac exec H :=
  cbn [Subprocess.returncode Subprocess.stdout Subprocess.stderr
       Subprocess.args negb andb] in H;
  lazymatch type of H with
  | Subprocess.bind _ _ _ = _ =>
      let Hc := fresh "Hc" in
      let Hk := fresh "Hk" in
      apply (bind_inv) in H;
      destruct H as [(? & ? & Hc & Hk) | (? & Hc & ?)];
      [ exec Hc; exec Hk | exec Hc ]
  | Subprocess.ret _ _ = _ => apply ret_inv in H; tidy
  | Subprocess.raise _ _ = _ => apply raise_inv in H; tidy
  | Subprocess.lift _ _ = _ => apply lift_inv in H; tidy
  | Subprocess.print _ _ = _ =>
      eapply print_inv in H; tidy; join_leads
  | Backup.log _ _ _ = _ => apply log_inv in H; tidy; join_leads
  | Subprocess.query _ _ = _ => apply query_inv in H; tidy
  | Subprocess.probe (Subprocess.is_dir _) _ _ _ = _ =>
      apply is_dir_inv in H; tidy; join_leads
  | Subprocess.probe (Subprocess.is_file _) _ _ _ = _ =>
      apply is_file_inv in H; tidy; join_leads
  | Subprocess.probe (Subprocess.access_x _) _ _ _ = _ =>
      apply access_x_inv in H; tidy; join_leads
  | Subprocess.run _ _ _ _ _ _ = _ =>
      let sp := fresh "sp" in
      let L := fresh "L" in
      let E := fresh "E" in
      apply run_inv in H; destruct H as (sp & L & E);
      unfold Spec.completed in E;
      destruct sp as [?rc ?out ?err| |]; cbn [negb andb] in E;
      try lazymatch type of E with
          | _ = (if negb (?rc =? 0) then _ else _) =>
              destruct (rc =? 0) eqn:?; cbn [negb] in E
          end;
      tidy; join_leads
  | Subprocess.try_except _ _ _ = _ =>
      let Hb := fresh "Hb" in
      let Hh := fresh "Hh" in
      let Hk := fresh "Hk" in
      apply try_except_inv in H;
      destruct H as [(? & Hb & ?)
                    | (? & ? & Hb & [(Hh & ? & ?) | (? & Hh & Hk)])];
      [ exec Hb
      | exec Hb; try reduce_in Hh; tidy
      | exec Hb; try reduce_in Hh; tidy; exec Hk ]
  | Backup.log_lines _ _ _ _ = _ =>
      apply log_lines_inv in H; tidy; join_leads
  | Backup.check_versions _ _ _ = _ =>
      cbn [Backup.check_versions] in H; exec H
  | Backup.run_cmd _ _ _ _ _ _ = _ => unfold Backup.run_cmd in H; exec H
  | CheckUnlocked.run_cmd _ _ _ _ = _ =>
      unfold CheckUnlocked.run_cmd in H; exec H
  | CheckUnlocked.get_dataset_for_path _ _ _ = _ =>
      unfold CheckUnlocked.get_dataset_for_path in H; exec H
  | CheckUnlocked.get_encryption_root _ _ _ = _ =>
      unfold CheckUnlocked.get_encryption_root in H; exec H
  | CheckUnlocked.get_keystatus _ _ _ = _ =>
      unfold CheckUnlocked.get_keystatus in H; exec H
  | Backup.get_dataset_for_path _ _ _ = _ =>
      unfold Backup.get_dataset_for_path in H; exec H
  | Backup.get_encryption_root _ _ _ = _ =>
      unfold Backup.get_encryption_root in H; exec H
  | Backup.get_keystatus _ _ _ = _ =>
      unfold Backup.get_keystatus in H; exec H
  | Backup.get_snapshot_creation_time _ _ _ _ = _ =>
      unfold Backup.get_snapshot_creation_time in H; exec H
  | (if negb ?b then _ else _) _ = _ =>
      destruct b eqn:?; cbn [negb] in H; exec H
  | (if ?b then _ else _) _ = _ => destruct b eqn:?; exec H
  | (match ?x with _ => _ end) _ = _ => destruct x eqn:?; exec H
  | (_, _) = (_, _) => tidy
  | _ => idtac
  end.



(** The environment check of the backup script as a whole. *)

Section EnvironmentCheck.
Import Subprocess.
Context {World : Type} (host : Host World).

Lemma restic_command_inv (restic_bin : option string) s r s' :
  Backup.restic_command host restic_bin s = (r, s') ->
  exists evs lines checked,
    Spec.leads host s evs lines s'
    /\ forallb Spec.is_environment_check evs = true
    /\ r = Ret checked
    /\ (forall cmd, checked = Some cmd ->
        cmd = "restic"
        \/ exists b, restic_bin = Some b /\ cmd = resolve host (world s) b).
Proof.
  intros H. pose proof (leads_refl host s) as L0.
  unfold Backup.restic_command in H.
  exec H.
  all: idtac; match goal with
       | L : Spec.leads _ _ _ _ _ |- _ =>
           do 3 eexists; split; [exact L|]; split; [reflexivity|];
           split; [reflexivity|]; intros cmd E; try discriminate E;
           injection E as <-; eauto
       end.
Qed.

Lemma check_versions_inv (cmds : list (string * list string)) s r s' :
  Forall (fun nc => nth 1 (snd nc) "" = "version") cmds ->
  Backup.check_versions host cmds s = (r, s') ->
  exists evs lines,
    Spec.leads host s evs lines s'
    /\ forallb Spec.is_environment_check evs = true
    /\ (r = Ret None \/ r = Ret (Some 1) \/ r = Raise OSError).
Proof.
  intros Hv. revert s.
  induction Hv as [|[name cmd] cmds Hcmd Hv IH]; intros s H.
  - apply ret_inv in H as [-> ->].
    exists [], []. split; [apply leads_refl|]. auto.
  - simpl in Hcmd. pose proof (leads_refl host s) as L0.
    cbn [Backup.check_versions] in H.
    apply bind_inv in H.
    destruct H as [(early & s1 & Hc & Hk) | (e & Hc & ->)].
    + assert (Hstep : exists evs lines,
                 Spec.leads host s evs lines s1
                 /\ forallb Spec.is_environment_check evs = true
                 /\ (early = None \/ early = Some 1)).
      { clear Hk IH. exec Hc.
        all: idtac; match goal with
             | L : Spec.leads _ _ _ _ _ |- _ =>
                 do 2 eexists; split; [exact L|]; split; [|auto];
                 cbv [forallb Spec.is_environment_check Spec.verb argv];
                 rewrite Hcmd; reflexivity
             end. }
      destruct Hstep as (evs & lines & L1 & F1 & [-> | ->]).
      * apply IH in Hk as (evs2 & lines2 & L2 & F2 & Hr).
        do 2 eexists. split; [exact (leads_trans _ _ _ _ _ _ _ _ L1 L2)|].
        split; [|exact Hr]. now rewrite forallb_app, F1, F2.
      * apply ret_inv in Hk as [-> ->].
        do 2 eexists. split; [exact L1|]. auto.
    + exec Hc.
      all: idtac; match goal with
           | L : Spec.leads _ _ _ _ _ |- _ =>
               do 2 eexists; split; [exact L|]; split; [|auto];
               cbv [forallb Spec.is_environment_check Spec.verb argv];
               rewrite Hcmd; reflexivity
           end.
Qed.

Lemma environment_check_verb (evs : list Event) i x :
  forallb Spec.is_environment_check evs = true ->
  In (Ran i x) evs -> Spec.verb i = "version".
Proof.
  intros F Hin. rewrite forallb_forall in F. apply F in Hin.
  now apply String.eqb_eq in Hin.
Qed.

Lemma environment_check_not_dir (evs : list Event) p b :
  forallb Spec.is_environment_check evs = true -> ~ In (IsDir p b) evs.
Proof.
  intros F Hin. rewrite forallb_forall in F. apply F in Hin. discriminate.
Qed.

Lemma environment_check_no_destroy (evs : list Event) :
  forallb Spec.is_environment_check evs = true -> Spec.no_destroy evs = true.
Proof.
  unfold Spec.no_destroy. rewrite !forallb_forall.
  intros F [i x| | |] Hin; auto.
  apply F in Hin. simpl in Hin. apply String.eqb_eq in Hin.
  unfold Spec.is_destroy_request, Spec.is_zfs. now rewrite Hin.
Qed.

Lemma first_snapshot_skip (evs rest : list Event) :
  forallb Spec.is_environment_check evs = true ->
  Spec.first_snapshot (evs ++ rest) = Spec.first_snapshot rest.
Proof.
  induction evs as [|e evs IH]; simpl; [reflexivity|].
  intros F. apply andb_true_iff in F as [He F].
  destruct e as [i [rc out err| |]| | |]; auto.
  simpl in He. apply String.eqb_eq in He.
  unfold Spec.is_snapshot_request, Spec.is_zfs. rewrite He. simpl. auto.
Qed.

Lemma first_snapshot_environment (evs : list Event) :
  forallb Spec.is_environment_check evs = true ->
  Spec.first_snapshot evs = None.
Proof.
  intros F. rewrite <- (app_nil_r evs).
  now rewrite first_snapshot_skip.
Qed.

Lemma some_invocation_app p (a b : list Event) :
  Spec.some_invocation p (a ++ b)
  = Spec.some_invocation p a || Spec.some_invocation p b.
Proof. apply existsb_app. Qed.

Lemma some_invocation_environment p (evs : list Event) :
  (forall i, Spec.verb i = "version" -> p i = false) ->
  forallb Spec.is_environment_check evs = true ->
  Spec.some_invocation p evs = false.
Proof.
  intros Hp. induction evs as [|e evs IH]; simpl; [reflexivity|].
  intros F. apply andb_true_iff in F as [He F]. rewrite (IH F).
  destruct e as [i x| | |]; simpl in *; try reflexivity.
  apply String.eqb_eq in He. now rewrite (Hp i He).
Qed.

Lemma version_is_no_keystatus_query i :
  Spec.verb i = "version" -> Spec.is_keystatus_query i = false.
Proof.
  intros H. unfold Spec.is_keystatus_query, Spec.is_zfs. now rewrite H.
Qed.

Lemma version_is_no_snapshot_request i :
  Spec.verb i = "version" -> Spec.is_snapshot_request i = false.
Proof.
  intros H. unfold Spec.is_snapshot_request, Spec.is_zfs. now rewrite H.
Qed.

Lemma version_is_no_backup i :
  Spec.verb i = "version" -> Spec.is_backup_invocation i = false.
Proof. intros H. unfold Spec.is_backup_invocation. now rewrite H. Qed.

Lemma no_destroy_app (a b : list Event) :
  Spec.no_destroy (a ++ b) = Spec.no_destroy a && Spec.no_destroy b.
Proof. apply forallb_app. Qed.

End EnvironmentCheck.
(** The backup script's [main], with its environment check taken as a
    whole. *)
Ltac exec_main H :=
  cbn [Subprocess.returncode Subprocess.stdout Subprocess.stderr
       Subprocess.args negb andb] in H;
  lazymatch type of H with
  | Subprocess.bind (Backup.restic_command _ _) _ _ = _ =>
      let Hc := fresh "Hc" in
      let Hk := fresh "Hk" in
      apply (bind_inv) in H;
      destruct H as [(? & ? & Hc & Hk) | (? & Hc & ?)];
      apply restic_command_inv in Hc;
      destruct Hc as (? & ? & ? & ? & ? & ? & ?); tidy; join_leads;
      try exec_main Hk
  | Subprocess.bind (Backup.check_versions _ _) _ _ = _ =>
      let Hc := fresh "Hc" in
      let Hk := fresh "Hk" in
      apply (bind_inv) in H;
      destruct H as [(? & ? & Hc & Hk) | (? & Hc & ?)];
      (apply check_versions_inv in Hc; [|repeat constructor]);
      destruct Hc as (? & ? & ? & ? & [?|[?|?]]); tidy; join_leads;
      try exec_main Hk
  | Subprocess.bind _ _ _ = _ =>
      let Hc := fresh "Hc" in
      let Hk := fresh "Hk" in
      apply (bind_inv) in H;
      destruct H as [(? & ? & Hc & Hk) | (? & Hc & ?)];
      [ exec Hc; exec_main Hk | exec Hc ]
  | (if negb ?b then _ else _) _ = _ =>
      destruct b eqn:?; cbn [negb] in H; exec_main H
  | (if ?b then _ else _) _ = _ => destruct b eqn:?; exec_main H
  | (match ?x with _ => _ end) _ = _ => destruct x eqn:?; exec_main H
  | _ => exec H
  end.

(** Leaves of a symbolic execution: the trace of the final state is
    spelled out, exit statuses known to be zero are replaced, and
    membership in the trace is split into its cases. *)

Ltac zero_statuses :=
  repeat match goal with
  | H : (?rc =? 0) = true |- _ => apply Z.eqb_eq in H; subst rc
  end.

Ltac open_trace :=
  lazymatch goal with
  | L : Spec.leads _ _ _ _ _ |- _ =>
      let T := fresh "T" in
      let P := fresh "P" in
      let R := fresh "R" in
      destruct L as (T & P & R);
      cbn [Subprocess.trace Subprocess.initial Subprocess.printed app]
        in T, P, R
  end.

Ltac case_in H :=
  lazymatch type of H with
  | In _ (_ ++ _) => apply in_app_or in H; destruct H as [H|H]; [|case_in H]
  | In _ (_ :: _) => destruct H as [H|H]; [|case_in H]
  | In _ [] => destruct H
  | _ => idtac
  end.


Ltac env_verb Hin :=
  lazymatch type of Hin with
  | In (Subprocess.Ran _ _) ?x =>
      lazymatch goal with
      | F : forallb Spec.is_environment_check x = true |- _ =>
          apply (environment_check_verb x _ _ F) in Hin
      end
  end.

Ltac not_in_environment_check :=
  match goal with
  | F : forallb Spec.is_environment_check ?x = true, Hin : In _ ?x |- _ =>
      apply (environment_check_verb x _ _ F) in Hin; discriminate Hin
  end.

Ltac pick_event :=
  repeat (apply in_or_app; right);
  repeat first [left; reflexivity | right].

Ltac pick_line :=
  repeat first [left; reflexivity | right | apply in_or_app; right].

Ltac eval_first_snapshot H :=
  rewrite ?first_snapshot_skip in H by assumption;
  rewrite ?first_snapshot_environment in H by assumption;
  cbv [Spec.first_snapshot Spec.is_snapshot_request Spec.is_zfs Spec.verb
       Subprocess.argv nth String.eqb Ascii.eqb Bool.eqb andb] in H;
  repeat match goal with
         | E : (?x =? 0) = false |- _ => rewrite E in H
         end;
  cbv [Z.eqb] in H.

Ltac eval_some_invocation :=
  unfold Spec.has_keystatus_query, Spec.requests_snapshot, Spec.has_backup;
  rewrite ?some_invocation_app;
  rewrite ?(some_invocation_environment _ _ version_is_no_keystatus_query)
    by assumption;
  rewrite ?(some_invocation_environment _ _ version_is_no_snapshot_request)
    by assumption;
  rewrite ?(some_invocation_environment _ _ version_is_no_backup)
    by assumption;
  cbv [Spec.some_invocation existsb Spec.is_keystatus_query
       Spec.is_snapshot_request Spec.is_backup_invocation Spec.is_zfs
       Spec.verb Subprocess.argv nth app String.eqb Ascii.eqb Bool.eqb
       orb andb].

Ltac rewrite_statuses :=
  repeat match goal with
         | E : (_ =? 0) = _ |- _ => rewrite E
         end.

Ltac rewrite_statuses_everywhere :=
  repeat match goal with
         | E : (_ =? 0) = _ |- _ => rewrite E in *
         end.

Ltac clash :=
  match goal with
  | E1 : ?t = true, E2 : ?t = false |- _ => rewrite E1 in E2; discriminate E2
  end.

Ltac split_conjunctions :=
  repeat match goal with
         | K : _ /\ _ |- _ => destruct K
         end.
Section CreationTime.
Import Subprocess.
Variable utcoffset : Z -> Z.

Lemma creation_time_of_failed cmd rc out err :
  rc <> 0 ->
  Backup.creation_time_of utcoffset (mkCompleted cmd rc out err) = Ret None.
Proof.
  intros H. unfold Backup.creation_time_of. simpl.
  destruct (Z.eqb_spec rc 0); [contradiction|reflexivity].
Qed.

Lemma creation_time_of_empty cmd rc out err :
  Py.strip out = "" ->
  Backup.creation_time_of utcoffset (mkCompleted cmd rc out err) = Ret None.
Proof.
  intros H. unfold Backup.creation_time_of. simpl. rewrite H.
  destruct (rc =? 0); reflexivity.
Qed.

Lemma creation_time_of_no_int cmd rc out err :
  Py.int (Py.strip out) = None ->
  Backup.creation_time_of utcoffset (mkCompleted cmd rc out err) = Ret None.
Proof.
  intros H. unfold Backup.creation_time_of. simpl. rewrite H.
  destruct (rc =? 0); simpl; [|reflexivity].
  destruct (Py.is_empty _); reflexivity.
Qed.

Lemma creation_time_of_int cmd out err n dt :
  Py.int (Py.strip out) = Some n ->
  Datetime.fromtimestamp utcoffset (Spec.epoch_seconds n) = Datetime.Stamp dt ->
  Backup.creation_time_of utcoffset (mkCompleted cmd 0 out err)
  = Ret (Some (Datetime.strftime_restic dt)).
Proof.
  intros Hint Hdt. unfold Backup.creation_time_of.
  cbn [returncode stdout negb Z.eqb].
  destruct (Py.strip out) as [|c raw] eqn:Eraw.
  - vm_compute in Hint. discriminate Hint.
  - cbn [Py.is_empty]. rewrite Hint.
    unfold Spec.epoch_seconds in Hdt.
    change (10 ^ 9) with 1000000000 in Hdt.
    now rewrite Hdt.
Qed.

Lemma creation_time_of_epoch cmd out err n :
  Py.int (Py.strip out) = Some n ->
  Backup.creation_time_of utcoffset (mkCompleted cmd 0 out err)
  = match Datetime.fromtimestamp utcoffset (Spec.epoch_seconds n) with
    | Datetime.Stamp dt => Ret (Some (Datetime.strftime_restic dt))
    | Datetime.OutOfRange => Ret None
    | Datetime.OutOfTimeT => Raise OverflowError
    end.
Proof.
  intros Hn. unfold Backup.creation_time_of.
  cbn [returncode stdout negb Z.eqb].
  destruct (Py.strip out) as [|c raw] eqn:E; [discriminate Hn|].
  cbn [Py.is_empty]. rewrite Hn. reflexivity.
Qed.

Lemma creation_time_of_raises result e :
  Backup.creation_time_of utcoffset result = Raise e -> e = OverflowError.
Proof.
  unfold Backup.creation_time_of.
  destruct (negb _); [discriminate|].
  destruct (Py.is_empty _); [discriminate|].
  destruct (Py.int _); [|discriminate].
  destruct (Datetime.fromtimestamp _ _); [discriminate| |discriminate].
  now intros [= <-].
Qed.

End CreationTime.
(** ** The classes of a keystatus answer *)

Section LockState.

Lemma status_of_ok out :
  Spec.status_of 0 out = Py.or_none (Py.strip out).
Proof. reflexivity. Qed.

Lemma is_locked_or_none v :
  CheckUnlocked.is_locked_status (Py.or_none v)
  = String.eqb v "unavailable" || String.eqb v "locked".
Proof. destruct v; reflexivity. Qed.

Lemma not_available_or_none v :
  CheckUnlocked.not_available (Py.or_none v) = negb (String.eqb v "available").
Proof. destruct v; reflexivity. Qed.

Lemma keystate_available rc out :
  Spec.keystate_of rc out = Spec.Available ->
  CheckUnlocked.is_locked_status (Spec.status_of rc out) = false
  /\ CheckUnlocked.not_available (Spec.status_of rc out) = false.
Proof.
  unfold Spec.keystate_of, Spec.status_of.
  destruct (rc =? 0); cbn [negb]; [|discriminate].
  rewrite is_locked_or_none, not_available_or_none. cbv zeta.
  destruct (String.eqb_spec (Py.strip out) "available") as [->|];
    [intros _; split; reflexivity|].
  destruct (_ || _); discriminate.
Qed.

Lemma keystate_locked rc out :
  Spec.keystate_of rc out = Spec.Locked ->
  CheckUnlocked.is_locked_status (Spec.status_of rc out) = true.
Proof.
  unfold Spec.keystate_of, Spec.status_of.
  destruct (rc =? 0); cbn [negb]; [|discriminate].
  rewrite is_locked_or_none. cbv zeta.
  destruct (String.eqb (Py.strip out) "available"); [discriminate|].
  destruct (_ || _); [reflexivity|discriminate].
Qed.

Lemma keystate_unexpected rc out :
  Spec.keystate_of rc out = Spec.Unexpected ->
  CheckUnlocked.is_locked_status (Spec.status_of rc out) = false
  /\ CheckUnlocked.not_available (Spec.status_of rc out) = true.
Proof.
  unfold Spec.keystate_of, Spec.status_of.
  destruct (rc =? 0); cbn [negb]; [|intros _; split; reflexivity].
  rewrite is_locked_or_none, not_available_or_none. cbv zeta.
  destruct (String.eqb (Py.strip out) "available"); [discriminate|].
  destruct (_ || _); [discriminate|]. intros _; split; reflexivity.
Qed.

Lemma keystate_of_available rc out :
  CheckUnlocked.is_locked_status (Spec.status_of rc out) = false ->
  CheckUnlocked.not_available (Spec.status_of rc out) = false ->
  Spec.keystate_of rc out = Spec.Available.
Proof.
  intros Hl Hn. destruct (Spec.keystate_of rc out) eqn:K; [reflexivity| |].
  - apply keystate_locked in K. congruence.
  - apply keystate_unexpected in K as [_ K]. congruence.
Qed.

End LockState.
(** ** Looking a mountpoint up in the listing *)

Section Lookup.

Lemma find_mountpoint_lookup path lines :
  CheckUnlocked.find_mountpoint path lines
  = Spec.lookup path
      (flat_map (fun line => match Py.split_tab line with
                             | Some e => [e]
                             | None => []
                             end) lines).
Proof.
  induction lines as [|line lines IH]; simpl; [reflexivity|].
  destruct (Py.split_tab line) as [[name mnt]|]; simpl; [|exact IH].
  destruct (String.eqb mnt path); [reflexivity|exact IH].
Qed.

Lemma backup_find_mountpoint_lookup path lines :
  Backup.find_mountpoint path lines
  = Spec.lookup path
      (flat_map (fun line => match Py.split_tab line with
                             | Some e => [e]
                             | None => []
                             end) lines).
Proof.
  induction lines as [|line lines IH]; simpl; [reflexivity|].
  destruct (Py.split_tab line) as [[name mnt]|]; simpl; [|exact IH].
  destruct (String.eqb mnt path); [reflexivity|exact IH].
Qed.

Lemma lookup_sound path l name :
  Spec.lookup path l = Some name -> In (name, path) l.
Proof.
  induction l as [|[n m] l IH]; simpl; [discriminate|].
  destruct (String.eqb_spec m path) as [->|_].
  - intros [= ->]. now left.
  - intros H. right. now apply IH.
Qed.

Lemma lookup_complete path l :
  (forall name, ~ In (name, path) l) -> Spec.lookup path l = None.
Proof.
  intros H. destruct (Spec.lookup path l) as [name|] eqn:E; [|reflexivity].
  apply lookup_sound in E. now apply H in E.
Qed.

Lemma lookup_finds path l name :
  In (name, path) l -> Spec.lookup path l <> None.
Proof.
  induction l as [|[n m] l IH]; simpl; [intros []|].
  intros [[= -> ->]|H].
  - now rewrite String.eqb_refl.
  - destruct (String.eqb m path); [discriminate|now apply IH].
Qed.

End Lookup.

(** ** What counts as a pass *)

Section Verdicts.
Import Subprocess.

Lemma passes_unencrypted p sp dataset rc out err :
  Spec.resolved p sp = Ret (Some dataset) -> dataset <> "" ->
  Spec.no_encryption_root rc out = true ->
  Spec.passes p [Ran Spec.list_query sp;
                 Ran (Spec.encryptionroot_query dataset) (Exited rc out err)].
Proof. intros Hres Hne Hno. exists sp, dataset, rc, out, err. auto. Qed.

Lemma passes_available p sp dataset rc out err rc' out' err' :
  Spec.resolved p sp = Ret (Some dataset) -> dataset <> "" ->
  Spec.no_encryption_root rc out = false ->
  Spec.keystate_of rc' out' = Spec.Available ->
  Spec.passes p [Ran Spec.list_query sp;
                 Ran (Spec.encryptionroot_query dataset) (Exited rc out err);
                 Ran (Spec.keystatus_query (Py.strip out))
                     (Exited rc' out' err')].
Proof.
  intros Hres Hne Hno Hk. exists sp, dataset, rc, out, err.
  split; [exact Hres|]. split; [exact Hne|]. right. split; [exact Hno|].
  exists rc', out', err'. auto.
Qed.

Lemma diagnostics_length (vs : list Spec.Verdict) :
  List.length (Spec.diagnostics vs)
  = List.length (filter (fun v => negb (Spec.silent v)) vs).
Proof.
  induction vs as [|[[p evs] [m|]] vs IH]; simpl; auto.
Qed.

End Verdicts.

(** ** The check script, path by path *)

Section Check.
Import Subprocess.
Context {World : Type} (host : Host World) (abspath : string -> string).

Lemma check_get_dataset_for_path path s r s' :
  CheckUnlocked.get_dataset_for_path host path s = (r, s') ->
  exists sp,
    Spec.leads host s [Ran Spec.list_query sp] [] s'
    /\ r = Spec.resolved path sp.
Proof.
  intros H. pose proof (leads_refl host s) as L0.
  unfold CheckUnlocked.get_dataset_for_path in H.
  exec H.
  all: eexists; (split; [eassumption|]).
  all: unfold Spec.resolved, Spec.listing;
    rewrite <- ?find_mountpoint_lookup;
    repeat match goal with E : (_ =? 0) = _ |- _ => rewrite E end;
    reflexivity.
Qed.

Lemma backup_get_dataset_for_path path s r s' :
  Backup.get_dataset_for_path host path s = (r, s') ->
  exists sp,
    Spec.leads host s [Ran Spec.list_query sp] [] s'
    /\ r = Spec.resolved path sp.
Proof.
  intros H. pose proof (leads_refl host s) as L0.
  unfold Backup.get_dataset_for_path in H.
  exec H.
  all: eexists; (split; [eassumption|]).
  all: unfold Spec.resolved, Spec.listing;
    rewrite <- ?backup_find_mountpoint_lookup;
    repeat match goal with E : (_ =? 0) = _ |- _ => rewrite E end;
    reflexivity.
Qed.

Lemma check_path_not_found path s r s' :
  CheckUnlocked.check_path host abspath path s = (r, s') ->
  exists evs,
    Spec.leads host s evs [] s'
    /\ forall sp,
        In (Ran Spec.list_query sp) evs ->
        Spec.resolved (abspath path) sp = Ret None ->
        r = Ret (Some ("No ZFS dataset with mountpoint: " ++ abspath path))
        /\ evs = [Ran Spec.list_query sp].
Proof.
  intros H. pose proof (leads_refl host s) as L0.
  unfold CheckUnlocked.check_path in H.
  exec H.
  all: idtac; match goal with L : Spec.leads _ _ _ _ _ |- _ =>
         eexists; split; [exact L|] end.
  all: intros sp Hin Hres; case_in Hin; try discriminate Hin.
  all: injection Hin as <-.
  all: unfold Spec.resolved, Spec.listing in Hres;
    rewrite <- ?find_mountpoint_lookup in Hres;
    repeat match goal with
           | E : (_ =? 0) = _ |- _ => rewrite E in Hres
           | E : CheckUnlocked.find_mountpoint _ _ = _ |- _ => rewrite E in Hres
           end;
    try discriminate Hres.
  all: split; reflexivity.
Qed.

Lemma check_path_message path s msg s' :
  CheckUnlocked.check_path host abspath path s = (Ret (Some msg), s') ->
  Py.is_empty msg = false.
Proof.
  intros H. pose proof (leads_refl host s) as L0.
  unfold CheckUnlocked.check_path in H.
  exec H.
  all: reflexivity.
Qed.

Lemma check_path_silent path s r s' :
  CheckUnlocked.check_path host abspath path s = (r, s') ->
  printed s' = printed s.
Proof.
  intros H. pose proof (leads_refl host s) as L0.
  unfold CheckUnlocked.check_path in H.
  exec H.
  all: idtac; match goal with
       | L : Spec.leads _ _ _ _ _ |- _ =>
           destruct L as (_ & P' & _); rewrite P'; apply app_nil_r
       end.
Qed.

(** The requests of one check, in order, and what each answer leads
    to. *)
Lemma check_path_requests_in_order path s r s' :
  CheckUnlocked.check_path host abspath path s = (r, s') ->
  exists sp rest,
    Spec.leads host s (Ran Spec.list_query sp :: rest) [] s'
    /\ (Spec.resolved (abspath path) sp = Ret None
        \/ Spec.resolved (abspath path) sp = Ret (Some "") ->
        r = Ret (Some ("No ZFS dataset with mountpoint: " ++ abspath path))
        /\ rest = [])
    /\ forall dataset,
        Spec.resolved (abspath path) sp = Ret (Some dataset) ->
        dataset <> "" ->
        exists er tail,
          rest = Ran (Spec.encryptionroot_query dataset) er :: tail
          /\ forall rc out err,
              er = Exited rc out err ->
              (Spec.no_encryption_root rc out = true ->
               r = Ret None /\ tail = [])
              /\ (Spec.no_encryption_root rc out = false ->
                  exists kr,
                    tail = [Ran (Spec.keystatus_query (Py.strip out)) kr]
                    /\ forall rc' out' err',
                        kr = Exited rc' out' err' ->
                        match Spec.keystate_of rc' out' with
                        | Spec.Available => r = Ret None
                        | Spec.Locked =>
                            r = Ret (Some
                                  ("Dataset is LOCKED: " ++ abspath path
                                   ++ " (encryption root " ++ Py.strip out
                                   ++ ") " ++ CheckUnlocked.locked_separator
                                   ++ " unlock the dataset first"))
                        | Spec.Unexpected =>
                            r = Ret (Some
                                  ("Unexpected keystatus '"
                                   ++ CheckUnlocked.fmt_opt
                                        (Spec.status_of rc' out')
                                   ++ "' for " ++ Py.strip out
                                   ++ " (" ++ abspath path ++ ")"))
                        end).
Proof.
  intros H. pose proof (leads_refl host s) as L0.
  unfold CheckUnlocked.check_path in H.
  exec H.
  all: idtac; match goal with L : Spec.leads _ _ _ _ _ |- _ =>
         eexists; eexists; split; [exact L|] end.
  all: unfold Spec.resolved, Spec.listing;
    rewrite <- ?find_mountpoint_lookup;
    repeat match goal with
           | E : (_ =? 0) = _ |- _ => rewrite E
           | E : CheckUnlocked.find_mountpoint _ _ = _ |- _ => rewrite E
           end.
  all: split;
    [ intros [Hres|Hres]; try discriminate Hres; split; reflexivity
    | intros dataset Hres Hne; try discriminate Hres ].
  all: injection Hres as <-; try (exfalso; apply Hne; reflexivity).
  all: eexists; eexists; (split; [reflexivity|]).
  all: intros rc' out' err' Eer; try discriminate Eer.
  all: injection Eer as <- <- <-.
  all: unfold Spec.no_encryption_root.
  all: repeat match goal with
              | E : (_ =? 0) = _ |- _ => rewrite E
              end; cbn [negb orb].
  all: repeat match goal with
              | E : Py.strip _ = _ |- _ => rewrite E
              end.
  all: repeat match goal with
              | E : (_ || _) = _ |- _ => rewrite E
              end.
  all: split; intros Hno; try discriminate Hno.
  all: try (split; reflexivity).
  all: try (idtac; match goal with
            | E : Py.is_empty EmptyString || _ = false |- _ =>
                discriminate E
            end).
  all: eexists; (split; [reflexivity|]).
  all: intros rc2 out2 err2 Ekr; try discriminate Ekr.
  all: injection Ekr as <- <- <-.
  all: idtac; match goal with
       | |- match Spec.keystate_of ?rc ?out with _ => _ end =>
           destruct (Spec.keystate_of rc out) eqn:K;
           [ apply keystate_available in K
           | apply keystate_locked in K
           | apply keystate_unexpected in K ];
           unfold Spec.status_of in *;
           repeat match goal with
                  | E : (_ =? 0) = _ |- _ => rewrite E in *
                  end
       end.
  all: repeat match goal with
                   | K : _ /\ _ |- _ => destruct K
                   end.
  all: try (idtac; match goal with
            | E1 : ?t = true, E2 : ?t = false |- _ =>
                rewrite E1 in E2; discriminate E2
            end).
  all: reflexivity.
Qed.

(** A check that returns gives no message exactly when its events are
    those of a pass. *)
Lemma check_path_verdict path s v s' :
  CheckUnlocked.check_path host abspath path s = (Ret v, s') ->
  exists evs,
    Spec.leads host s evs [] s'
    /\ (v = None <-> Spec.passes (abspath path) evs).
Proof.
  intros H. pose proof (leads_refl host s) as L0.
  unfold CheckUnlocked.check_path in H.
  exec H.
  all: idtac; match goal with L : Spec.leads _ _ _ _ _ |- _ =>
         eexists; split; [exact L|] end.
  all: split; [intros Hv; try discriminate Hv
              | intros Hp; try reflexivity].
  all: try (idtac; match goal with
            | E : Py.is_empty EmptyString || _ = false |- _ =>
                discriminate E
            end).
  (* a pass, from the answers *)
  all: try (first [ eapply passes_unencrypted
                  | idtac;
                    match goal with
                    | E : Py.strip _ = String _ _ |- _ => rewrite <- E
                    end; eapply passes_available ];
            [ unfold Spec.resolved, Spec.listing;
              rewrite <- ?find_mountpoint_lookup;
              repeat match goal with
                     | E : (_ =? 0) = _ |- _ => rewrite E
                     | E : CheckUnlocked.find_mountpoint _ _ = _ |- _ =>
                         rewrite E
                     end; reflexivity
            | discriminate
            | unfold Spec.no_encryption_root;
              repeat match goal with
                     | E : (_ =? 0) = _ |- _ => rewrite E
                     end; cbn [negb orb];
              repeat match goal with
                     | E : Py.strip _ = _ |- _ => rewrite E
                     end;
              repeat match goal with
                     | E : (_ || _) = _ |- _ => rewrite E
                     end;
              first [reflexivity | assumption]
            | .. ]).
  all: try (apply keystate_of_available; unfold Spec.status_of;
            repeat match goal with
                   | E : (_ =? 0) = _ |- _ => rewrite E
                   end; assumption).
  (* no pass, from the message *)
  all: idtac; match goal with
       | Hp : Spec.passes _ _ |- _ =>
           destruct Hp as (sp & ds & rc' & out' & err' & Hres & Hne
                           & [[Hno Hev]
                             | [Hno (rc2 & out2 & err2 & Hk & Hev)]])
       end; try discriminate Hev.
  all: injection Hev as ? ? ? ? ? ? ? ?; subst.
  all: apply keystate_available in Hk as [K1 K2];
    unfold Spec.status_of in K1, K2;
    repeat match goal with
           | E : (_ =? 0) = _ |- _ => rewrite E in K1, K2
           end;
    repeat match goal with
           | E : Py.strip _ = _ |- _ => rewrite E in *
           end;
    first [clash | discriminate K2 | congruence].
Qed.

Lemma check_paths_verdicts paths :
  forall failed s b s',
    CheckUnlocked.check_paths host abspath paths failed s = (Ret b, s') ->
    exists vs : list Spec.Verdict,
      map Spec.path_of vs
      = filter (fun p => negb (Py.is_empty p)) (map Py.strip paths)
      /\ Spec.leads host s (flat_map Spec.events_of vs)
                    (Spec.diagnostics vs) s'
      /\ (forall v, In v vs ->
                    (Spec.message_of v = None
                     <-> Spec.passes (abspath (Spec.path_of v))
                                     (Spec.events_of v)))
      /\ b = failed || negb (forallb Spec.silent vs).
Proof.
  induction paths as [|p paths IH]; intros failed s b s' H.
  - apply ret_inv in H as [[= <-] ->].
    exists []. split; [reflexivity|]. split; [apply leads_refl|].
    split; [intros v []|]. now rewrite orb_false_r.
  - cbn [CheckUnlocked.check_paths] in H. cbv zeta in H.
    cbn [map filter].
    destruct (Py.strip p) as [|c q] eqn:Ep.
    + cbn [Py.is_empty negb] in *. now apply IH in H.
    + cbn [Py.is_empty negb] in *.
      apply bind_inv in H as [(err & s1 & Hc & Hk) | (e & _ & [=])].
      pose proof (check_path_verdict _ _ _ _ Hc) as (evs & L & Hv).
      destruct err as [msg|].
      * pose proof (check_path_message _ _ _ _ Hc) as Hm.
        cbn [Py.truthy] in Hk. rewrite Hm in Hk. cbn [negb] in Hk.
        apply bind_inv in Hk as [([] & s2 & Hp & Hk) | (e & Hp & _)];
          [|discriminate Hp].
        apply (print_inv host) in Hp as [_ Lp].
        apply IH in Hk as (vs & Hp & L' & Hall & ->).
        exists ((String c q, evs, Some msg) :: vs).
        split; [cbn [map Spec.path_of fst]; now rewrite Hp|].
        split; [exact (leads_trans _ _ _ _ _ _ _ _ L
                         (leads_trans _ _ _ _ _ _ _ _ Lp L'))|].
        split; [|cbn [forallb Spec.silent Spec.message_of snd andb negb];
                 now rewrite orb_true_r].
        intros v [<-|Hin]; [exact Hv|now apply Hall].
      * cbn [Py.truthy] in Hk.
        apply IH in Hk as (vs & Hp & L' & Hall & ->).
        exists ((String c q, evs, None) :: vs).
        split; [cbn [map Spec.path_of fst]; now rewrite Hp|].
        split; [exact (leads_trans _ _ _ _ _ _ _ _ L L')|].
        split; [|reflexivity].
        intros v [<-|Hin]; [exact Hv|now apply Hall].
Qed.

Lemma check_main_verdicts prog paths s rc s' :
  paths <> [] ->
  CheckUnlocked.main host abspath (prog :: paths) s = (Ret rc, s') ->
  exists vs : list Spec.Verdict,
    map Spec.path_of vs
    = filter (fun p => negb (Py.is_empty p)) (map Py.strip paths)
    /\ Spec.leads host s (flat_map Spec.events_of vs)
                  (Spec.diagnostics vs) s'
    /\ (forall v, In v vs ->
                  (Spec.message_of v = None
                   <-> Spec.passes (abspath (Spec.path_of v))
                                   (Spec.events_of v)))
    /\ rc = (if forallb Spec.silent vs then 0 else 1).
Proof.
  intros Hne H. unfold CheckUnlocked.main in H.
  destruct paths as [|p paths]; [contradiction|].
  cbn [List.length Nat.ltb Nat.leb List.tl] in H.
  apply bind_inv in H as [(failed & s1 & Hc & Hk) | (e & _ & [=])].
  apply ret_inv in Hk as [[= ->] ->].
  apply check_paths_verdicts in Hc as (vs & Hp & L & Hall & ->).
  exists vs. repeat (split; [assumption|]).
  cbn [orb]. now destruct (forallb Spec.silent vs).
Qed.

(** The check script calls with [check=False]: what it raises is what
    [subprocess.run] raises for a program that cannot be started. *)
Lemma check_path_raises path s e s' :
  CheckUnlocked.check_path host abspath path s = (Raise e, s') ->
  e = FileNotFoundError \/ e = OSError.
Proof.
  intros H. pose proof (leads_refl host s) as L0.
  unfold CheckUnlocked.check_path in H.
  exec H.
  all: auto.
Qed.

Lemma check_paths_raises paths :
  forall failed s e s',
    CheckUnlocked.check_paths host abspath paths failed s = (Raise e, s') ->
    e = FileNotFoundError \/ e = OSError.
Proof.
  induction paths as [|p paths IH]; intros failed s e s' H.
  - apply ret_inv in H as [[=] _].
  - cbn [CheckUnlocked.check_paths] in H. cbv zeta in H.
    destruct (Py.is_empty (Py.strip p)); [now apply IH in H|].
    apply bind_inv in H as [(err & s1 & Hc & Hk) | (e' & Hc & [= <-])];
      [|now apply check_path_raises in Hc].
    destruct (Py.truthy err); [|now apply IH in Hk].
    apply bind_inv in Hk as [([] & s2 & _ & Hk) | (e' & Hp & _)];
      [now apply IH in Hk | discriminate Hp].
Qed.

Lemma check_main_raises sys_argv s e s' :
  CheckUnlocked.main host abspath sys_argv s = (Raise e, s') ->
  e = FileNotFoundError \/ e = OSError.
Proof.
  unfold CheckUnlocked.main. intros H.
  destruct (_ <? _)%nat.
  - apply bind_inv in H as [([] & s2 & _ & Hk) | (e' & Hp & _)];
      [apply ret_inv in Hk as [[=] _] | discriminate Hp].
  - apply bind_inv in H as [(f & s1 & _ & Hk) | (e' & Hc & [= <-])];
      [apply ret_inv in Hk as [[=] _] | now apply check_paths_raises in Hc].
Qed.

End Check.
(** ** Runs of the backup script *)

Section BackupRuns.
Import Subprocess.
Context {World : Type} (host : Host World).
Variable argv : list string.
Variable script_name : string.
Variable pid : Z.
Variable nodename : string.
Variable abspath : string -> string.
Variable script_digest : option string.
Variable utcoffset : Z -> Z.

Lemma main_backup_failure (exists_snapshot : World -> string -> Prop) :
  (forall w i out err w',
      spawn host w i = (Exited 0 out err, w') ->
      Spec.is_snapshot_request i = true ->
      exists_snapshot w' (nth 2 (Subprocess.argv i) "")) ->
  (forall w i r w' snap,
      spawn host w i = (r, w') ->
      Spec.is_destroy_request i = false ->
      exists_snapshot w snap -> exists_snapshot w' snap) ->
  forall w r s',
    Backup.main host argv script_name pid nodename abspath
                        script_digest utcoffset (initial w) = (r, s') ->
    forall i rc out err,
      In (Ran i (Exited rc out err)) (trace s') ->
      Spec.is_backup_invocation i = true ->
      rc <> 0 ->
      r = Ret rc
      /\ Spec.no_destroy (trace s') = true
      /\ exists snap post,
           Spec.first_snapshot (trace s') = Some (snap, post)
           /\ exists_snapshot (world s') snap.
Proof.
  intros Hcreated Hkept w r s' H i rc out err Hin Hb Hrc.
  pose proof (leads_refl host (initial w)) as L0.
  unfold Backup.main in H.
  exec_main H.
  all: zero_statuses.
  all: open_trace.
  all: rewrite T in Hin.
  all: case_in Hin.
  all: try discriminate Hin.
  all: try (env_verb Hin; unfold Spec.is_backup_invocation in Hb;
            rewrite Hin in Hb; discriminate Hb).
  all: try (injection Hin as Hi Hrc' Ho He; rewrite <- Hi in Hb; cbv in Hb; discriminate Hb).
  all: injection Hin as Hi Hrc' Ho He; subst; try congruence.
  all: split; [reflexivity|].
  all: split;
    [ rewrite T, !no_destroy_app, !environment_check_no_destroy by assumption;
      reflexivity |].
  all: do 2 eexists; split;
    [ rewrite T, !first_snapshot_skip by assumption; reflexivity |].
  all: eapply (replay_first_snapshot host exists_snapshot Hcreated Hkept);
    [ exact R
    | rewrite !first_snapshot_skip by assumption; reflexivity
    | reflexivity ].
Qed.

Lemma main_infrastructure_failure w r s' :
    Backup.main host argv script_name pid nodename abspath
                        script_digest utcoffset (initial w) = (r, s') ->
    forall snap post,
      Spec.first_snapshot (trace s') = Some (snap, post) ->
      (exists rc out err,
          In (Ran (Spec.creation_query snap) (Exited rc out err)) post
          /\ Backup.creation_time_of utcoffset
               (mkCompleted (Subprocess.argv (Spec.creation_query snap))
                            rc out err) = Ret None)
      \/ (exists p, In (IsDir p false) post) ->
      exists d,
        last post (IsDir "" true) = Ran (Spec.destroy_request snap) d
        /\ forall rc out err, d = Exited rc out err -> r = Ret 1.
Proof.
  intros H snap post Hf Hfail.
  pose proof (leads_refl host (initial w)) as L0.
  unfold Backup.main in H.
  exec_main H.
  all: zero_statuses.
  all: open_trace.
  all: rewrite T in Hf.
  all: eval_first_snapshot Hf.
  all: try discriminate Hf.
  all: injection Hf as <- <-.
  all: destruct Hfail as [(rc' & out' & err' & Hin & Hct) | (p & Hin)];
    case_in Hin; try discriminate Hin.
  all: try (injection Hin as ? ? ?; subst; cbv [Subprocess.argv Spec.creation_query] in Hct; congruence).
  all: try (injection Hin as ? ?; subst; congruence).
  all: eexists; (split; [reflexivity|]); intros ? ? ? E;
    first [reflexivity | discriminate E].
Qed.

Lemma main_backup_invocation w r s' :
    Backup.main host argv script_name pid nodename abspath
                        script_digest utcoffset (initial w) = (r, s') ->
    (forall i x,
      In (Ran i x) (trace s') ->
      Spec.is_backup_invocation i = true ->
      exists restic_cmd restic_time dataset snap_ts,
        let snap_name := Backup.snap_name_of pid nodename snap_ts in
        let snapshot_dir :=
          Backup.path_join
            (Backup.path_join
               (Backup.path_join
                  (abspath (snd (fst (Backup.parse_args argv)))) ".zfs")
               "snapshot") snap_name in
        i = mkInvocation
              ([restic_cmd; "backup"; "--time"; restic_time; "."]
               ++ snd (Backup.parse_args argv))
              false (Some snapshot_dir)
        /\ (restic_cmd = "restic"
            \/ exists b, fst (fst (Backup.parse_args argv)) = Some b
                         /\ restic_cmd = resolve host w b)
        /\ (exists rc out err,
               In (Ran (Spec.creation_query (dataset ++ "@" ++ snap_name))
                       (Exited rc out err)) (trace s')
               /\ Backup.creation_time_of utcoffset
                    (mkCompleted
                       (Subprocess.argv
                          (Spec.creation_query (dataset ++ "@" ++ snap_name)))
                       rc out err)
                  = Ret (Some restic_time))
        /\ In (IsDir snapshot_dir true) (trace s'))
    /\ (r = Ret 0 -> Spec.has_backup (trace s') = true).
Proof.
  intros H.
  pose proof (leads_refl host (initial w)) as L0.
  unfold Backup.main in H.
  exec_main H.
  all: zero_statuses.
  all: open_trace.
  all: rewrite T.
  all: rewrite ?Heqp; cbn [fst snd].
  all: split;
    [ intros i sp Hin Hb; case_in Hin; try discriminate Hin;
      try (env_verb Hin; unfold Spec.is_backup_invocation in Hb;
           rewrite Hin in Hb; discriminate Hb);
      try (injection Hin as Hi Hx; rewrite <- Hi in Hb; cbv in Hb;
           discriminate Hb)
    | intros Hr; try discriminate Hr;
      try (injection Hr as Hr; congruence) ].
  all: try (unfold Spec.has_backup, Spec.some_invocation;
                 rewrite !existsb_app;
                 apply orb_true_iff; right; apply orb_true_iff; right;
                 cbv [existsb Spec.is_backup_invocation Spec.verb
                      Subprocess.argv nth String.eqb Ascii.eqb Bool.eqb orb];
                 reflexivity).
  all: injection Hin as <- _.
  all: do 4 eexists; cbv zeta; split; [reflexivity|]; split;
    [ match goal with Hc : forall cmd, Some _ = Some cmd -> _ |- _ =>
        apply Hc; reflexivity end |];
    split; [ do 3 eexists; split; [pick_event | symmetry; eassumption] |];
    pick_event.
Qed.

(** The lock check of [main]: the encryption-root query is for the
    dataset that the listing resolves the mount point to, and its
    answer decides what follows. *)
Lemma main_lock_check w r s' :
    Backup.main host argv script_name pid nodename abspath
                        script_digest utcoffset (initial w) = (r, s') ->
    forall sp dataset,
      In (Ran Spec.list_query sp) (trace s') ->
      Spec.resolved (abspath (snd (fst (Backup.parse_args argv)))) sp
      = Ret (Some dataset) ->
      dataset <> "" ->
      exists er,
        In (Ran (Spec.encryptionroot_query dataset) er) (trace s')
        /\ forall rc out err,
            er = Exited rc out err ->
            (Spec.no_encryption_root rc out = true ->
             Spec.has_keystatus_query (trace s') = false
             /\ Spec.requests_snapshot (trace s') = true)
            /\ (Spec.no_encryption_root rc out = false ->
                exists kr,
                  In (Ran (Spec.keystatus_query (Py.strip out)) kr)
                     (trace s')
                  /\ forall rc' out' err',
                      kr = Exited rc' out' err' ->
                      match Spec.keystate_of rc' out' with
                      | Spec.Available =>
                          Spec.requests_snapshot (trace s') = true
                      | Spec.Locked =>
                          r = Ret 1
                          /\ Spec.requests_snapshot (trace s') = false
                          /\ exists stamp,
                              In ("[" ++ stamp ++ "] " ++ "ERROR: "
                                  ++ abspath
                                       (snd (fst (Backup.parse_args argv)))
                                  ++ " (encryption root " ++ Py.strip out
                                  ++ ") is LOCKED - unlock on TrueNAS first")
                                 (printed s')
                      | Spec.Unexpected =>
                          r = Ret 1
                          /\ Spec.requests_snapshot (trace s') = false
                          /\ exists stamp,
                              In ("[" ++ stamp ++ "] "
                                  ++ "ERROR: keystatus '"
                                  ++ CheckUnlocked.fmt_opt
                                       (Spec.status_of rc' out')
                                  ++ "' for " ++ Py.strip out)
                                 (printed s')
                      end).
Proof.
  intros H sp dataset Hin Hres Hne.
  pose proof (leads_refl host (initial w)) as L0.
  unfold Backup.main in H.
  exec_main H.
  all: open_trace.
  all: rewrite T in *; rewrite P; clear T P R.
  all: rewrite ?Heqp in *; cbn [fst snd] in *.
  all: case_in Hin; try discriminate Hin.
  all: try (idtac; match goal with
        | F : forallb Spec.is_environment_check ?x = true,
          Hin : In _ ?x |- _ =>
            apply (environment_check_verb x _ _ F) in Hin;
            discriminate Hin
        end).
  all: injection Hin as <-.
  all: unfold Spec.resolved, Spec.listing in Hres;
    rewrite <- ?backup_find_mountpoint_lookup in Hres;
    repeat match goal with
           | E : (_ =? 0) = _ |- _ => rewrite E in Hres
           | E : Backup.find_mountpoint _ _ = _ |- _ => rewrite E in Hres
           end;
    try discriminate Hres.
  all: injection Hres as <-; try (exfalso; apply Hne; reflexivity).
  all: eexists; (split; [pick_event|]).
  all: intros rc' out' err' Eer; try discriminate Eer.
  all: injection Eer as <- <- <-.
  all: unfold Spec.no_encryption_root.
  all: repeat match goal with
              | E : (_ =? 0) = _ |- _ => rewrite E
              end; cbn [negb orb].
  all: repeat match goal with
              | E : Py.strip _ = _ |- _ => rewrite E
              end.
  all: repeat match goal with
              | E : (_ || _) = _ |- _ => rewrite E
              end.
  all: split; intros Hno; try discriminate Hno.
  all: try (split; eval_some_invocation; reflexivity).
  all: try (idtac; match goal with
            | E : Py.is_empty EmptyString || _ = false |- _ =>
                discriminate E
            end).
  all: eexists; (split; [pick_event|]).
  all: intros krc kout kerr Ekr; try discriminate Ekr.
  all: injection Ekr as <- <- <-.
  all: idtac; match goal with
       | |- match Spec.keystate_of ?rc ?out with _ => _ end =>
           destruct (Spec.keystate_of rc out) eqn:K;
           [ apply keystate_available in K
           | apply keystate_locked in K
           | apply keystate_unexpected in K ];
           unfold Spec.status_of in *;
           repeat match goal with
                  | E : (_ =? 0) = _ |- _ => rewrite E in *
                  end
       end.
  all: repeat match goal with
                   | K : _ /\ _ |- _ => destruct K
                   end.
  all: try (idtac; match goal with
            | E1 : ?t = true, E2 : ?t = false |- _ =>
                rewrite E1 in E2; discriminate E2
            end).
  all: try (eval_some_invocation; reflexivity).
  all: (split; [reflexivity|]); (split; [eval_some_invocation; reflexivity|]).
  all: eexists; pick_line.
Qed.

(** A run that requests a snapshot has passed the lock check. *)
Lemma main_snapshot_after_lock_check w r s' :
    Backup.main host argv script_name pid nodename abspath
                        script_digest utcoffset (initial w) = (r, s') ->
    forall i x,
      In (Ran i x) (trace s') ->
      Spec.is_snapshot_request i = true ->
      exists sp dataset rc out err,
        In (Ran Spec.list_query sp) (trace s')
        /\ Spec.resolved (abspath (snd (fst (Backup.parse_args argv)))) sp
           = Ret (Some dataset)
        /\ dataset <> ""
        /\ In (Ran (Spec.encryptionroot_query dataset) (Exited rc out err))
              (trace s')
        /\ (Spec.no_encryption_root rc out = true
            \/ (Spec.no_encryption_root rc out = false
                /\ exists rc' out' err',
                    In (Ran (Spec.keystatus_query (Py.strip out))
                            (Exited rc' out' err')) (trace s')
                    /\ Spec.keystate_of rc' out' = Spec.Available)).
Proof.
  intros H i sp Hin Hs.
  pose proof (leads_refl host (initial w)) as L0.
  unfold Backup.main in H.
  exec_main H.
  all: open_trace.
  all: rewrite T in *; clear T P R.
  all: rewrite ?Heqp in *; cbn [fst snd] in *.
  all: case_in Hin; try discriminate Hin.
  all: try (env_verb Hin; unfold Spec.is_snapshot_request, Spec.is_zfs in Hs;
            rewrite Hin in Hs; discriminate Hs).
  all: try (injection Hin as Hi Hx; rewrite <- Hi in Hs; cbv in Hs;
            discriminate Hs).
  all: clear Hin Hs.
  all: try (idtac; match goal with
            | E : Py.is_empty EmptyString || _ = false |- _ =>
                discriminate E
            end).
  all: do 5 eexists; split; [pick_event|].
  all: split;
    [ unfold Spec.resolved, Spec.listing;
      rewrite <- ?backup_find_mountpoint_lookup;
      repeat match goal with
             | E : (_ =? 0) = _ |- _ => rewrite E
             | E : Backup.find_mountpoint _ _ = _ |- _ => rewrite E
             end; reflexivity |].
  all: split; [discriminate|].
  all: split; [pick_event|].
  all: unfold Spec.no_encryption_root;
    repeat match goal with
           | E : (_ =? 0) = _ |- _ => rewrite E
           end; cbn [negb orb];
    repeat match goal with
           | E : Py.strip _ = _ |- _ => rewrite E
           end;
    repeat match goal with
           | E : (_ || _) = _ |- _ => rewrite E
           end.
  all: first [ left; reflexivity | right; split; [reflexivity|] ].
  all: do 3 eexists; split; [pick_event|].
  all: apply keystate_of_available; unfold Spec.status_of;
    repeat match goal with
           | E : (_ =? 0) = _ |- _ => rewrite E
           end; assumption.
Qed.

(** [CalledProcessError] in a run of [main]: it comes from the snapshot
    request, the one call with [check=True], and from nothing else. *)
Lemma main_called_process_error w r s' :
    Backup.main host argv script_name pid nodename abspath
                        script_digest utcoffset (initial w) = (r, s') ->
    (forall rc cmd,
        r = Raise (CalledProcessError rc cmd) ->
        exists i out err,
          Spec.is_snapshot_request i = true
          /\ cmd = Subprocess.argv i
          /\ rc <> 0
          /\ last (trace s') (IsDir "" true) = Ran i (Exited rc out err))
    /\ (forall i rc out err,
           In (Ran i (Exited rc out err)) (trace s') ->
           Spec.is_snapshot_request i = true ->
           rc <> 0 ->
           r = Raise (CalledProcessError rc (Subprocess.argv i))).
Proof.
  intros H.
  pose proof (leads_refl host (initial w)) as L0.
  unfold Backup.main in H.
  exec_main H.
  all: open_trace.
  all: rewrite T in *; clear T P R.
  all: split;
    [ intros rc' cmd' Hr; try discriminate Hr
    | intros i rc' out' err' Hin Hs Hrc ].
  (* the exception *)
  all: try (idtac; match goal with
            | E : Raise ?x = Backup.creation_time_of _ _,
              Hr : Raise ?x = Raise _ |- _ =>
                symmetry in E; apply creation_time_of_raises in E;
                rewrite E in Hr; discriminate Hr
            end).
  all: try (injection Hr as <- <-;
            do 3 eexists;
            (split; [|split; [|split;
               [|rewrite app_assoc, last_app_cons; reflexivity]]]);
            [ reflexivity | reflexivity | apply Z.eqb_neq; assumption ]).
  (* the failed snapshot request *)
  all: zero_statuses.
  all: case_in Hin; try discriminate Hin.
  all: try (env_verb Hin; unfold Spec.is_snapshot_request, Spec.is_zfs in Hs;
            rewrite Hin in Hs; discriminate Hs).
  all: try (injection Hin as Hi Hx; rewrite <- Hi in Hs; cbv in Hs;
            discriminate Hs).
  all: injection Hin as <- <- <- <-; try congruence.
  all: reflexivity.
Qed.

Lemma main_dataset_not_found w r s' :
    Backup.main host argv script_name pid nodename abspath
                        script_digest utcoffset (initial w) = (r, s') ->
    forall sp,
      In (Ran Spec.list_query sp) (trace s') ->
      Spec.resolved (abspath (snd (fst (Backup.parse_args argv)))) sp
      = Ret None ->
      r = Ret 1
      /\ Spec.requests_snapshot (trace s') = false
      /\ Spec.has_backup (trace s') = false.
Proof.
  intros H sp Hin Hres.
  pose proof (leads_refl host (initial w)) as L0.
  unfold Backup.main in H.
  exec_main H.
  all: open_trace.
  all: rewrite T in *; clear T P R.
  all: rewrite ?Heqp in Hres; cbn [fst snd] in Hres.
  all: case_in Hin; try discriminate Hin.
  all: try (idtac; match goal with
        | F : forallb Spec.is_environment_check ?x = true,
          Hin : In _ ?x |- _ =>
            apply (environment_check_verb x _ _ F) in Hin;
            discriminate Hin
        end).
  all: injection Hin as <-.
  all: unfold Spec.resolved, Spec.listing in Hres;
    rewrite <- ?backup_find_mountpoint_lookup in Hres;
    repeat match goal with
           | E : (_ =? 0) = _ |- _ => rewrite E in Hres
           | E : Backup.find_mountpoint _ _ = _ |- _ => rewrite E in Hres
           end;
    try discriminate Hres.
  all: (split; [reflexivity|]); split; eval_some_invocation; reflexivity.
Qed.

End BackupRuns.
(** ** The simulated host and its snapshots *)

Section SimFacts.
Import Subprocess.
Variable c : Sim.Config.

Lemma sim_request_verb (a : list string) (v : string) :
  Py.starts_with ["zfs"; v] a = true ->
  nth 0 a "" = "zfs" /\ nth 1 a "" = v.
Proof.
  destruct a as [|p [|q rest]]; cbn [Py.starts_with nth]; try discriminate.
  - rewrite andb_false_r. discriminate.
  - intros H. apply andb_true_iff in H as [Hp H].
    apply andb_true_iff in H as [Hq _].
    apply String.eqb_eq in Hp, Hq. now subst.
Qed.

Lemma sim_created w i out err w' :
  spawn (Sim.host c) w i = (Exited 0 out err, w') ->
  Spec.is_snapshot_request i = true ->
  In (nth 2 (argv i) "") w'.
Proof.
  unfold Spec.is_snapshot_request, Spec.is_zfs, Spec.verb.
  intros H Hi. apply andb_true_iff in Hi as [Hv Hp].
  apply String.eqb_eq in Hv, Hp.
  cbn [spawn Sim.host] in H. unfold Sim.spawn in H.
  destruct (argv i) as [|p [|v rest]]; cbn [nth] in Hv, Hp;
    try discriminate.
  subst p v. cbn in H.
  destruct (Sim.snapshot_rc c =? 0) eqn:E.
  - injection H as _ _ <-. now left.
  - injection H as H _ _. rewrite H in E. discriminate.
Qed.

Lemma sim_kept w i r w' snap :
  spawn (Sim.host c) w i = (r, w') ->
  Spec.is_destroy_request i = false ->
  In snap w -> In snap w'.
Proof.
  intros H Hd Hin. cbn [spawn Sim.host] in H. unfold Sim.spawn in H.
  cbv zeta in H.
  repeat match type of H with
         | (if Py.starts_with ["zfs"; "destroy"] ?a then _ else _) = _ =>
             destruct (Py.starts_with ["zfs"; "destroy"] a) eqn:Ed;
             [ apply sim_request_verb in Ed as [Ep Ev];
               unfold Spec.is_destroy_request, Spec.is_zfs, Spec.verb in Hd;
               rewrite Ep, Ev in Hd; discriminate Hd |]
         | (if ?b then _ else _) = _ => destruct b
         end;
    injection H as _ <-; auto; now right.
Qed.

(** A simulated run, as a result and a final state. *)
Lemma sim_backup_run (args : list string) :
  Backup.main (Sim.host c) args "zfs-restic-backup.py" 4242 "truenas.local"
              Sim.abspath (Some "0f3a") (fun _ => 0) (initial [])
  = (fst (Sim.backup c args), snd (Sim.backup c args)).
Proof. apply surjective_pairing. Qed.

Lemma sim_check_run (paths : list string) :
  CheckUnlocked.main (Sim.host c) Sim.abspath
                     ("zfs-check-unlocked.py" :: paths) (initial [])
  = (fst (Sim.check c paths), snd (Sim.check c paths)).
Proof. apply surjective_pairing. Qed.

End SimFacts.
(** ** Properties of the two scripts *)

Import Subprocess.

(** C1. In backup mode, when the backup tool exits with a nonzero status,
    [main] returns that status, no event of the run is a destroy request,
    and the snapshot created during the run still exists in the world
    [main] leaves behind (on a host where a successful snapshot request
    creates the snapshot it names and only destroy requests remove
    snapshots). *)
Theorem backup_failure_leaves_snapshot :
  forall (World : Type) (host : Host World) (argv : list string)
         (script_name : string) (pid : Z) (nodename : string)
         (abspath : string -> string) (script_digest : option string)
         (utcoffset : Z -> Z) (exists_snapshot : World -> string -> Prop),
    (forall w i out err w',
        spawn host w i = (Exited 0 out err, w') ->
        Spec.is_snapshot_request i = true ->
        exists_snapshot w' (nth 2 (Subprocess.argv i) "")) ->
    (forall w i r w' snap,
        spawn host w i = (r, w') ->
        Spec.is_destroy_request i = false ->
        exists_snapshot w snap -> exists_snapshot w' snap) ->
    forall w r s',
      Backup.main host argv script_name pid nodename abspath script_digest
                  utcoffset (initial w) = (r, s') ->
      forall i rc out err,
        In (Ran i (Exited rc out err)) (trace s') ->
        Spec.is_backup_invocation i = true ->
        rc <> 0 ->
        r = Ret rc
        /\ Spec.no_destroy (trace s') = true
        /\ exists snap post,
            Spec.first_snapshot (trace s') = Some (snap, post)
            /\ exists_snapshot (world s') snap.
Proof.
  intros World host argv script_name pid nodename abspath script_digest
         utcoffset exists_snapshot Hcreated Hkept w r s' H i rc out err
         Hin Hb Hrc.
  eapply main_backup_failure; eassumption.
Qed.

Lemma backup_failure_leaves_snapshot_witness :
  let run := Sim.backup (Sim.with_restic_rc 3 Sim.healthy)
                        ["/mnt/secrets"; "--"; "--verbose"] in
  fst run = Ret 3
  /\ Spec.no_destroy (trace (snd run)) = true
  /\ exists snap post,
      Spec.first_snapshot (trace (snd run)) = Some (snap, post)
      /\ In snap (world (snd run)).
Proof.
  cbv zeta.
  refine (backup_failure_leaves_snapshot
            Sim.World (Sim.host (Sim.with_restic_rc 3 Sim.healthy))
            ["/mnt/secrets"; "--"; "--verbose"] "zfs-restic-backup.py" 4242
            "truenas.local" Sim.abspath (Some "0f3a") (fun _ => 0)
            (fun w snap => In snap w)
            (sim_created _) (sim_kept _) [] _ _ (sim_backup_run _ _)
            (mkInvocation
               ["restic"; "backup"; "--time"; "2024-01-01 00:00:00"; ".";
                "--verbose"] false (Some Sim.view))
            3 "" "" _ _ _).
  - vm_compute. repeat first [left; reflexivity | right].
  - reflexivity.
  - discriminate.
Defined.

(** C2. In backup mode, once the snapshot has been created, a creation
    time that cannot be resolved ([None]) or a snapshot view that is no
    directory makes the destroy request for that snapshot the last event
    of the run, and [main] returns 1 whatever status that request exits
    with. *)
Theorem infrastructure_failure_destroys_snapshot :
  forall (World : Type) (host : Host World) (argv : list string)
         (script_name : string) (pid : Z) (nodename : string)
         (abspath : string -> string) (script_digest : option string)
         (utcoffset : Z -> Z) (w : World) (r : result Z) (s' : State World),
    Backup.main host argv script_name pid nodename abspath script_digest
                utcoffset (initial w) = (r, s') ->
    forall snap post,
      Spec.first_snapshot (trace s') = Some (snap, post) ->
      (exists rc out err,
          In (Ran (Spec.creation_query snap) (Exited rc out err)) post
          /\ Backup.creation_time_of utcoffset
               (mkCompleted (Subprocess.argv (Spec.creation_query snap))
                            rc out err) = Ret None)
      \/ (exists p, In (IsDir p false) post) ->
      exists d,
        last post (IsDir "" true) = Ran (Spec.destroy_request snap) d
        /\ forall rc out err, d = Exited rc out err -> r = Ret 1.
Proof.
  intros World host argv script_name pid nodename abspath script_digest
         utcoffset w r s' H snap post Hf Hfail.
  eapply main_infrastructure_failure; eassumption.
Qed.

Lemma infrastructure_failure_destroys_snapshot_witness :
  let run := Sim.backup (Sim.with_view false Sim.healthy) ["/mnt/secrets"] in
  let post :=
    [Ran (Spec.creation_query Sim.snapshot)
         (Exited 0 ("1704067200" ++ Sim.nl) "");
     IsDir Sim.view false;
     Ran (Spec.destroy_request Sim.snapshot) (Exited 0 "" "")] in
  Spec.first_snapshot (trace (snd run)) = Some (Sim.snapshot, post)
  /\ exists d,
      last post (IsDir "" true) = Ran (Spec.destroy_request Sim.snapshot) d
      /\ forall rc out err, d = Exited rc out err -> fst run = Ret 1.
Proof.
  cbv zeta.
  assert (Hf : Spec.first_snapshot
                 (trace (snd (Sim.backup (Sim.with_view false Sim.healthy)
                                         ["/mnt/secrets"])))
               = Some (Sim.snapshot,
                       [Ran (Spec.creation_query Sim.snapshot)
                            (Exited 0 ("1704067200" ++ Sim.nl) "");
                        IsDir Sim.view false;
                        Ran (Spec.destroy_request Sim.snapshot)
                            (Exited 0 "" "")]))
    by (vm_compute; reflexivity).
  split; [exact Hf|].
  refine (infrastructure_failure_destroys_snapshot
            Sim.World (Sim.host (Sim.with_view false Sim.healthy))
            ["/mnt/secrets"] "zfs-restic-backup.py" 4242 "truenas.local"
            Sim.abspath (Some "0f3a") (fun _ => 0) [] _ _
            (sim_backup_run _ _) _ _ Hf _).
  right. exists Sim.view. simpl. auto.
Defined.

(** C3. The encryption-state check, in both scripts.  The encryption-root
    query is made for the dataset that the listing resolves the path to
    (the check script makes it right after the listing).  When its answer
    is absent (nonzero exit), empty or ["-"], the dataset counts as
    unencrypted and no keystatus query is made (the check script returns
    no message, the backup script goes on to the snapshot request);
    otherwise the keystatus of that encryption root is queried and
    [available] passes, [unavailable] and [locked] give the LOCKED
    message, and any other answer (an unreadable or empty one too) gives
    the unexpected-keystatus message, the backup script returning 1
    without a snapshot request in both failing cases.  A run of the
    backup script that requests a snapshot has made such a check of the
    resolved dataset, and the check has passed. *)
Theorem encryption_state_classification :
  forall (World : Type) (host : Host World),
    (forall (abspath : string -> string) (path : string)
            (s s' : State World) (r : result (option string)),
        CheckUnlocked.check_path host abspath path s = (r, s') ->
        exists sp rest,
          Spec.leads host s (Ran Spec.list_query sp :: rest) [] s'
          /\ forall dataset,
              Spec.resolved (abspath path) sp = Ret (Some dataset) ->
              dataset <> "" ->
              exists er tail,
                rest = Ran (Spec.encryptionroot_query dataset) er :: tail
                /\ forall rc out err,
                    er = Exited rc out err ->
                    (Spec.no_encryption_root rc out = true ->
                     r = Ret None /\ tail = [])
                    /\ (Spec.no_encryption_root rc out = false ->
                        exists kr,
                          tail = [Ran (Spec.keystatus_query (Py.strip out))
                                      kr]
                          /\ forall rc' out' err',
                              kr = Exited rc' out' err' ->
                              match Spec.keystate_of rc' out' with
                              | Spec.Available => r = Ret None
                              | Spec.Locked =>
                                  r = Ret (Some
                                        ("Dataset is LOCKED: " ++ abspath path
                                         ++ " (encryption root "
                                         ++ Py.strip out ++ ") "
                                         ++ CheckUnlocked.locked_separator
                                         ++ " unlock the dataset first"))
                              | Spec.Unexpected =>
                                  r = Ret (Some
                                        ("Unexpected keystatus '"
                                         ++ CheckUnlocked.fmt_opt
                                              (Spec.status_of rc' out')
                                         ++ "' for " ++ Py.strip out
                                         ++ " (" ++ abspath path ++ ")"))
                              end))
    /\ (forall (argv : list string) (script_name : string) (pid : Z)
               (nodename : string) (abspath : string -> string)
               (script_digest : option string) (utcoffset : Z -> Z)
               (w : World) (r : result Z) (s' : State World),
           Backup.main host argv script_name pid nodename abspath
                       script_digest utcoffset (initial w) = (r, s') ->
           (forall sp dataset,
               In (Ran Spec.list_query sp) (trace s') ->
               Spec.resolved (abspath (snd (fst (Backup.parse_args argv)))) sp
               = Ret (Some dataset) ->
               dataset <> "" ->
               exists er,
                 In (Ran (Spec.encryptionroot_query dataset) er) (trace s')
                 /\ forall rc out err,
                     er = Exited rc out err ->
                     (Spec.no_encryption_root rc out = true ->
                      Spec.has_keystatus_query (trace s') = false
                      /\ Spec.requests_snapshot (trace s') = true)
                     /\ (Spec.no_encryption_root rc out = false ->
                         exists kr,
                           In (Ran (Spec.keystatus_query (Py.strip out)) kr)
                              (trace s')
                           /\ forall rc' out' err',
                               kr = Exited rc' out' err' ->
                               match Spec.keystate_of rc' out' with
                               | Spec.Available =>
                                   Spec.requests_snapshot (trace s') = true
                               | Spec.Locked =>
                                   r = Ret 1
                                   /\ Spec.requests_snapshot (trace s') = false
                                   /\ exists stamp,
                                       In ("[" ++ stamp ++ "] " ++ "ERROR: "
                                           ++ abspath
                                                (snd (fst (Backup.parse_args
                                                             argv)))
                                           ++ " (encryption root "
                                           ++ Py.strip out
                                           ++ ") is LOCKED - unlock on TrueNAS first")
                                          (printed s')
                               | Spec.Unexpected =>
                                   r = Ret 1
                                   /\ Spec.requests_snapshot (trace s') = false
                                   /\ exists stamp,
                                       In ("[" ++ stamp ++ "] "
                                           ++ "ERROR: keystatus '"
                                           ++ CheckUnlocked.fmt_opt
                                                (Spec.status_of rc' out')
                                           ++ "' for " ++ Py.strip out)
                                          (printed s')
                               end))
           /\ (forall i x,
                  In (Ran i x) (trace s') ->
                  Spec.is_snapshot_request i = true ->
                  exists sp dataset rc out err,
                    In (Ran Spec.list_query sp) (trace s')
                    /\ Spec.resolved
                         (abspath (snd (fst (Backup.parse_args argv)))) sp
                       = Ret (Some dataset)
                    /\ dataset <> ""
                    /\ In (Ran (Spec.encryptionroot_query dataset)
                               (Exited rc out err)) (trace s')
                    /\ (Spec.no_encryption_root rc out = true
                        \/ (Spec.no_encryption_root rc out = false
                            /\ exists rc' out' err',
                                In (Ran (Spec.keystatus_query (Py.strip out))
                                        (Exited rc' out' err')) (trace s')
                                /\ Spec.keystate_of rc' out'
                                   = Spec.Available)))).
Proof.
  intros World host. split.
  - intros abspath path s s' r H.
    apply check_path_requests_in_order in H as (sp & rest & L & _ & Hc).
    exists sp, rest. split; [exact L | exact Hc].
  - intros argv script_name pid nodename abspath script_digest utcoffset
           w r s' H.
    split.
    + intros sp dataset Hin Hres Hne.
      eapply main_lock_check; eassumption.
    + intros i x Hin Hs.
      eapply main_snapshot_after_lock_check; eassumption.
Qed.

Lemma encryption_state_classification_witness :
  let locked := Sim.with_keystatus "locked" Sim.healthy in
  fst (CheckUnlocked.check_path (Sim.host locked) Sim.abspath "/mnt/secrets"
                                (initial []))
  = Ret (Some ("Dataset is LOCKED: /mnt/secrets (encryption root tank/secrets) "
               ++ CheckUnlocked.locked_separator ++ " unlock the dataset first"))
  /\ fst (Sim.backup locked ["/mnt/secrets"]) = Ret 1
  /\ Spec.requests_snapshot (trace (snd (Sim.backup locked ["/mnt/secrets"])))
     = false.
Proof.
  cbv zeta.
  assert (Hres : Spec.resolved (Sim.abspath "/mnt/secrets")
                   (Exited 0 (Sim.listing Sim.healthy) "")
                 = Ret (Some "tank/secrets"))
    by (vm_compute; reflexivity).
  assert (Hne : "tank/secrets" <> "") by discriminate.
  assert (Hroot : Spec.no_encryption_root 0 ("tank/secrets" ++ Sim.nl) = false)
    by (vm_compute; reflexivity).
  assert (Hstrip : Py.strip ("tank/secrets" ++ Sim.nl) = "tank/secrets")
    by (vm_compute; reflexivity).
  assert (Hkey : Spec.keystate_of 0 "locked" = Spec.Locked)
    by (vm_compute; reflexivity).
  pose proof (encryption_state_classification
                Sim.World
                (Sim.host (Sim.with_keystatus "locked" Sim.healthy)))
    as [Wc Wb].
  split; [|].
  - assert (Ht : trace (snd (CheckUnlocked.check_path
                               (Sim.host (Sim.with_keystatus "locked"
                                                             Sim.healthy))
                               Sim.abspath "/mnt/secrets" (initial [])))
                 = [Ran Spec.list_query (Exited 0 (Sim.listing Sim.healthy) "");
                    Ran (Spec.encryptionroot_query "tank/secrets")
                        (Exited 0 ("tank/secrets" ++ Sim.nl) "");
                    Ran (Spec.keystatus_query "tank/secrets")
                        (Exited 0 "locked" "")])
      by (vm_compute; reflexivity).
    pose proof (Wc Sim.abspath "/mnt/secrets" (initial []) _ _
                   (surjective_pairing _)) as W.
    destruct W as (sp & rest & (T & _) & Hc).
    rewrite Ht in T. cbn [trace initial app] in T.
    injection T as Hsp Hrest. subst sp rest.
    pose proof (Hc "tank/secrets" Hres Hne) as W.
    destruct W as (er & tail & E & Hcl).
    injection E as Her Htail. subst er tail.
    pose proof (proj2 (Hcl 0 ("tank/secrets" ++ Sim.nl) "" eq_refl) Hroot)
      as W.
    destruct W as (kr & E & Hk).
    rewrite Hstrip in E, Hk.
    injection E as Hkr. subst kr.
    pose proof (Hk 0 "locked" "" eq_refl) as W.
    rewrite Hkey in W. exact W.
  - assert (Hin : In (Ran Spec.list_query
                          (Exited 0 (Sim.listing Sim.healthy) ""))
                     (trace (snd (Sim.backup
                                    (Sim.with_keystatus "locked" Sim.healthy)
                                    ["/mnt/secrets"]))))
      by (vm_compute; repeat first [left; reflexivity | right]).
    assert (Hmp : Spec.resolved
                    (Sim.abspath
                       (snd (fst (Backup.parse_args ["/mnt/secrets"]))))
                    (Exited 0 (Sim.listing Sim.healthy) "")
                  = Ret (Some "tank/secrets"))
      by (vm_compute; reflexivity).
    assert (Ht : trace (snd (Sim.backup
                               (Sim.with_keystatus "locked" Sim.healthy)
                               ["/mnt/secrets"]))
                 = [Ran (mkInvocation ["zfs"; "version"] true None)
                        (Exited 0 "zfs-2.2.4-1" "");
                    Ran (mkInvocation ["restic"; "version"] true None)
                        (Exited 0 "restic 0.16.4 compiled with go1.21.6 on linux/amd64"
                                "");
                    IsDir "/mnt/secrets" true;
                    Ran Spec.list_query
                        (Exited 0 (Sim.listing Sim.healthy) "");
                    Ran (Spec.encryptionroot_query "tank/secrets")
                        (Exited 0 ("tank/secrets" ++ Sim.nl) "");
                    Ran (Spec.keystatus_query "tank/secrets")
                        (Exited 0 "locked" "")])
      by (vm_compute; reflexivity).
    pose proof (proj1 (Wb ["/mnt/secrets"] "zfs-restic-backup.py" 4242
                          "truenas.local" Sim.abspath (Some "0f3a")
                          (fun _ => 0) [] _ _
                          (sim_backup_run
                             (Sim.with_keystatus "locked" Sim.healthy)
                             ["/mnt/secrets"]))
                      (Exited 0 (Sim.listing Sim.healthy) "") "tank/secrets"
                      Hin Hmp Hne) as W.
    destruct W as (er & Hi & Hcl).
    rewrite Ht in Hi. cbn [In] in Hi.
    repeat (destruct Hi as [Hi|Hi]; [try discriminate Hi|]);
      [|destruct Hi].
    injection Hi as Her. subst er.
    pose proof (proj2 (Hcl 0 ("tank/secrets" ++ Sim.nl) "" eq_refl) Hroot)
      as W.
    destruct W as (kr & Hi & Hk).
    rewrite Hstrip in Hi, Hk. rewrite Ht in Hi. cbn [In] in Hi.
    repeat (destruct Hi as [Hi|Hi]; [try discriminate Hi|]);
      [|destruct Hi].
    injection Hi as Hkr. subst kr.
    pose proof (Hk 0 "locked" "" eq_refl) as W.
    rewrite Hkey in W. destruct W as (Hr & Hs & _).
    exact (conj Hr Hs).
Defined.

(** C4, as stated, fails: [run_cmd] of the backup script, called for
    [zfs snapshot] with its default [check=True], raises
    [CalledProcessError] when the program exits with status 1, and [main]
    ends with that exception. *)
Lemma run_cmd_raises_on_failed_snapshot :
  fst (spawn (Sim.host (Sim.with_snapshot_rc 1 Sim.healthy)) []
             (mkInvocation ["zfs"; "snapshot"; "tank/secrets@s"] false None))
  = Exited 1 "" "cannot create snapshot"
  /\ fst (Backup.run_cmd (Sim.host (Sim.with_snapshot_rc 1 Sim.healthy))
            ["zfs"; "snapshot"; "tank/secrets@s"] true false None
            (initial []))
     = Raise (CalledProcessError 1 ["zfs"; "snapshot"; "tank/secrets@s"])
  /\ fst (Sim.backup (Sim.with_snapshot_rc 1 Sim.healthy) ["/mnt/secrets"])
     = Raise (CalledProcessError 1 ["zfs"; "snapshot"; Sim.snapshot]).
Proof. repeat split; vm_compute; reflexivity. Qed.

(** C4, amended. A program that exits with any status makes [run_cmd] of
    the check script, and [run_cmd] of the backup script called with
    [check=False], return the completed result with that status; with
    [check=True] the backup script's [run_cmd] returns it for status 0
    and raises [CalledProcessError] for every other status.  In a run of
    the backup script's [main] the snapshot request is the one call made
    with [check=True]: the run ends with [CalledProcessError] exactly
    when its snapshot request exits with a nonzero status, the exception
    carries that status and command, and the request is the last event of
    the run, so that a nonzero exit of any other program it runs does not
    end the run with [CalledProcessError].  No run of the check script's
    [main] ends with [CalledProcessError]. *)
Theorem run_cmd_exit_status_policy :
  forall (World : Type) (host : Host World),
    (forall (cmd : list string) (capture : bool) (cwd : option string)
            (s : State World) (rc : Z) (out err : string) (w' : World),
        spawn host (world s) (mkInvocation cmd capture cwd)
        = (Exited rc out err, w') ->
        let done :=
          Ret (mkCompleted cmd rc (if capture then out else "")
                           (if capture then err else "")) in
        let s' :=
          mkState w'
            (trace s
             ++ [Ran (mkInvocation cmd capture cwd) (Exited rc out err)])
            (printed s) in
        (cwd = None -> CheckUnlocked.run_cmd host cmd capture s = (done, s'))
        /\ Backup.run_cmd host cmd false capture cwd s = (done, s')
        /\ (rc = 0 -> Backup.run_cmd host cmd true capture cwd s = (done, s'))
        /\ (rc <> 0 ->
            Backup.run_cmd host cmd true capture cwd s
            = (Raise (CalledProcessError rc cmd), s')))
    /\ (forall (argv : list string) (script_name : string) (pid : Z)
               (nodename : string) (abspath : string -> string)
               (script_digest : option string) (utcoffset : Z -> Z)
               (w : World) (r : result Z) (s' : State World),
           Backup.main host argv script_name pid nodename abspath
                       script_digest utcoffset (initial w) = (r, s') ->
           (forall rc cmd,
               r = Raise (CalledProcessError rc cmd) ->
               exists i out err,
                 Spec.is_snapshot_request i = true
                 /\ cmd = Subprocess.argv i
                 /\ rc <> 0
                 /\ last (trace s') (IsDir "" true)
                    = Ran i (Exited rc out err))
           /\ (forall i rc out err,
                  In (Ran i (Exited rc out err)) (trace s') ->
                  Spec.is_snapshot_request i = true ->
                  rc <> 0 ->
                  r = Raise (CalledProcessError rc (Subprocess.argv i))))
    /\ (forall (abspath : string -> string) (sys_argv : list string)
               (s s' : State World) (r : result Z) (rc : Z)
               (cmd : list string),
           CheckUnlocked.main host abspath sys_argv s = (r, s') ->
           r <> Raise (CalledProcessError rc cmd)).
Proof.
  intros World host. split; [|split].
  - intros cmd capture cwd s rc out err w' H done s'.
    unfold CheckUnlocked.run_cmd, Backup.run_cmd, run.
    repeat split.
    + intros ->. rewrite H. reflexivity.
    + rewrite H. reflexivity.
    + intros ->. rewrite H. reflexivity.
    + intros Hrc. rewrite H. simpl.
      destruct (Z.eqb_spec rc 0); [contradiction|reflexivity].
  - intros argv script_name pid nodename abspath script_digest utcoffset
           w r s' H.
    eapply main_called_process_error; eassumption.
  - intros abspath sys_argv s s' r rc cmd H ->.
    apply check_main_raises in H as [H|H]; discriminate H.
Qed.

Lemma run_cmd_exit_status_policy_witness :
  (spawn (Sim.host (Sim.with_list_rc 2 Sim.healthy)) (world (initial []))
         (mkInvocation ["zfs"; "list"] true None)
   = (Exited 2 (Sim.listing Sim.healthy) "", [])
   /\ Backup.run_cmd (Sim.host (Sim.with_list_rc 2 Sim.healthy))
        ["zfs"; "list"] true true None (initial [])
      = (Raise (CalledProcessError 2 ["zfs"; "list"]),
         mkState []
           [Ran (mkInvocation ["zfs"; "list"] true None)
                (Exited 2 (Sim.listing Sim.healthy) "")] []))
  /\ fst (Sim.backup (Sim.with_snapshot_rc 1 Sim.healthy) ["/mnt/secrets"])
     = Raise (CalledProcessError
                1 (Subprocess.argv (Spec.snapshot_request Sim.snapshot))).
Proof.
  split.
  - assert (H : spawn (Sim.host (Sim.with_list_rc 2 Sim.healthy))
                      (world (initial []))
                      (mkInvocation ["zfs"; "list"] true None)
                = (Exited 2 (Sim.listing Sim.healthy) "", []))
      by reflexivity.
    split; [exact H|].
    assert (N : 2 <> 0) by discriminate.
    exact (proj2 (proj2 (proj2 (proj1 (run_cmd_exit_status_policy
                                         Sim.World
                                         (Sim.host (Sim.with_list_rc
                                                      2 Sim.healthy)))
                                      _ _ _ _ _ _ _ _ H))) N).
  - assert (Hin : In (Ran (Spec.snapshot_request Sim.snapshot)
                          (Exited 1 "" "cannot create snapshot"))
                     (trace (snd (Sim.backup
                                    (Sim.with_snapshot_rc 1 Sim.healthy)
                                    ["/mnt/secrets"]))))
      by (vm_compute; repeat first [left; reflexivity | right]).
    assert (Hrc : 1 <> 0) by discriminate.
    pose proof (proj2 (proj1 (proj2 (run_cmd_exit_status_policy
                                       Sim.World
                                       (Sim.host (Sim.with_snapshot_rc
                                                    1 Sim.healthy))))
                             ["/mnt/secrets"] "zfs-restic-backup.py" 4242
                             "truenas.local" Sim.abspath (Some "0f3a")
                             (fun _ => 0) [] _ _
                             (sim_backup_run
                                (Sim.with_snapshot_rc 1 Sim.healthy)
                                ["/mnt/secrets"]))
                      (Spec.snapshot_request Sim.snapshot) 1 ""
                      "cannot create snapshot" Hin eq_refl Hrc) as W.
    exact W.
Defined.

(** C5. Two snapshot names generated in the same second on the same host
    by processes with distinct pids are distinct, and every name is
    [zfs-restic-<pid>-<host>-<YYYYMMDD-HHMMSS>]: the pid in decimal, a
    non-empty host part made of letters, digits and hyphens, and the
    time stamp of the clock. *)
Theorem snapshot_names_of_distinct_pids_differ :
  forall (pid1 pid2 : Z) (nodename : string) (snap_ts : Datetime.datetime),
    pid1 <> pid2 ->
    Backup.snap_name_of pid1 nodename snap_ts
    <> Backup.snap_name_of pid2 nodename snap_ts
    /\ forall pid,
        exists host,
          Backup.snap_name_of pid nodename snap_ts
          = "zfs-restic-" ++ Py.str pid ++ "-" ++ host ++ "-"
            ++ Datetime.strftime_snap snap_ts
          /\ host <> ""
          /\ Spec.all_chars Backup.is_name_char host = true
          /\ (0 <= pid -> Spec.all_chars Py.is_digit (Py.str pid) = true)
          /\ (Spec.four_digit_year snap_ts ->
              Spec.is_snap_stamp (Datetime.strftime_snap snap_ts) = true).
Proof.
  intros pid1 pid2 nodename snap_ts Hpid. split.
  - unfold Backup.snap_name_of. intros E.
    apply Hpid, str_inj.
    assert (E' : forall a b t, "zfs-restic-" ++ a ++ t = "zfs-restic-" ++ b ++ t
                               -> a = b).
    { intros a b t H. simpl in H. injection H as H.
      now apply append_inv_tail in H. }
    exact (E' _ _ _ E).
  - intros pid. unfold Backup.snap_name_of.
    set (h := Py.strip_hyphen (Backup.sub_name_chars nodename)).
    assert (Hh : Spec.all_chars Backup.is_name_char h = true).
    { subst h. unfold Py.strip_hyphen, Py.strip_with.
      apply all_chars_rstrip, all_chars_lstrip, sub_name_chars_ok. }
    exists (if Py.is_empty h then "host" else h).
    repeat split.
    + destruct h; simpl; discriminate.
    + destruct h; [reflexivity | exact Hh].
    + apply str_digits.
    + apply snap_stamp_shape.
Qed.

Lemma snapshot_names_of_distinct_pids_differ_witness :
  4242 <> 4243
  /\ Backup.snap_name_of 4242 "truenas.local"
       (Datetime.mkDatetime 2024 1 1 0 0 5 250000)
     <> Backup.snap_name_of 4243 "truenas.local"
          (Datetime.mkDatetime 2024 1 1 0 0 5 250000).
Proof.
  assert (H : 4242 <> 4243) by lia.
  split; [exact H|].
  exact (proj1 (snapshot_names_of_distinct_pids_differ
                  4242 4243 "truenas.local"
                  (Datetime.mkDatetime 2024 1 1 0 0 5 250000) H)).
Defined.

(** C6. Creation-time resolution issues the one [zfs get creation] call;
    a nonzero exit, an empty output or an output that is no integer gives
    [None]; an integer is taken as the epoch, divided by 10^9 (integer
    division) when it exceeds 10^12, and the calendar time of those
    seconds is returned in the format YYYY-MM-DD HH:MM:SS.  Seconds that
    [datetime.fromtimestamp] rejects for their year give [None]; seconds
    beyond the platform's time_t end the call with [OverflowError]. *)
Theorem creation_time_resolution :
  forall (World : Type) (host : Host World) (utcoffset : Z -> Z)
         (snapshot_spec : string) (s s' : State World)
         (r : result (option string)),
    Backup.get_snapshot_creation_time host utcoffset snapshot_spec s = (r, s') ->
    exists sp,
      Spec.leads host s [Ran (Spec.creation_query snapshot_spec) sp] [] s'
      /\ forall rc out err,
          sp = Exited rc out err ->
          (rc <> 0 -> r = Ret None)
          /\ (Py.strip out = "" -> r = Ret None)
          /\ (Py.int (Py.strip out) = None -> r = Ret None)
          /\ (forall n dt,
                 rc = 0 ->
                 Py.int (Py.strip out) = Some n ->
                 Datetime.fromtimestamp utcoffset (Spec.epoch_seconds n)
                 = Datetime.Stamp dt ->
                 r = Ret (Some (Datetime.strftime_restic dt))
                 /\ (1000 <= Datetime.year dt ->
                     Spec.is_restic_time (Datetime.strftime_restic dt) = true))
          /\ (forall n,
                 rc = 0 ->
                 Py.int (Py.strip out) = Some n ->
                 Datetime.fromtimestamp utcoffset (Spec.epoch_seconds n)
                 = Datetime.OutOfRange ->
                 r = Ret None)
          /\ (forall n,
                 rc = 0 ->
                 Py.int (Py.strip out) = Some n ->
                 Datetime.fromtimestamp utcoffset (Spec.epoch_seconds n)
                 = Datetime.OutOfTimeT ->
                 r = Raise OverflowError).
Proof.
  intros World host utcoffset snapshot_spec s s' r H.
  unfold Backup.get_snapshot_creation_time, Backup.run_cmd in H.
  apply bind_inv in H.
  destruct H as [(cp & s1 & Hrun & Hk) | (e & Hrun & ->)];
    apply run_inv in Hrun; destruct Hrun as (sp & L & E).
  - apply lift_inv in Hk as [-> ->]. exists sp. split; [exact L|].
    intros rc out err ->. simpl in E. injection E as ->.
    split; [apply creation_time_of_failed|].
    split; [apply creation_time_of_empty|].
    split; [apply creation_time_of_no_int|].
    split; [|split].
    + intros n dt -> Hint Hdt. split.
      * now apply creation_time_of_int with (n := n).
      * intros Hy. apply restic_time_shape.
        apply fromtimestamp_range in Hdt.
        unfold Spec.four_digit_year. lia.
    + intros n -> Hint Hdt.
      rewrite (creation_time_of_epoch _ _ _ _ _ Hint). now rewrite Hdt.
    + intros n -> Hint Hdt.
      rewrite (creation_time_of_epoch _ _ _ _ _ Hint). now rewrite Hdt.
  - exists sp. split; [exact L|].
    intros rc out err ->. simpl in E. discriminate E.
Qed.

Lemma creation_time_resolution_witness :
  let run := Backup.get_snapshot_creation_time
               (Sim.host Sim.healthy) (fun _ => 0) Sim.snapshot
               (initial [Sim.snapshot]) in
  let first_day := Backup.get_snapshot_creation_time
                     (Sim.host (Sim.with_creation "-62135596800" Sim.healthy))
                     (fun _ => 0) Sim.snapshot (initial [Sim.snapshot]) in
  fst run = Ret (Some "2024-01-01 00:00:00")
  /\ fst first_day = Ret None.
Proof.
  cbv zeta. split.
  - assert (Ht : trace (snd (Backup.get_snapshot_creation_time
                               (Sim.host Sim.healthy) (fun _ => 0)
                               Sim.snapshot (initial [Sim.snapshot])))
                 = [Ran (Spec.creation_query Sim.snapshot)
                        (Exited 0 ("1704067200" ++ Sim.nl) "")])
      by (vm_compute; reflexivity).
    assert (Hint : Py.int (Py.strip ("1704067200" ++ Sim.nl))
                   = Some 1704067200)
      by (vm_compute; reflexivity).
    assert (Hdt : Datetime.fromtimestamp (fun _ => 0)
                    (Spec.epoch_seconds 1704067200)
                  = Datetime.Stamp (Datetime.mkDatetime 2024 1 1 0 0 0 0))
      by (vm_compute; reflexivity).
    pose proof (creation_time_resolution
                  Sim.World (Sim.host Sim.healthy) (fun _ => 0) Sim.snapshot
                  (initial [Sim.snapshot]) _ _ (surjective_pairing _)) as W.
    destruct W as (sp & (T & _) & Hc).
    rewrite Ht in T. cbn [trace initial app] in T.
    injection T as Hsp. subst sp.
    pose proof (Hc 0 ("1704067200" ++ Sim.nl) "" eq_refl) as W.
    destruct W as (_ & _ & _ & Hs & _).
    exact (proj1 (Hs 1704067200 _ eq_refl Hint Hdt)).
  - assert (Ht : trace (snd (Backup.get_snapshot_creation_time
                               (Sim.host (Sim.with_creation "-62135596800"
                                                            Sim.healthy))
                               (fun _ => 0)
                               Sim.snapshot (initial [Sim.snapshot])))
                 = [Ran (Spec.creation_query Sim.snapshot)
                        (Exited 0 "-62135596800" "")])
      by (vm_compute; reflexivity).
    assert (Hint : Py.int (Py.strip "-62135596800") = Some (-62135596800))
      by (vm_compute; reflexivity).
    assert (Hdt : Datetime.fromtimestamp (fun _ => 0)
                    (Spec.epoch_seconds (-62135596800))
                  = Datetime.OutOfRange)
      by (vm_compute; reflexivity).
    pose proof (creation_time_resolution
                  Sim.World
                  (Sim.host (Sim.with_creation "-62135596800" Sim.healthy))
                  (fun _ => 0) Sim.snapshot
                  (initial [Sim.snapshot]) _ _ (surjective_pairing _)) as W.
    destruct W as (sp & (T & _) & Hc).
    rewrite Ht in T. cbn [trace initial app] in T.
    injection T as Hsp. subst sp.
    pose proof (Hc 0 "-62135596800" "" eq_refl) as W.
    destruct W as (_ & _ & _ & _ & Ho & _).
    exact (Ho (-62135596800) eq_refl Hint Hdt).
Defined.

(** C7. Dataset resolution, in both scripts, makes the one listing call
    and returns the name of the listing's first entry whose mountpoint is
    exactly the path given (equal, not a prefix of it or prefixed by it);
    when no entry has that mountpoint the result is [None], on which
    [check_path] returns the no-dataset message after that one call and
    the backup script's [main] returns 1 with neither a snapshot request
    nor a backup invocation. *)
Theorem dataset_resolution_by_exact_mountpoint :
  forall (World : Type) (host : Host World),
    (forall path s r s',
        CheckUnlocked.get_dataset_for_path host path s = (r, s') ->
        exists sp,
          Spec.leads host s [Ran Spec.list_query sp] [] s'
          /\ r = Spec.resolved path sp)
    /\ (forall path s r s',
           Backup.get_dataset_for_path host path s = (r, s') ->
           exists sp,
             Spec.leads host s [Ran Spec.list_query sp] [] s'
             /\ r = Spec.resolved path sp)
    /\ (forall path out name,
           Spec.lookup path (Spec.listing out) = Some name ->
           In (name, path) (Spec.listing out))
    /\ (forall path out,
           (forall name, ~ In (name, path) (Spec.listing out)) ->
           Spec.lookup path (Spec.listing out) = None)
    /\ (forall path out name,
           In (name, path) (Spec.listing out) ->
           Spec.lookup path (Spec.listing out) <> None)
    /\ (forall (abspath : string -> string) path s r s',
           CheckUnlocked.check_path host abspath path s = (r, s') ->
           exists evs,
             Spec.leads host s evs [] s'
             /\ forall sp,
                 In (Ran Spec.list_query sp) evs ->
                 Spec.resolved (abspath path) sp = Ret None ->
                 r = Ret (Some ("No ZFS dataset with mountpoint: "
                                ++ abspath path))
                 /\ evs = [Ran Spec.list_query sp])
    /\ (forall (argv : list string) (script_name : string) (pid : Z)
               (nodename : string) (abspath : string -> string)
               (script_digest : option string) (utcoffset : Z -> Z)
               (w : World) (r : result Z) (s' : State World),
           Backup.main host argv script_name pid nodename abspath
                       script_digest utcoffset (initial w) = (r, s') ->
           forall sp,
             In (Ran Spec.list_query sp) (trace s') ->
             Spec.resolved (abspath (snd (fst (Backup.parse_args argv)))) sp
             = Ret None ->
             r = Ret 1
             /\ Spec.requests_snapshot (trace s') = false
             /\ Spec.has_backup (trace s') = false).
Proof.
  intros World host.
  split; [intros; now apply check_get_dataset_for_path|].
  split; [intros; now apply backup_get_dataset_for_path|].
  split; [intros path out name H; exact (lookup_sound _ _ _ H)|].
  split; [intros path out H; exact (lookup_complete _ _ H)|].
  split; [intros path out name H; exact (lookup_finds _ _ _ H)|].
  split; [intros; now apply check_path_not_found|].
  intros argv script_name pid nodename abspath script_digest utcoffset
         w r s' H sp Hin Hres.
  eapply main_dataset_not_found; eassumption.
Qed.

Lemma dataset_resolution_by_exact_mountpoint_witness :
  let run path :=
    CheckUnlocked.get_dataset_for_path (Sim.host Sim.healthy) path
                                       (initial []) in
  fst (run "/mnt/secrets") = Ret (Some "tank/secrets")
  /\ fst (run "/mnt") = Ret None
  /\ fst (run "/mnt/secrets/sub") = Ret None
  /\ exists sp,
      Spec.leads (Sim.host Sim.healthy) (initial [])
                 [Ran Spec.list_query sp] [] (snd (run "/mnt/secrets")).
Proof.
  cbv zeta.
  split; [vm_compute; reflexivity|].
  split; [vm_compute; reflexivity|].
  split; [vm_compute; reflexivity|].
  destruct (proj1 (dataset_resolution_by_exact_mountpoint
                     Sim.World (Sim.host Sim.healthy))
                  "/mnt/secrets" (initial []) _ _ (surjective_pairing _))
    as (sp & L & _).
  exists sp. exact L.
Defined.

(** C8. Every backup-tool invocation of a run of [main] is the command
    list [<restic command>; "backup"; "--time"; <resolved time>; "."]
    followed by the arguments after ["--"] as [parse_args] gives them,
    output not captured, run in the snapshot's view directory
    [<mount point>/.zfs/snapshot/<snapshot name>] that was found to be a
    directory; the restic command is [restic] or the resolved
    [--restic-bin] path, and the time is what creation-time resolution
    made of the answer to the creation query.  A run that returns 0 has
    made such an invocation. *)
Theorem backup_invocation_shape :
  forall (World : Type) (host : Host World) (argv : list string)
         (script_name : string) (pid : Z) (nodename : string)
         (abspath : string -> string) (script_digest : option string)
         (utcoffset : Z -> Z) (w : World) (r : result Z) (s' : State World),
    Backup.main host argv script_name pid nodename abspath script_digest
                utcoffset (initial w) = (r, s') ->
    (forall i x,
        In (Ran i x) (trace s') ->
        Spec.is_backup_invocation i = true ->
        exists restic_cmd restic_time dataset snap_ts,
          let snap_name := Backup.snap_name_of pid nodename snap_ts in
          let snapshot_dir :=
            Backup.path_join
              (Backup.path_join
                 (Backup.path_join
                    (abspath (snd (fst (Backup.parse_args argv)))) ".zfs")
                 "snapshot") snap_name in
          i = mkInvocation
                ([restic_cmd; "backup"; "--time"; restic_time; "."]
                 ++ snd (Backup.parse_args argv))
                false (Some snapshot_dir)
          /\ (restic_cmd = "restic"
              \/ exists b, fst (fst (Backup.parse_args argv)) = Some b
                           /\ restic_cmd = resolve host w b)
          /\ (exists rc out err,
                 In (Ran (Spec.creation_query (dataset ++ "@" ++ snap_name))
                         (Exited rc out err)) (trace s')
                 /\ Backup.creation_time_of utcoffset
                      (mkCompleted
                         (Subprocess.argv
                            (Spec.creation_query (dataset ++ "@" ++ snap_name)))
                         rc out err)
                    = Ret (Some restic_time))
          /\ In (IsDir snapshot_dir true) (trace s'))
    /\ (r = Ret 0 -> Spec.has_backup (trace s') = true).
Proof.
  intros World host argv script_name pid nodename abspath script_digest
         utcoffset w r s' H.
  eapply main_backup_invocation; eassumption.
Qed.

Lemma backup_invocation_shape_witness :
  let run := Sim.backup Sim.healthy ["/mnt/secrets"; "--"; "--verbose"] in
  fst run = Ret 0 /\ Spec.has_backup (trace (snd run)) = true.
Proof.
  cbv zeta.
  assert (H0 : fst (Sim.backup Sim.healthy ["/mnt/secrets"; "--"; "--verbose"])
               = Ret 0) by (vm_compute; reflexivity).
  split; [exact H0|].
  exact (proj2 (backup_invocation_shape
                  Sim.World (Sim.host Sim.healthy)
                  ["/mnt/secrets"; "--"; "--verbose"] "zfs-restic-backup.py"
                  4242 "truenas.local" Sim.abspath (Some "0f3a")
                  (fun _ => 0) [] _ _ (sim_backup_run _ _)) H0).
Defined.

(** C9, as stated, fails: given the one path argument [" "], the check
    script exits 0, prints nothing and calls no program, although that
    path resolves to no dataset: [check_path] gives the no-dataset
    message on it, as given and stripped. *)
Lemma blank_path_argument_is_skipped :
  Sim.check Sim.healthy [" "] = (Ret 0, initial [])
  /\ fst (CheckUnlocked.check_path (Sim.host Sim.healthy) Sim.abspath " "
                                   (initial []))
     = Ret (Some "No ZFS dataset with mountpoint: /root/ ")
  /\ fst (CheckUnlocked.check_path (Sim.host Sim.healthy) Sim.abspath ""
                                   (initial []))
     = Ret (Some "No ZFS dataset with mountpoint: /root").
Proof. repeat split; vm_compute; reflexivity. Qed.

(** C9, amended. In lock-check mode with one or more path arguments,
    every argument that is not blank is checked, stripped of surrounding
    white space and in order, also after a failure, and blank arguments
    are skipped.  A checked path passes when the listing resolves it to a
    dataset and the encryption-root query for that dataset is answered
    with no root (a failed query, an empty answer or ["-"]) or with a
    root whose keystatus query is answered [available].  A run that
    returns returns 0 if and only if every checked path passes, and 1
    otherwise; what it prints is one message for each path that does not
    pass, in order. *)
Theorem check_main_exit_status :
  forall (World : Type) (host : Host World) (abspath : string -> string)
         (prog : string) (paths : list string) (s s' : State World) (rc : Z),
    paths <> [] ->
    CheckUnlocked.main host abspath (prog :: paths) s = (Ret rc, s') ->
    exists vs : list Spec.Verdict,
      map Spec.path_of vs
      = filter (fun p => negb (Py.is_empty p)) (map Py.strip paths)
      /\ Spec.leads host s (flat_map Spec.events_of vs)
                    (Spec.diagnostics vs) s'
      /\ (forall v, In v vs ->
                    (Spec.message_of v = None
                     <-> Spec.passes (abspath (Spec.path_of v))
                                     (Spec.events_of v)))
      /\ (rc = 0 <-> forall v, In v vs ->
                               Spec.passes (abspath (Spec.path_of v))
                                           (Spec.events_of v))
      /\ (rc = 0 \/ rc = 1)
      /\ List.length (Spec.diagnostics vs)
         = List.length (filter (fun v => negb (Spec.silent v)) vs).
Proof.
  intros World host abspath prog paths s s' rc Hne H.
  apply check_main_verdicts in H as (vs & Hp & L & Hall & ->); [|exact Hne].
  exists vs. split; [exact Hp|]. split; [exact L|]. split; [exact Hall|].
  split; [|split; [|apply diagnostics_length]].
  - destruct (forallb Spec.silent vs) eqn:F.
    + split; [|reflexivity]. intros _ v Hin. apply Hall; [exact Hin|].
      rewrite forallb_forall in F. apply F in Hin.
      unfold Spec.silent in Hin.
      destruct (Spec.message_of v); [discriminate Hin|reflexivity].
    + split; [discriminate|]. intros Hpass. exfalso.
      assert (F' : forallb Spec.silent vs = true).
      { apply forallb_forall. intros v Hin. unfold Spec.silent.
        now rewrite (proj2 (Hall v Hin) (Hpass v Hin)). }
      congruence.
  - destruct (forallb Spec.silent vs); auto.
Qed.

Lemma check_main_exit_status_witness :
  let host := Sim.host (Sim.with_keystatus "locked" Sim.healthy) in
  let paths := ["/mnt/secrets"; " "; "/nope"] in
  let run := Sim.check (Sim.with_keystatus "locked" Sim.healthy) paths in
  fst run = Ret 1
  /\ exists vs : list Spec.Verdict,
      map Spec.path_of vs = ["/mnt/secrets"; "/nope"]
      /\ Spec.leads host (initial []) (flat_map Spec.events_of vs)
                    (Spec.diagnostics vs) (snd run)
      /\ List.length (Spec.diagnostics vs) = 2%nat
      /\ ~ (forall v, In v vs ->
                      Spec.passes (Sim.abspath (Spec.path_of v))
                                  (Spec.events_of v)).
Proof.
  cbv zeta.
  assert (Hne : ["/mnt/secrets"; " "; "/nope"] <> []) by discriminate.
  assert (H1 : fst (Sim.check (Sim.with_keystatus "locked" Sim.healthy)
                              ["/mnt/secrets"; " "; "/nope"]) = Ret 1)
    by (vm_compute; reflexivity).
  assert (Hp : List.length
                 (printed (snd (Sim.check
                                  (Sim.with_keystatus "locked" Sim.healthy)
                                  ["/mnt/secrets"; " "; "/nope"])))
               = 2%nat)
    by (vm_compute; reflexivity).
  pose proof (sim_check_run (Sim.with_keystatus "locked" Sim.healthy)
                            ["/mnt/secrets"; " "; "/nope"]) as Hrun.
  rewrite H1 in Hrun at 1.
  split; [exact H1|].
  pose proof (check_main_exit_status
                Sim.World
                (Sim.host (Sim.with_keystatus "locked" Sim.healthy))
                Sim.abspath "zfs-check-unlocked.py"
                ["/mnt/secrets"; " "; "/nope"] (initial []) _ 1 Hne Hrun)
    as W.
  destruct W as (vs & M & L & _ & Hrc & _).
  exists vs. split; [exact M|]. split; [exact L|].
  destruct L as (_ & P & _).
  rewrite P in Hp. cbn [printed initial app] in Hp.
  split; [exact Hp|].
  intros Hall. apply (proj2 Hrc) in Hall. discriminate Hall.
Defined.

(** C10. In backup mode, when the argument list has a ["--"] separator,
    only the first positional argument is the mount point, and every
    argument between it and the separator is dropped without a word: the
    parse is [(restic binary, stripped mount point, arguments after the
    separator)], and the whole run of [main] is the one of the same
    command line without the dropped arguments. *)
Theorem parse_args_drops_between_mount_point_and_separator :
  forall (vs : list string) (m : string) (mid rest : list string),
    m <> "--restic-bin" ->
    ~ In "--" (m :: mid) ->
    Backup.parse_args (Spec.restic_bin_options vs ++ m :: mid ++ "--" :: rest)
    = (Spec.last_restic_bin vs, Py.strip m, rest)
    /\ forall (World : Type) (host : Host World)
              (script_name : string) (pid : Z) (nodename : string)
              (abspath : string -> string) (script_digest : option string)
              (utcoffset : Z -> Z),
        Backup.main host
          (Spec.restic_bin_options vs ++ m :: mid ++ "--" :: rest)
          script_name pid nodename abspath script_digest utcoffset
        = Backup.main host
            (Spec.restic_bin_options vs ++ m :: "--" :: rest)
            script_name pid nodename abspath script_digest utcoffset.
Proof.
  intros vs m mid rest Hm Hsep.
  assert (E : forall mid', ~ In "--" (m :: mid') ->
                Backup.parse_args
                  (Spec.restic_bin_options vs ++ m :: mid' ++ "--" :: rest)
                = (Spec.last_restic_bin vs, Py.strip m, rest)).
  { intros mid' Hsep'. unfold Backup.parse_args.
    rewrite parse_args_from_options.
    now apply parse_args_from_separator. }
  split; [now apply E|].
  intros. unfold Backup.main.
  rewrite (E mid Hsep).
  pose proof (E [] ltac:(simpl in *; tauto)) as E0. cbn [app] in E0.
  rewrite E0. reflexivity.
Qed.

Lemma parse_args_drops_between_mount_point_and_separator_witness :
  ("/mnt/secrets" <> "--restic-bin"
   /\ ~ In "--" ["/mnt/secrets"; "/mnt/other"; "-v"])
  /\ Backup.parse_args
       ["--restic-bin"; "/opt/restic"; "/mnt/secrets"; "/mnt/other"; "-v";
        "--"; "--tag"; "nightly"]
     = (Some "/opt/restic", "/mnt/secrets", ["--tag"; "nightly"]).
Proof.
  assert (H1 : "/mnt/secrets" <> "--restic-bin") by discriminate.
  assert (H2 : ~ In "--" ["/mnt/secrets"; "/mnt/other"; "-v"])
    by (simpl; intros [H|[H|[H|[]]]]; discriminate H).
  split; [split; assumption|].
  exact (proj1 (parse_args_drops_between_mount_point_and_separator
                  ["/opt/restic"] "/mnt/secrets" ["/mnt/other"; "-v"]
                  ["--tag"; "nightly"] H1 H2)).
Defined.

(** * Further properties of the two scripts *)

(** ** The environment check, event by event *)

Section EnvironmentCases.
Import Subprocess.
Context {World : Type} (host : Host World).

(** The probes of the restic binary run no program. *)
Lemma restic_command_cases (restic_bin : option string) s r s' :
  Backup.restic_command host restic_bin s = (r, s') ->
  exists evs lines checked,
    Spec.leads host s evs lines s'
    /\ forallb Spec.is_environment_check evs = true
    /\ r = Ret checked
    /\ (forall cmd, checked = Some cmd ->
        cmd = "restic"
        \/ exists b, restic_bin = Some b /\ cmd = resolve host (world s) b)
    /\ (forall i sp, ~ In (Ran i sp) evs).
Proof.
  intros H. pose proof (leads_refl host s) as L0.
  unfold Backup.restic_command in H.
  exec H.
  all: idtac; match goal with
       | L : Spec.leads _ _ _ _ _ |- _ =>
           do 3 eexists; split; [exact L|]; split; [reflexivity|];
           split; [reflexivity|]; split;
           [ intros cmd E; try discriminate E; injection E as <-; eauto
           | intros i sp Hin; case_in Hin; discriminate Hin ]
       end.
Qed.

(** One round of the version loop. *)
Lemma check_versions_cases (cmds : list (string * list string)) s r s' :
  Forall (fun nc => nth 1 (snd nc) "" = "version") cmds ->
  Backup.check_versions host cmds s = (r, s') ->
  exists evs lines,
    Spec.leads host s evs lines s'
    /\ forallb Spec.is_environment_check evs = true
    /\ (r = Ret None \/ r = Ret (Some 1) \/ exists e, r = Raise e)
    /\ (forall e, In e evs -> Spec.is_run e = true)
    /\ (forall i sp,
           In (Ran i sp) evs -> Spec.exited_zero sp = false ->
           last evs (IsDir "" true) = Ran i sp
           /\ r = match sp with
                  | Failed => Raise OSError
                  | _ => Ret (Some 1)
                  end
           /\ (sp <> Failed ->
               exists name line,
                 In (name, argv i) cmds /\ In line lines
                 /\ Spec.logged (Spec.version_failure name sp) line)).
Proof.
  intros Hv. revert s.
  induction Hv as [|[name cmd] cmds Hcmd Hv IH]; intros s H.
  - apply ret_inv in H as [-> ->].
    exists [], []. split; [apply leads_refl|].
    repeat split; auto; intros; contradiction.
  - simpl in Hcmd. pose proof (leads_refl host s) as L0.
    cbn [Backup.check_versions] in H.
    apply bind_inv in H.
    destruct H as [(early & s1 & Hc & Hk) | (e & Hc & ->)].
    + assert (Hstep : exists sp lines,
                 Spec.leads host s [Ran (mkInvocation cmd true None) sp]
                            lines s1
                 /\ early = (if Spec.exited_zero sp then None else Some 1)
                 /\ sp <> Failed
                 /\ (Spec.exited_zero sp = false ->
                     exists line,
                       In line lines
                       /\ Spec.logged (Spec.version_failure name sp) line)).
      { clear Hk IH. exec Hc.
        all: idtac; match goal with
             | L : Spec.leads _ _ _ _ _ |- _ =>
                 do 2 eexists; split; [exact L|]
             end.
        all: cbn [Spec.exited_zero];
          repeat match goal with
                 | E : (_ =? 0) = _ |- _ => rewrite E
                 end.
        all: split; [reflexivity|]; split; [discriminate|].
        all: intros Hz; try discriminate Hz.
        all: eexists; split; [left; reflexivity|];
          eexists; reflexivity. }
      destruct Hstep as (sp & lines & L1 & -> & Hsp & Hmsg).
      destruct (Spec.exited_zero sp) eqn:Ez.
      * apply IH in Hk as (evs2 & lines2 & L2 & F2 & Hr & Hrun & Hfail).
        do 2 eexists.
        split; [exact (leads_trans _ _ _ _ _ _ _ _ L1 L2)|].
        split.
        { rewrite forallb_app, F2, andb_true_r.
          cbv [forallb Spec.is_environment_check Spec.verb argv].
          now rewrite Hcmd. }
        split; [exact Hr|]. split.
        { intros e [<-|Hin]; [reflexivity|now apply Hrun]. }
        intros i sp' [E|Hin] Hz.
        { injection E as <- <-. congruence. }
        destruct (Hfail i sp' Hin Hz) as (Hl & Hres & Hm).
        split; [cbn [app]; now rewrite (last_in_cons _ _ _ _ Hin)|].
        split; [exact Hres|].
        intros Hnf. destruct (Hm Hnf) as (n & line & Hn & Hline & Hlog).
        exists n, line. split; [now right|]. split; [|exact Hlog].
        apply in_or_app. now right.
      * apply ret_inv in Hk as [-> ->].
        do 2 eexists. split; [exact L1|].
        split.
        { cbv [forallb Spec.is_environment_check Spec.verb argv].
          now rewrite Hcmd. }
        split; [auto|]. split.
        { intros e [<-|[]]. reflexivity. }
        intros i sp' [E|[]] Hz. injection E as <- <-.
        split; [reflexivity|]. split; [now destruct sp|].
        intros _. destruct (Hmsg eq_refl) as (line & Hline & Hlog).
        exists name, line. split; [now left|]. auto.
    + assert (Hstep : Spec.leads host s
                        [Ran (mkInvocation cmd true None) Failed] [] s'
                      /\ e = OSError).
      { clear IH. exec Hc.
        all: try discriminate.
        all: idtac; match goal with
             | L : Spec.leads _ _ _ _ _ |- _ => split; [exact L|reflexivity]
             end. }
      destruct Hstep as (L1 & ->).
      do 2 eexists. split; [exact L1|].
      split.
      { cbv [forallb Spec.is_environment_check Spec.verb argv].
        now rewrite Hcmd. }
      split; [eauto|]. split.
      { intros e [<-|[]]. reflexivity. }
      intros i sp' [E|[]] Hz. injection E as <- <-.
      split; [reflexivity|]. split; [reflexivity|].
      intros Hnf. contradiction.
Qed.

End EnvironmentCases.

(** [exec_main] with the environment check taken event by event. *)
Ltac exec_main_cases H :=
  cbn [Subprocess.returncode Subprocess.stdout Subprocess.stderr
       Subprocess.args negb andb] in H;
  lazymatch type of H with
  | Subprocess.bind (Backup.restic_command _ _) _ _ = _ =>
      let Hc := fresh "Hc" in
      let Hk := fresh "Hk" in
      apply (bind_inv) in H;
      destruct H as [(? & ? & Hc & Hk) | (? & Hc & ?)];
      apply restic_command_cases in Hc;
      destruct Hc as (? & ? & ? & ? & ? & ? & ? & ?); tidy; join_leads;
      try exec_main_cases Hk
  | Subprocess.bind (Backup.check_versions _ _) _ _ = _ =>
      let Hc := fresh "Hc" in
      let Hk := fresh "Hk" in
      apply (bind_inv) in H;
      destruct H as [(? & ? & Hc & Hk) | (? & Hc & ?)];
      (apply check_versions_cases in Hc; [|repeat constructor]);
      destruct Hc as (? & ? & ? & ? & [?|[?|(? & ?)]] & ? & ?);
      tidy; join_leads;
      try exec_main_cases Hk
  | Subprocess.bind _ _ _ = _ =>
      let Hc := fresh "Hc" in
      let Hk := fresh "Hk" in
      apply (bind_inv) in H;
      destruct H as [(? & ? & Hc & Hk) | (? & Hc & ?)];
      [ exec Hc; exec_main_cases Hk | exec Hc ]
  | (if negb ?b then _ else _) _ = _ =>
      destruct b eqn:?; cbn [negb] in H; exec_main_cases H
  | (if ?b then _ else _) _ = _ => destruct b eqn:?; exec_main_cases H
  | (match ?x with _ => _ end) _ = _ => destruct x eqn:?; exec_main_cases H
  | _ => exec H
  end.

(** ** The stages of a backup run *)

Section BackupStages.
Import Subprocess.
Context {World : Type} (host : Host World).
Variable argv : list string.
Variable script_name : string.
Variable pid : Z.
Variable nodename : string.
Variable abspath : string -> string.
Variable script_digest : option string.
Variable utcoffset : Z -> Z.

Lemma path_join_length (p c : string) :
  (String.length p + String.length c <= String.length (Backup.path_join p c))%nat.
Proof.
  unfold Backup.path_join.
  destruct (Backup.ends_with_slash p); rewrite !length_append; simpl; lia.
Qed.

Lemma view_is_not_source (p c : string) :
  Backup.path_join
    (Backup.path_join (Backup.path_join p ".zfs") "snapshot") c <> p.
Proof.
  intros E. apply (f_equal String.length) in E.
  pose proof (path_join_length
                (Backup.path_join (Backup.path_join p ".zfs") "snapshot") c).
  pose proof (path_join_length (Backup.path_join p ".zfs") "snapshot").
  pose proof (path_join_length p ".zfs").
  simpl in *. lia.
Qed.

Lemma replay_app_inv (w w' : World) (a b : list Event) :
  Spec.replay host w (a ++ b) w' ->
  exists w1, Spec.replay host w a w1 /\ Spec.replay host w1 b w'.
Proof.
  revert w. induction a as [|e a IH]; intros w H.
  - exists w. split; [constructor|exact H].
  - cbn [app] in H. inversion H; subst;
      match goal with
      | R : Spec.replay _ _ (a ++ b) _ |- _ =>
          apply IH in R as (w1 & Ra & Rb)
      end;
      exists w1; (split; [|exact Rb]); econstructor; eauto.
Qed.

Lemma first_snapshot_split (evs : list Event) snap post :
  Spec.first_snapshot evs = Some (snap, post) ->
  exists pre i out err,
    evs = (pre ++ Ran i (Exited 0 out err) :: post)%list
    /\ Spec.is_snapshot_request i = true
    /\ snap = nth 2 (Subprocess.argv i) "".
Proof.
  induction evs as [|e evs IH]; [discriminate|].
  cbn [Spec.first_snapshot].
  assert (Hrest : Spec.first_snapshot evs = Some (snap, post) ->
                  exists pre i out err,
                    e :: evs
                    = (pre ++ Ran i (Exited 0 out err) :: post)%list
                    /\ Spec.is_snapshot_request i = true
                    /\ snap = nth 2 (Subprocess.argv i) "").
  { intros H. apply IH in H as (pre & i & out & err & -> & Hi & Hs).
    exists (e :: pre), i, out, err. auto. }
  destruct e as [i [rc out err| |]| | |]; auto.
  destruct (Spec.is_snapshot_request i) eqn:Ei; cbn [andb]; auto.
  destruct (Z.eqb_spec rc 0) as [->|]; auto.
  intros [= <- <-]. exists [], i, out, err. auto.
Qed.

(** The trace of a run replays against the host. *)
Lemma main_replay w r s' :
  Backup.main host argv script_name pid nodename abspath
              script_digest utcoffset (initial w) = (r, s') ->
  Spec.replay host w (trace s') (world s').
Proof.
  intros H.
  pose proof (leads_refl host (initial w)) as L0.
  unfold Backup.main in H.
  exec_main H.
  all: open_trace.
  all: rewrite T; exact R.
Qed.

(** X3. When [parse_args] finds no mount point (no positional argument,
    a blank one, or a [--restic-bin] without its value), [main] returns
    1 without probing or running anything, and logs two lines: the
    error (the one about [--restic-bin] exactly when the binary parsed
    is the empty string) and the usage. *)
Theorem main_missing_mount_point w r s' :
  snd (fst (Backup.parse_args argv)) = "" ->
  Backup.main host argv script_name pid nodename abspath
              script_digest utcoffset (initial w) = (r, s') ->
  r = Ret 1 /\ trace s' = [] /\ world s' = w
  /\ exists line1 line2,
      printed s' = [line1; line2]
      /\ Spec.logged
           (match fst (fst (Backup.parse_args argv)) with
            | Some "" => "ERROR: --restic-bin requires a path argument"
            | _ => "ERROR: Missing required argument: mount point"
            end) line1
      /\ Spec.logged Backup.usage line2.
Proof.
  intros Hm H. unfold Backup.main in H.
  destruct (Backup.parse_args argv) as [[rb m] rest].
  cbn [fst snd] in *. subst m. cbn [Py.is_empty] in H.
  unfold bind, Backup.log, print, ret in H.
  destruct rb as [[|c b]|]; cbn in H; injection H as <- <-; cbn.
  all: repeat split; do 2 eexists; split; [reflexivity|];
    split; eexists; reflexivity.
Qed.

(** X4. When a non-blank [--restic-bin] is given and the resolved path
    is no regular file, or is not executable, [main] returns 1 having
    run no program and tested no directory; it logs the one line that
    says which of the two tests failed. *)
Theorem main_restic_bin_unusable w r s' b :
  fst (fst (Backup.parse_args argv)) = Some b ->
  b <> "" ->
  snd (fst (Backup.parse_args argv)) <> "" ->
  is_file host w (resolve host w b) = false
  \/ access_x host w (resolve host w b) = false ->
  Backup.main host argv script_name pid nodename abspath
              script_digest utcoffset (initial w) = (r, s') ->
  r = Ret 1 /\ world s' = w
  /\ (forall i sp, ~ In (Ran i sp) (trace s'))
  /\ (forall p d, ~ In (IsDir p d) (trace s'))
  /\ exists line,
      printed s' = [line]
      /\ Spec.logged
           ("ERROR: --restic-bin path is not "
            ++ (if is_file host w (resolve host w b)
                then "executable: " else "a file: ")
            ++ resolve host w b) line.
Proof.
  intros Hb Hne Hm Hbad H. unfold Backup.main in H.
  destruct (Backup.parse_args argv) as [[rb m] rest].
  cbn [fst snd] in *. subst rb.
  destruct m as [|c m]; [contradiction|]. cbn [Py.is_empty] in H.
  destruct b as [|c' b]; [contradiction|].
  assert (Hrun :
    Backup.restic_command host (Some (String c' b)) (initial w)
    = (if is_file host w (resolve host w (String c' b))
       then if access_x host w (resolve host w (String c' b))
            then Ret (Some (resolve host w (String c' b)))
            else Ret None
       else Ret None,
       mkState w
         (IsFile (resolve host w (String c' b))
                 (is_file host w (resolve host w (String c' b)))
          :: (if is_file host w (resolve host w (String c' b))
              then [AccessX (resolve host w (String c' b))
                            (access_x host w (resolve host w (String c' b)))]
              else []))
         (if is_file host w (resolve host w (String c' b))
             && access_x host w (resolve host w (String c' b))
          then []
          else ["[" ++ Datetime.isoformat (now host w) ++ "] "
                ++ "ERROR: --restic-bin path is not "
                ++ (if is_file host w (resolve host w (String c' b))
                    then "executable: " else "a file: ")
                ++ resolve host w (String c' b)]))).
  { cbv beta iota zeta
        delta [Backup.restic_command bind Backup.log print ret probe query
               initial world trace printed app].
    destruct (is_file host w (resolve host w (String c' b)));
      cbv beta iota zeta delta [negb world trace printed app andb];
      [|reflexivity].
    destruct (access_x host w (resolve host w (String c' b)));
      cbv beta iota zeta delta [negb world trace printed app];
      reflexivity. }
  unfold bind at 1 in H. rewrite Hrun in H. clear Hrun.
  assert (Hnone :
    (if is_file host w (resolve host w (String c' b))
     then if access_x host w (resolve host w (String c' b))
          then Ret (Some (resolve host w (String c' b)))
          else Ret None
     else @Ret (option string) None) = Ret None).
  { destruct Hbad as [-> | ->]; [reflexivity|].
    destruct (is_file host w _); reflexivity. }
  rewrite Hnone in H. unfold ret in H. injection H as <- <-.
  cbn [world trace printed].
  split; [reflexivity|]. split; [reflexivity|].
  split.
  { intros i sp [E|Hin]; [discriminate E|].
    destruct (is_file host w _);
      [destruct Hin as [E|[]]; discriminate E | destruct Hin]. }
  split.
  { intros p d [E|Hin]; [discriminate E|].
    destruct (is_file host w _);
      [destruct Hin as [E|[]]; discriminate E | destruct Hin]. }
  assert (Hand : is_file host w (resolve host w (String c' b))
                 && access_x host w (resolve host w (String c' b)) = false).
  { destruct Hbad as [-> | ->]; [reflexivity|apply andb_false_r]. }
  rewrite Hand. eexists. split; [reflexivity|]. eexists. reflexivity.
Qed.

(** X5. When a version query finds no such program or exits with a
    nonzero status, it is the last event of the run: [main] returns 1,
    nothing but the probes of the restic binary and version queries has
    happened, and the failure is logged under the name of the tool. *)
Theorem main_version_failure w r s' :
  Backup.main host argv script_name pid nodename abspath
              script_digest utcoffset (initial w) = (r, s') ->
  forall i sp,
    In (Ran i sp) (trace s') ->
    Spec.verb i = "version" ->
    Spec.exited_zero sp = false -> sp <> Failed ->
    r = Ret 1
    /\ last (trace s') (IsDir "" true) = Ran i sp
    /\ forallb Spec.is_environment_check (trace s') = true
    /\ exists name line,
        (name = "zfs" \/ name = "restic")
        /\ In line (printed s')
        /\ Spec.logged (Spec.version_failure name sp) line.
Proof.
  intros H i sp Hin Hverb Hz Hnf.
  pose proof (leads_refl host (initial w)) as L0.
  unfold Backup.main in H.
  exec_main_cases H.
  all: open_trace.
  all: rewrite T in *; rewrite P; clear T P R.
  all: case_in Hin; try discriminate Hin.
  all: try (exfalso; idtac;
            match goal with
            | N : forall i sp, ~ In (Ran i sp) ?x, Hin : In _ ?x |- _ =>
                exact (N _ _ Hin)
            end).
  all: try (injection Hin as Hi Hsp; rewrite <- Hi in Hverb;
            discriminate Hverb).
  all: idtac;
    match goal with
    | Hf : forall i sp, In (Ran i sp) ?x -> _, Hin : In _ ?x |- _ =>
        destruct (Hf _ _ Hin Hz) as (Hl & Hr & Hm)
    end.
  all: try (exfalso; destruct sp; first [discriminate Hr | congruence]).
  all: split; [reflexivity|].
  all: split; [rewrite app_nil_r || idtac; now rewrite (last_app_in _ _ _ _ Hin)|].
  split; [rewrite forallb_app; apply andb_true_iff; split; assumption|].
  destruct (Hm Hnf) as (name & line & Hn & Hline & Hlog).
  exists name, line. split.
  { case_in Hn; injection Hn as <- _; auto. }
  split; [apply in_or_app; right; right; exact Hline | exact Hlog].
Qed.

(** X6. When the mount point is found not to be a directory, that test
    is the last event of the run: [main] returns 1, the only programs
    run were version queries, and the last line logged says that the
    path was not found. *)
Theorem main_path_not_directory w r s' :
  Backup.main host argv script_name pid nodename abspath
              script_digest utcoffset (initial w) = (r, s') ->
  let source_path := abspath (snd (fst (Backup.parse_args argv))) in
  In (IsDir source_path false) (trace s') ->
  r = Ret 1
  /\ last (trace s') (IsDir "" true) = IsDir source_path false
  /\ (forall i sp, In (Ran i sp) (trace s') -> Spec.verb i = "version")
  /\ Spec.logged ("ERROR: Path " ++ source_path ++ " not found")
                  (last (printed s') "").
Proof.
  intros H source_path Hin. subst source_path.
  pose proof (leads_refl host (initial w)) as L0.
  unfold Backup.main in H.
  exec_main H.
  all: open_trace.
  all: rewrite T in *; rewrite P; clear T P R.
  all: rewrite ?Heqp in *; cbn [fst snd] in *.
  all: case_in Hin; try discriminate Hin.
  all: try (exfalso; idtac;
            match goal with
            | F : forallb Spec.is_environment_check ?x = true,
              Hin : In _ ?x |- _ =>
                exact (environment_check_not_dir x _ _ F Hin)
            end).
  all: try (injection Hin as _ Hb; discriminate Hb).
  all: try (injection Hin as Hp; exfalso;
            exact (view_is_not_source _ _ Hp)).
  split; [reflexivity|]. split; [rewrite !app_assoc; apply last_last|].
  split.
  - intros i sp Hi. case_in Hi; try discriminate Hi; env_verb Hi; exact Hi.
  - rewrite app_comm_cons, app_assoc, last_last. eexists. reflexivity.
Qed.

(** X10. Every snapshot request of a run is for
    [<dataset>@<generated name>], where the dataset is the non-empty
    name that the listing of the same run resolves the mount point to,
    and the mount point was found to be a directory; a run makes no
    second snapshot request. *)
Theorem main_snapshot_target w r s' :
  Backup.main host argv script_name pid nodename abspath
              script_digest utcoffset (initial w) = (r, s') ->
  forall i x,
    In (Ran i x) (trace s') ->
    Spec.is_snapshot_request i = true ->
    exists sp dataset snap_ts,
      In (Ran Spec.list_query sp) (trace s')
      /\ Spec.resolved (abspath (snd (fst (Backup.parse_args argv)))) sp
         = Ret (Some dataset)
      /\ dataset <> ""
      /\ i = Spec.snapshot_request
               (dataset ++ "@" ++ Backup.snap_name_of pid nodename snap_ts)
      /\ In (IsDir (abspath (snd (fst (Backup.parse_args argv)))) true)
            (trace s')
      /\ forall j y,
          In (Ran j y) (trace s') ->
          Spec.is_snapshot_request j = true -> Ran j y = Ran i x.
Proof.
  intros H i sp Hin Hs.
  pose proof (leads_refl host (initial w)) as L0.
  unfold Backup.main in H.
  exec_main H.
  all: open_trace.
  all: rewrite T in *; clear T P R.
  all: rewrite ?Heqp in *; cbn [fst snd] in *.
  all: case_in Hin; try discriminate Hin.
  all: try (env_verb Hin; unfold Spec.is_snapshot_request, Spec.is_zfs in Hs;
            rewrite Hin in Hs; discriminate Hs).
  all: try (injection Hin as Hi Hx; rewrite <- Hi in Hs; cbv in Hs;
            discriminate Hs).
  all: injection Hin as <- <-.
  all: do 3 eexists; split; [pick_event|].
  all: split;
    [ unfold Spec.resolved, Spec.listing;
      rewrite <- ?backup_find_mountpoint_lookup;
      repeat match goal with
             | E : (_ =? 0) = _ |- _ => rewrite E
             | E : Backup.find_mountpoint _ _ = _ |- _ => rewrite E
             end; reflexivity |].
  all: split; [discriminate|].
  all: split; [reflexivity|].
  all: split; [pick_event|].
  all: intros j y Hj Hsj; case_in Hj; try discriminate Hj;
    try (env_verb Hj; unfold Spec.is_snapshot_request, Spec.is_zfs in Hsj;
         rewrite Hj in Hsj; discriminate Hsj);
    try (injection Hj as Hi Hx; rewrite <- Hi in Hsj; cbv in Hsj;
         discriminate Hsj).
  all: symmetry; exact Hj.
Qed.

(** X9. When the snapshot request exits with a nonzero status, [main]
    ends with [CalledProcessError] for that status and command, the
    request is the last event of the run, no snapshot was created and
    no destroy request was made. *)
Theorem main_snapshot_failure w r s' :
  Backup.main host argv script_name pid nodename abspath
              script_digest utcoffset (initial w) = (r, s') ->
  forall i rc out err,
    In (Ran i (Exited rc out err)) (trace s') ->
    Spec.is_snapshot_request i = true ->
    rc <> 0 ->
    r = Raise (CalledProcessError rc (Subprocess.argv i))
    /\ last (trace s') (IsDir "" true) = Ran i (Exited rc out err)
    /\ Spec.first_snapshot (trace s') = None
    /\ Spec.no_destroy (trace s') = true.
Proof.
  intros H i rc out err Hin Hs Hrc.
  pose proof (leads_refl host (initial w)) as L0.
  unfold Backup.main in H.
  exec_main H.
  all: zero_statuses.
  all: open_trace.
  all: rewrite T in *; clear T P R.
  all: case_in Hin; try discriminate Hin.
  all: try (env_verb Hin; unfold Spec.is_snapshot_request, Spec.is_zfs in Hs;
            rewrite Hin in Hs; discriminate Hs).
  all: try (injection Hin as Hi Hx; rewrite <- Hi in Hs; cbv in Hs;
            discriminate Hs).
  all: injection Hin as <- <- <- <-; try congruence.
  all: split; [reflexivity|].
  all: split; [rewrite app_assoc, last_app_cons; reflexivity|].
  all: split;
    [ rewrite !first_snapshot_skip by assumption;
      cbv [Spec.first_snapshot Spec.is_snapshot_request Spec.is_zfs
           Spec.verb Subprocess.argv nth String.eqb Ascii.eqb Bool.eqb andb];
      rewrite_statuses; reflexivity
    | rewrite !no_destroy_app, !environment_check_no_destroy by assumption;
      reflexivity ].
Qed.

(** X8. A run only destroys what it created: every destroy request
    names the snapshot of the run's successful snapshot request, comes
    after it, and is the last event of the run. *)
Theorem main_destroys_own_snapshot w r s' :
  Backup.main host argv script_name pid nodename abspath
              script_digest utcoffset (initial w) = (r, s') ->
  forall i x,
    In (Ran i x) (trace s') ->
    Spec.is_destroy_request i = true ->
    exists snap post,
      Spec.first_snapshot (trace s') = Some (snap, post)
      /\ i = Spec.destroy_request snap
      /\ last post (IsDir "" true) = Ran i x.
Proof.
  intros H i sp Hin Hd.
  pose proof (leads_refl host (initial w)) as L0.
  unfold Backup.main in H.
  exec_main H.
  all: zero_statuses.
  all: open_trace.
  all: rewrite T in *; clear T P R.
  all: case_in Hin; try discriminate Hin.
  all: try (env_verb Hin; unfold Spec.is_destroy_request, Spec.is_zfs in Hd;
            rewrite Hin in Hd; discriminate Hd).
  all: try (injection Hin as Hi Hx; rewrite <- Hi in Hd; cbv in Hd;
            discriminate Hd).
  all: injection Hin as <- <-.
  all: do 2 eexists; split;
    [ rewrite !first_snapshot_skip by assumption; reflexivity |];
    split; reflexivity.
Qed.

(** X13. On a host where a destroy request that exits with status 0
    removes the snapshot it names: when the events after the snapshot
    request end with such a destroy request for the snapshot, the
    snapshot does not exist in the world [main] leaves behind. *)
Theorem main_destroyed_snapshot (exists_snapshot : World -> string -> Prop) :
  (forall w i out err w',
      spawn host w i = (Exited 0 out err, w') ->
      Spec.is_destroy_request i = true ->
      ~ exists_snapshot w' (nth 2 (Subprocess.argv i) "")) ->
  forall w r s',
    Backup.main host argv script_name pid nodename abspath
                script_digest utcoffset (initial w) = (r, s') ->
    forall snap post out err,
      Spec.first_snapshot (trace s') = Some (snap, post) ->
      last post (IsDir "" true)
      = Ran (Spec.destroy_request snap) (Exited 0 out err) ->
      ~ exists_snapshot (world s') snap.
Proof.
  intros Hgone w r s' H snap post out err Hf Hl.
  apply main_replay in H.
  apply first_snapshot_split in Hf as (pre & i & o & e & Ht & _ & _).
  destruct (exists_last (l := post)) as (post' & d & ->).
  { intros ->. discriminate Hl. }
  rewrite last_last in Hl. subst d.
  rewrite Ht in H.
  change (pre ++ Ran i (Exited 0 o e)
              :: post' ++ [Ran (Spec.destroy_request snap)
                               (Exited 0 out err)])%list
    with (pre ++ (Ran i (Exited 0 o e) :: post')
              ++ [Ran (Spec.destroy_request snap) (Exited 0 out err)])%list
    in H.
  rewrite app_assoc in H.
  apply replay_app_inv in H as (w1 & _ & Hd).
  inversion Hd as [|? ? ? w2 ? ? Hsp Hnil| | |]; subst.
  inversion Hnil; subst.
  exact (Hgone _ _ _ _ _ Hsp eq_refl).
Qed.

(** X7. [main] returns 0 only after the whole sequence: after the
    successful snapshot request come the creation query with status 0,
    the view directory test answered yes, the backup invocation with
    status 0 and the destroy request for the snapshot, whose exit
    status is not looked at; the last line logged is [Done.]. *)
Theorem main_success w r s' :
  Backup.main host argv script_name pid nodename abspath
              script_digest utcoffset (initial w) = (r, s') ->
  r = Ret 0 ->
  exists snap cout cerr dir i out err drc dout derr,
    Spec.first_snapshot (trace s')
    = Some (snap,
            [Ran (Spec.creation_query snap) (Exited 0 cout cerr);
             IsDir dir true;
             Ran i (Exited 0 out err);
             Ran (Spec.destroy_request snap) (Exited drc dout derr)])
    /\ Spec.is_backup_invocation i = true
    /\ Spec.logged "Done." (last (printed s') "").
Proof.
  intros H Hr.
  pose proof (leads_refl host (initial w)) as L0.
  unfold Backup.main in H.
  exec_main H.
  all: try (idtac; match goal with
            | E : 0 = 1 |- _ => discriminate E
            | E : (0 =? 0) = false |- _ => discriminate E
            | E : Ret _ = Raise _ |- _ => discriminate E
            | E : Raise _ = Ret _ |- _ => discriminate E
            end).
  all: zero_statuses.
  all: open_trace.
  all: rewrite T, P; clear T P R.
  all: idtac;
    match goal with
    | Hc : Ret (Some _)
           = Backup.creation_time_of _ (mkCompleted _ ?rc _ _) |- _ =>
        destruct (Z.eq_dec rc 0) as [->|Hne];
        [| rewrite (creation_time_of_failed _ _ _ _ _ Hne) in Hc;
           discriminate Hc ]
    end.
  all: do 10 eexists; split;
    [ rewrite !first_snapshot_skip by assumption; reflexivity |];
    split; [reflexivity|];
    rewrite app_comm_cons, app_assoc, last_last; eexists; reflexivity.
Qed.

(** X11. A value [main] returns is 0, 1, or the exit status of the
    backup invocation, which then is the last event of the run. *)
Theorem main_exit_codes w rc s' :
  Backup.main host argv script_name pid nodename abspath
              script_digest utcoffset (initial w) = (Ret rc, s') ->
  rc = 0 \/ rc = 1
  \/ exists i out err,
      last (trace s') (IsDir "" true) = Ran i (Exited rc out err)
      /\ Spec.is_backup_invocation i = true.
Proof.
  intros H.
  pose proof (leads_refl host (initial w)) as L0.
  unfold Backup.main in H.
  exec_main H.
  all: try (left; reflexivity).
  all: try (right; left; reflexivity).
  all: try (left; symmetry; assumption).
  all: try (right; left; symmetry; assumption).
  all: open_trace.
  all: rewrite T; clear T P R.
  all: right; right; do 3 eexists; split;
    [ rewrite app_assoc, last_app_cons; reflexivity | reflexivity ].
Qed.

(** X12. A program that cannot be started ends the run with the
    exception of [subprocess.run] ([FileNotFoundError] for a missing
    program, [OSError] otherwise) as its last event, with the one
    exception the code handles: a missing program in the version
    loop. *)
Theorem main_start_error w r s' :
  Backup.main host argv script_name pid nodename abspath
              script_digest utcoffset (initial w) = (r, s') ->
  forall i sp e,
    In (Ran i sp) (trace s') ->
    Spec.start_error sp = Some e ->
    (sp = NotFound -> Spec.verb i <> "version") ->
    r = Raise e /\ last (trace s') (IsDir "" true) = Ran i sp.
Proof.
  intros H i sp e Hin He Hv.
  pose proof (leads_refl host (initial w)) as L0.
  unfold Backup.main in H.
  exec_main_cases H.
  all: open_trace.
  all: rewrite T in *; clear T P R.
  all: case_in Hin; try discriminate Hin.
  all: try (exfalso; idtac;
            match goal with
            | N : forall i sp, ~ In (Ran i sp) ?x, Hin : In _ ?x |- _ =>
                exact (N _ _ Hin)
            end).
  all: try (injection Hin as Hi Hsp; rewrite <- Hsp in He;
            discriminate He).
  all: try (idtac;
            match goal with
            | Hf : forall i sp, In (Ran i sp) ?x -> _,
              F : forallb Spec.is_environment_check ?x = true,
              Hin : In _ ?x |- _ =>
                destruct sp as [? ? ?| |];
                [ discriminate He
                | exfalso; apply (Hv eq_refl);
                  exact (environment_check_verb x _ _ F Hin)
                | destruct (Hf _ _ Hin eq_refl) as (Hl & Hr & _);
                  injection He as <-;
                  first [ discriminate Hr
                        | split;
                          [ congruence
                          | now rewrite (last_app_in _ _ _ _ Hin) ] ] ]
            end).
  all: injection Hin as <- <-; injection He as <-.
  all: split; [reflexivity|rewrite app_assoc, last_app_cons; reflexivity].
Qed.

End BackupStages.

(** ** Command lines without separator or mount point *)

Section MoreParseArgs.

Lemma contains_not_in (x : string) (l : list string) :
  ~ In x l -> Py.contains x l = false.
Proof.
  induction l as [|y l IH]; simpl; [reflexivity|]. intros H.
  destruct (String.eqb_spec y x) as [->|_]; [tauto|]. apply IH. tauto.
Qed.

(** X1. Without a ["--"] separator the first positional argument,
    stripped, is the mount point, everything after it is ignored, and
    nothing is passed through to restic. *)
Theorem parse_args_without_separator (vs : list string) (m : string)
    (rest : list string) :
  m <> "--restic-bin" -> ~ In "--" (m :: rest) ->
  Backup.parse_args (Spec.restic_bin_options vs ++ m :: rest)
  = (Spec.last_restic_bin vs, Py.strip m, []).
Proof.
  intros Hm Hsep. unfold Backup.parse_args.
  rewrite parse_args_from_options.
  unfold Backup.parse_args_from.
  destruct (String.eqb_spec m "--restic-bin") as [E|_]; [contradiction|].
  now rewrite (contains_not_in _ _ Hsep).
Qed.

(** X2. Degenerate command lines: options alone give no mount point;
    a [--restic-bin] that ends the command line gives the empty binary
    and no mount point, whatever came before; and a separator that comes
    first among the positional arguments is itself taken as the mount
    point. *)
Theorem parse_args_degenerate (vs rest : list string) :
  Backup.parse_args (Spec.restic_bin_options vs)
  = (Spec.last_restic_bin vs, "", [])
  /\ Backup.parse_args (Spec.restic_bin_options vs ++ ["--restic-bin"])
     = (Some "", "", [])
  /\ Backup.parse_args (Spec.restic_bin_options vs ++ "--" :: rest)
     = (Spec.last_restic_bin vs, "--", rest).
Proof.
  unfold Backup.parse_args. split; [|split].
  - rewrite <- (app_nil_r (Spec.restic_bin_options vs)).
    now rewrite parse_args_from_options.
  - now rewrite parse_args_from_options.
  - now rewrite parse_args_from_options.
Qed.

End MoreParseArgs.

(** ** The characters of a snapshot name *)

Section SnapshotNames.

Lemma digits_are_name_chars (s : string) :
  Spec.all_chars Py.is_digit s = true ->
  Spec.all_chars Backup.is_name_char s = true.
Proof.
  induction s as [|c s IH]; simpl; [reflexivity|].
  intros H. apply andb_true_iff in H as [Hc Hs].
  rewrite (IH Hs), andb_true_r.
  unfold Py.is_digit in Hc. unfold Backup.is_name_char.
  cbv zeta in *. rewrite Hc. now rewrite !orb_true_r.
Qed.

Lemma take_chars_all p q n s r :
  (forall c, p c = true -> q c = true) ->
  Spec.take_chars p n s = Some r ->
  exists pre, s = pre ++ r /\ Spec.all_chars q pre = true.
Proof.
  intros Hpq. revert s. induction n as [|n IH]; intros s H; simpl in H.
  - injection H as <-. exists "". auto.
  - destruct s as [|c s]; [discriminate|].
    destruct (p c) eqn:Hc; [|discriminate].
    apply IH in H as (pre & -> & Hpre).
    exists (String c pre). split; [reflexivity|].
    simpl. now rewrite (Hpq c Hc), Hpre.
Qed.

Lemma snap_stamp_name_chars (s : string) :
  Spec.is_snap_stamp s = true ->
  Spec.all_chars Backup.is_name_char s = true.
Proof.
  unfold Spec.is_snap_stamp, Spec.at_end, Spec.and_then.
  assert (Hd : forall c, Py.is_digit c = true -> Backup.is_name_char c = true).
  { intros c Hc. unfold Py.is_digit in Hc. unfold Backup.is_name_char.
    cbv zeta in *. rewrite Hc. now rewrite !orb_true_r. }
  destruct (Spec.take_chars Py.is_digit 8 s) as [r1|] eqn:E1; [|discriminate].
  apply (take_chars_all _ _ _ _ _ Hd) in E1 as (p1 & -> & H1).
  unfold Spec.take_char.
  destruct r1 as [|c r1]; [discriminate|].
  destruct (Ascii.eqb_spec c "-") as [->|]; [|discriminate].
  destruct (Spec.take_chars Py.is_digit 6 r1) as [r2|] eqn:E2;
    [|discriminate].
  apply (take_chars_all _ _ _ _ _ Hd) in E2 as (p2 & -> & H2).
  destruct r2; [|discriminate]. intros _.
  rewrite all_chars_app, H1. simpl.
  now rewrite all_chars_app, H2.
Qed.

(** X14. For a process id that is not negative and a clock with a
    four-digit year, the snapshot name is made of letters, digits and
    hyphens only, whatever the node name is: it holds no ['@'], no
    ['/'] and no white space. *)
Theorem snap_name_chars (pid : Z) (nodename : string)
    (snap_ts : Datetime.datetime) :
  0 <= pid -> Spec.four_digit_year snap_ts ->
  Spec.all_chars Backup.is_name_char
                 (Backup.snap_name_of pid nodename snap_ts) = true.
Proof.
  intros Hpid Hts. unfold Backup.snap_name_of.
  set (h := Py.strip_hyphen (Backup.sub_name_chars nodename)).
  assert (Hh : Spec.all_chars Backup.is_name_char h = true).
  { subst h. unfold Py.strip_hyphen, Py.strip_with.
    apply all_chars_rstrip, all_chars_lstrip, sub_name_chars_ok. }
  assert (Hh' : Spec.all_chars Backup.is_name_char
                  (if Py.is_empty h then "host" else h) = true).
  { destruct h; [reflexivity|exact Hh]. }
  cbv zeta.
  rewrite !all_chars_app, Hh'.
  rewrite (digits_are_name_chars _ (str_digits pid Hpid)).
  rewrite (snap_stamp_name_chars _ (snap_stamp_shape _ Hts)).
  reflexivity.
Qed.

End SnapshotNames.

(** ** Creation times in seconds and in nanoseconds *)

Section CreationScale.
Import Subprocess.
Variable utcoffset : Z -> Z.

(** X15. A creation time given in nanoseconds resolves to the same
    [--time] value as the same time given in seconds, for every time
    later than 1000 seconds after the epoch (and up to 10^12
    seconds). *)
Theorem creation_time_scale cmd1 cmd2 out1 out2 err1 err2 (secs nanos : Z) :
  1000 < secs <= 10 ^ 12 ->
  0 <= nanos < 10 ^ 9 ->
  Py.int (Py.strip out1) = Some secs ->
  Py.int (Py.strip out2) = Some (secs * 10 ^ 9 + nanos) ->
  Backup.creation_time_of utcoffset (mkCompleted cmd2 0 out2 err2)
  = Backup.creation_time_of utcoffset (mkCompleted cmd1 0 out1 err1).
Proof.
  intros Hs Hn H1 H2.
  rewrite (creation_time_of_epoch _ _ _ _ _ H1).
  rewrite (creation_time_of_epoch _ _ _ _ _ H2).
  assert (E : Spec.epoch_seconds (secs * 10 ^ 9 + nanos)
              = Spec.epoch_seconds secs).
  { unfold Spec.epoch_seconds.
    change (10 ^ 12) with 1000000000000 in *.
    change (10 ^ 9) with 1000000000 in *.
    destruct (Z.gtb_spec (secs * 1000000000 + nanos) 1000000000000);
      [|lia].
    destruct (Z.gtb_spec secs 1000000000000); [lia|].
    rewrite Z.div_add_l by lia. rewrite Z.div_small by lia. lia. }
  now rewrite E.
Qed.

End CreationScale.

(** ** What the check script runs *)

Section CheckRuns.
Import Subprocess.
Context {World : Type} (host : Host World) (abspath : string -> string).

Lemma check_path_requests path s r s' :
  CheckUnlocked.check_path host abspath path s = (r, s') ->
  exists evs,
    Spec.leads host s evs [] s'
    /\ forallb Spec.is_read_only evs = true
    /\ (List.length evs <= 3)%nat
    /\ (forall i sp e,
           In (Ran i sp) evs -> Spec.start_error sp = Some e ->
           r = Raise e /\ last evs (IsDir "" true) = Ran i sp)
    /\ (forall e, r = Raise e ->
           exists i sp, In (Ran i sp) evs /\ Spec.start_error sp = Some e).
Proof.
  intros H. pose proof (leads_refl host s) as L0.
  unfold CheckUnlocked.check_path in H.
  exec H.
  all: idtac; match goal with L : Spec.leads _ _ _ _ _ |- _ =>
         eexists; split; [exact L|] end.
  all: split; [reflexivity|].
  all: split; [cbn [List.length]; lia|].
  all: split;
    [ intros i sp e Hin He; case_in Hin; try discriminate Hin;
      injection Hin as <- <-; try discriminate He; injection He as <-;
      split; reflexivity
    | intros e He;
      first [ discriminate He
            | injection He as <-; do 2 eexists;
              split;
              [ first [ right; right; left; reflexivity
                      | right; left; reflexivity
                      | left; reflexivity ]
              | reflexivity ] ] ].
Qed.

Lemma check_paths_requests paths :
  forall failed s r s',
    CheckUnlocked.check_paths host abspath paths failed s = (r, s') ->
    exists evs lines,
      Spec.leads host s evs lines s'
      /\ forallb Spec.is_read_only evs = true
      /\ (List.length evs <= 3 * List.length paths)%nat
      /\ (forall i sp e,
             In (Ran i sp) evs -> Spec.start_error sp = Some e ->
             r = Raise e /\ last evs (IsDir "" true) = Ran i sp)
      /\ (forall e, r = Raise e ->
             exists i sp, In (Ran i sp) evs /\ Spec.start_error sp = Some e).
Proof.
  induction paths as [|p paths IH]; intros failed s r s' H.
  - apply ret_inv in H as [-> ->].
    exists [], []. split; [apply leads_refl|].
    repeat split; auto; try (intros; contradiction). discriminate.
  - cbn [CheckUnlocked.check_paths] in H. cbv zeta in H.
    destruct (Py.is_empty (Py.strip p)).
    + apply IH in H as (evs & lines & L & F & Hlen & Herr & Hraise).
      exists evs, lines. split; [exact L|]. split; [exact F|].
      split; [cbn [List.length]; lia|]. auto.
    + apply bind_inv in H as [(err & s1 & Hc & Hk) | (e & Hc & ->)].
      * apply check_path_requests in Hc
          as (evs1 & L1 & F1 & Hlen1 & Herr1 & _).
        assert (Hrest : exists s2 lines1 b,
                   Spec.leads host s1 [] lines1 s2
                   /\ CheckUnlocked.check_paths host abspath paths b s2
                      = (r, s')).
        { destruct (Py.truthy err).
          - apply bind_inv in Hk as [([] & s2 & Hp & Hk) | (e & Hp & _)];
              [|discriminate Hp].
            eapply print_inv in Hp as [_ Lp]. eauto.
          - do 3 eexists. split; [apply leads_refl|exact Hk]. }
        destruct Hrest as (s2 & lines1 & b & Lp & Hk').
        apply IH in Hk' as (evs2 & lines2 & L2 & F2 & Hlen2 & Herr2 & Hraise2).
        pose proof (leads_trans _ _ _ _ _ _ _ _ L1
                      (leads_trans _ _ _ _ _ _ _ _ Lp L2)) as L.
        cbn [app] in L.
        do 2 eexists. split; [exact L|].
        split; [now rewrite forallb_app, F1, F2|].
        split; [rewrite length_app; cbn [List.length]; lia|].
        split.
        -- intros i sp e Hin He. apply in_app_or in Hin as [Hin|Hin].
           ++ destruct (Herr1 i sp e Hin He) as [Hr _]. discriminate Hr.
           ++ destruct (Herr2 i sp e Hin He) as [Hr Hl].
              split; [exact Hr|]. now rewrite (last_app_in _ _ _ _ Hin).
        -- intros e He. destruct (Hraise2 e He) as (i & sp & Hin & Hs).
           exists i, sp. split; [|exact Hs]. apply in_or_app. now right.
      * apply check_path_requests in Hc
          as (evs1 & L1 & F1 & Hlen1 & Herr1 & Hraise1).
        do 2 eexists. split; [exact L1|]. split; [exact F1|].
        split; [cbn [List.length]; lia|]. split.
        -- intros i sp e0 Hin He.
           destruct (Herr1 i sp e0 Hin He) as [[= <-] Hl]. auto.
        -- intros e0 [= <-]. now apply Hraise1.
Qed.

Lemma check_main_requests sys_argv s r s' :
  CheckUnlocked.main host abspath sys_argv s = (r, s') ->
  exists evs lines,
    Spec.leads host s evs lines s'
    /\ forallb Spec.is_read_only evs = true
    /\ (List.length evs <= 3 * List.length (List.tl sys_argv))%nat
    /\ (forall i sp e,
           In (Ran i sp) evs -> Spec.start_error sp = Some e ->
           r = Raise e /\ last evs (IsDir "" true) = Ran i sp)
    /\ (forall e, r = Raise e ->
           exists i sp, In (Ran i sp) evs /\ Spec.start_error sp = Some e).
Proof.
  intros H. unfold CheckUnlocked.main in H.
  destruct (List.length sys_argv <? 2)%nat.
  - apply bind_inv in H as [([] & s1 & Hp & Hk) | (e & Hp & _)];
      [|discriminate Hp].
    eapply print_inv in Hp as [_ Lp]. apply ret_inv in Hk as [-> ->].
    do 2 eexists. split; [exact Lp|].
    repeat split; auto; try (intros; contradiction); try discriminate.
    cbn [List.length]. lia.
  - apply bind_inv in H as [(failed & s1 & Hc & Hk) | (e & Hc & ->)].
    + apply ret_inv in Hk as [-> ->].
      apply check_paths_requests in Hc
        as (evs & lines & L & F & Hlen & Herr & Hraise).
      do 2 eexists. split; [exact L|]. split; [exact F|].
      split; [exact Hlen|]. split.
      * intros i sp e Hin He. destruct (Herr i sp e Hin He) as [Hr _].
        discriminate Hr.
      * discriminate.
    + apply check_paths_requests in Hc
        as (evs & lines & L & F & Hlen & Herr & Hraise).
      do 2 eexists. split; [exact L|]. split; [exact F|].
      split; [exact Hlen|]. split.
      * intros i sp e0 Hin He.
        destruct (Herr i sp e0 Hin He) as [[= <-] Hl]. auto.
      * intros e0 [= <-]. now apply Hraise.
Qed.

Lemma check_paths_blank paths failed s :
  Forall (fun p => Py.strip p = "") paths ->
  CheckUnlocked.check_paths host abspath paths failed s = (Ret failed, s).
Proof.
  induction 1 as [|p paths Hp _ IH]; [reflexivity|].
  cbn [CheckUnlocked.check_paths]. cbv zeta. rewrite Hp. exact IH.
Qed.

(** X16. When every path argument is blank, the check script checks
    nothing: it returns 0 and leaves the state as it is, nothing run
    and nothing printed. *)
Theorem check_main_blank_paths prog paths s :
  paths <> [] ->
  Forall (fun p => Py.strip p = "") paths ->
  CheckUnlocked.main host abspath (prog :: paths) s = (Ret 0, s).
Proof.
  intros Hne Hb. unfold CheckUnlocked.main.
  destruct paths as [|p paths]; [contradiction|].
  cbn [List.length Nat.ltb Nat.leb List.tl].
  unfold bind. now rewrite (check_paths_blank _ _ _ Hb).
Qed.

(** X17. The check script only reads: every event of a run is a
    [zfs list] or [zfs get] request, and there are at most three of
    them for each path argument. *)
Theorem check_main_only_reads sys_argv s r s' :
  CheckUnlocked.main host abspath sys_argv s = (r, s') ->
  exists evs lines,
    Spec.leads host s evs lines s'
    /\ forallb Spec.is_read_only evs = true
    /\ (List.length evs <= 3 * List.length (List.tl sys_argv))%nat.
Proof.
  intros H.
  apply check_main_requests in H as (evs & lines & L & F & Hlen & _).
  exists evs, lines. auto.
Qed.

(** X18. The check script handles no exception: a [zfs] that cannot
    be started ends the run with the exception of [subprocess.run], and
    that request is the last event of the run. *)
Theorem check_main_start_error sys_argv s r s' :
  CheckUnlocked.main host abspath sys_argv s = (r, s') ->
  exists evs lines,
    Spec.leads host s evs lines s'
    /\ (forall i sp e,
           In (Ran i sp) evs -> Spec.start_error sp = Some e ->
           r = Raise e /\ last evs (IsDir "" true) = Ran i sp).
Proof.
  intros H.
  apply check_main_requests in H as (evs & lines & L & _ & _ & He & _).
  exists evs, lines. auto.
Qed.

End CheckRuns.

(** ** White space around path arguments *)

Section Strip.

Lemma rstrip_with_cons p c s :
  Py.rstrip_with p (String c s)
  = match Py.rstrip_with p s with
    | EmptyString => if p c then EmptyString else String c EmptyString
    | r => String c r
    end.
Proof. reflexivity. Qed.

Lemma rstrip_with_idempotent p s :
  Py.rstrip_with p (Py.rstrip_with p s) = Py.rstrip_with p s.
Proof.
  induction s as [|c s IH]; [reflexivity|].
  rewrite rstrip_with_cons.
  destruct (Py.rstrip_with p s) as [|d r] eqn:E.
  - destruct (p c) eqn:Hc; [reflexivity|].
    rewrite rstrip_with_cons. cbn [Py.rstrip_with]. now rewrite Hc.
  - rewrite rstrip_with_cons, IH. reflexivity.
Qed.

Lemma rstrip_with_head p c s d r :
  Py.rstrip_with p (String c s) = String d r -> d = c.
Proof.
  rewrite rstrip_with_cons. destruct (Py.rstrip_with p s).
  - destruct (p c); [discriminate|]. now intros [= <- _].
  - now intros [= <- _].
Qed.

Lemma lstrip_with_stripped p s :
  Py.lstrip_with p (Py.rstrip_with p (Py.lstrip_with p s))
  = Py.rstrip_with p (Py.lstrip_with p s).
Proof.
  induction s as [|c s IH]; [reflexivity|].
  cbn [Py.lstrip_with]. destruct (p c) eqn:Hc; [exact IH|].
  destruct (Py.rstrip_with p (String c s)) as [|d r] eqn:E; [reflexivity|].
  apply rstrip_with_head in E as ->.
  cbn [Py.lstrip_with]. now rewrite Hc.
Qed.

Lemma strip_idempotent s : Py.strip (Py.strip s) = Py.strip s.
Proof.
  unfold Py.strip, Py.strip_with.
  now rewrite lstrip_with_stripped, rstrip_with_idempotent.
Qed.

End Strip.

Section CheckWhitespace.
Import Subprocess.
Context {World : Type} (host : Host World) (abspath : string -> string).

Lemma check_paths_stripped paths :
  forall failed s,
    CheckUnlocked.check_paths host abspath (map Py.strip paths) failed s
    = CheckUnlocked.check_paths host abspath paths failed s.
Proof.
  induction paths as [|p paths IH]; intros failed s; [reflexivity|].
  cbn [map CheckUnlocked.check_paths]. cbv zeta.
  rewrite strip_idempotent.
  destruct (Py.is_empty (Py.strip p)); [apply IH|].
  unfold bind.
  destruct (CheckUnlocked.check_path host abspath (Py.strip p) s)
    as [[err|e] s1]; [|reflexivity].
  destruct (Py.truthy err); [|apply IH].
  destruct (print (CheckUnlocked.fmt_opt err) s1) as [[[]|e] s2];
    [apply IH|reflexivity].
Qed.

(** X19. White space around the path arguments does not matter: the
    run on the stripped arguments is the run on the arguments as
    given. *)
Theorem check_main_stripped prog paths s :
  CheckUnlocked.main host abspath (prog :: map Py.strip paths) s
  = CheckUnlocked.main host abspath (prog :: paths) s.
Proof.
  unfold CheckUnlocked.main.
  cbn [List.length List.tl]. rewrite length_map.
  destruct (S (List.length paths) <? 2)%nat; [reflexivity|].
  unfold bind. now rewrite check_paths_stripped.
Qed.

End CheckWhitespace.

(** ** The further properties on the simulated host *)

Section SimHosts.
Import Subprocess.

Lemma sim_backup_on_run (h : Host Sim.World) (args : list string) :
  Backup.main h args "zfs-restic-backup.py" 4242 "truenas.local"
              Sim.abspath (Some "0f3a") (fun _ => 0) (initial [])
  = (fst (Sim.backup_on h args), snd (Sim.backup_on h args)).
Proof. apply surjective_pairing. Qed.

Lemma sim_check_on_run (h : Host Sim.World) (paths : list string) :
  CheckUnlocked.main h Sim.abspath
                     ("zfs-check-unlocked.py" :: paths) (initial [])
  = (fst (Sim.check_on h paths), snd (Sim.check_on h paths)).
Proof. apply surjective_pairing. Qed.

(** On the simulated host a destroy request removes the snapshot it
    names. *)
Lemma sim_destroyed (c : Sim.Config) w i out err w' :
  spawn (Sim.host c) w i = (Exited 0 out err, w') ->
  Spec.is_destroy_request i = true ->
  ~ In (nth 2 (argv i) "") w'.
Proof.
  unfold Spec.is_destroy_request, Spec.is_zfs, Spec.verb.
  intros H Hi. apply andb_true_iff in Hi as [Hv Hp].
  apply String.eqb_eq in Hv, Hp.
  cbn [spawn Sim.host] in H. unfold Sim.spawn in H.
  destruct (argv i) as [|p [|v rest]]; cbn [nth] in Hv, Hp;
    try discriminate.
  subst p v. cbn in H. injection H as _ _ <-.
  intros Hin. apply filter_In in Hin as [_ Hneq].
  rewrite String.eqb_refl in Hneq. discriminate Hneq.
Qed.

End SimHosts.

Lemma parse_args_without_separator_witness :
  Backup.parse_args
    ["--restic-bin"; "/opt/restic"; " /mnt/secrets "; "/mnt/other"]
  = (Some "/opt/restic", "/mnt/secrets", []).
Proof.
  assert (H1 : " /mnt/secrets " <> "--restic-bin") by discriminate.
  assert (H2 : ~ In "--" [" /mnt/secrets "; "/mnt/other"])
    by (simpl; intros [H|[H|[]]]; discriminate H).
  exact (parse_args_without_separator
           ["/opt/restic"] " /mnt/secrets " ["/mnt/other"] H1 H2).
Defined.

Lemma main_missing_mount_point_witness :
  let run := Sim.backup Sim.healthy ["--restic-bin"] in
  fst run = Ret 1 /\ trace (snd run) = [] /\ world (snd run) = [].
Proof.
  cbv zeta.
  assert (Hm : snd (fst (Backup.parse_args ["--restic-bin"])) = "")
    by reflexivity.
  pose proof (main_missing_mount_point
              (Sim.host Sim.healthy) ["--restic-bin"] "zfs-restic-backup.py" 4242
              "truenas.local" Sim.abspath (Some "0f3a") (fun _ => 0) [] _ _ Hm
              (sim_backup_run Sim.healthy ["--restic-bin"])) as W.
  destruct W as (Hr & Ht & Hw & _).
  exact (conj Hr (conj Ht Hw)).
Defined.

Lemma main_restic_bin_unusable_witness :
  let run := Sim.backup Sim.healthy
                        ["--restic-bin"; "/opt/restic"; "/mnt/secrets"] in
  fst run = Ret 1 /\ forall i sp, ~ In (Ran i sp) (trace (snd run)).
Proof.
  cbv zeta.
  assert (Hb : fst (fst (Backup.parse_args
                           ["--restic-bin"; "/opt/restic"; "/mnt/secrets"]))
               = Some "/opt/restic") by reflexivity.
  assert (Hne : "/opt/restic" <> "") by discriminate.
  assert (Hm : snd (fst (Backup.parse_args
                           ["--restic-bin"; "/opt/restic"; "/mnt/secrets"]))
               <> "") by (vm_compute; discriminate).
  assert (Hbad : is_file (Sim.host Sim.healthy) []
                         (resolve (Sim.host Sim.healthy) [] "/opt/restic")
                 = false
                 \/ access_x (Sim.host Sim.healthy) []
                             (resolve (Sim.host Sim.healthy) [] "/opt/restic")
                    = false) by (left; reflexivity).
  pose proof (main_restic_bin_unusable
              (Sim.host Sim.healthy) ["--restic-bin"; "/opt/restic"; "/mnt/secrets"]
              "zfs-restic-backup.py" 4242
              "truenas.local" Sim.abspath (Some "0f3a") (fun _ => 0) [] _ _ "/opt/restic" Hb Hne Hm Hbad
              (sim_backup_run
                 Sim.healthy ["--restic-bin"; "/opt/restic"; "/mnt/secrets"])) as W.
  destruct W as (Hr & _ & Hn & _).
  exact (conj Hr Hn).
Defined.

Lemma main_version_failure_witness :
  let host := Sim.answering
                (fun i => String.eqb (nth 0 (argv i) "") "restic") NotFound
                (Sim.host Sim.healthy) in
  let run := Sim.backup_on host ["/mnt/secrets"] in
  fst run = Ret 1
  /\ forallb Spec.is_environment_check (trace (snd run)) = true.
Proof.
  cbv zeta.
  assert (Hin : In (Ran (mkInvocation ["restic"; "version"] true None)
                        NotFound)
                   (trace (snd (Sim.backup_on
                                  (Sim.answering
                                     (fun i => String.eqb (nth 0 (argv i) "")
                                                          "restic")
                                     NotFound (Sim.host Sim.healthy))
                                  ["/mnt/secrets"]))))
    by (vm_compute; repeat first [left; reflexivity | right]).
  assert (Hnf : NotFound <> Failed) by discriminate.
  pose proof (main_version_failure
              (Sim.answering
                 (fun i => String.eqb (nth 0 (argv i) "") "restic")
                 NotFound (Sim.host Sim.healthy))
              ["/mnt/secrets"] "zfs-restic-backup.py" 4242
              "truenas.local" Sim.abspath (Some "0f3a") (fun _ => 0) [] _ _
              (sim_backup_on_run _ _)
              (mkInvocation ["restic"; "version"] true None) NotFound
              Hin eq_refl eq_refl Hnf) as W.
  destruct W as (Hr & _ & He & _).
  exact (conj Hr He).
Defined.

Lemma main_path_not_directory_witness :
  let run := Sim.backup Sim.healthy ["/mnt/elsewhere"] in
  fst run = Ret 1
  /\ last (trace (snd run)) (IsDir "" true) = IsDir "/mnt/elsewhere" false.
Proof.
  cbv zeta.
  assert (Hin : In (IsDir (Sim.abspath
                             (snd (fst (Backup.parse_args
                                          ["/mnt/elsewhere"])))) false)
                   (trace (snd (Sim.backup Sim.healthy ["/mnt/elsewhere"]))))
    by (vm_compute; repeat first [left; reflexivity | right]).
  pose proof (main_path_not_directory
              (Sim.host Sim.healthy) ["/mnt/elsewhere"] "zfs-restic-backup.py" 4242
              "truenas.local" Sim.abspath (Some "0f3a") (fun _ => 0) [] _ _
              (sim_backup_run Sim.healthy ["/mnt/elsewhere"]) Hin) as W.
  destruct W as (Hr & Hl & _).
  split; [exact Hr | exact Hl].
Defined.

Lemma main_snapshot_target_witness :
  let run := Sim.backup Sim.healthy ["/mnt/secrets"] in
  exists sp dataset snap_ts,
    In (Ran Spec.list_query sp) (trace (snd run))
    /\ Spec.resolved "/mnt/secrets" sp = Ret (Some dataset)
    /\ dataset <> ""
    /\ Spec.snapshot_request Sim.snapshot
       = Spec.snapshot_request
           (dataset ++ "@"
            ++ Backup.snap_name_of 4242 "truenas.local" snap_ts).
Proof.
  cbv zeta.
  assert (Hin : In (Ran (Spec.snapshot_request Sim.snapshot) (Exited 0 "" ""))
                   (trace (snd (Sim.backup Sim.healthy ["/mnt/secrets"]))))
    by (vm_compute; repeat first [left; reflexivity | right]).
  pose proof (main_snapshot_target
              (Sim.host Sim.healthy) ["/mnt/secrets"] "zfs-restic-backup.py" 4242
              "truenas.local" Sim.abspath (Some "0f3a") (fun _ => 0) [] _ _
              (sim_backup_run Sim.healthy ["/mnt/secrets"])
              (Spec.snapshot_request Sim.snapshot) (Exited 0 "" "")
              Hin eq_refl) as W.
  destruct W as (sp & dataset & snap_ts & H1 & H2 & H3 & H4 & _).
  exists sp, dataset, snap_ts.
  exact (conj H1 (conj H2 (conj H3 H4))).
Defined.

Lemma main_snapshot_failure_witness :
  let run := Sim.backup (Sim.with_snapshot_rc 1 Sim.healthy)
                        ["/mnt/secrets"] in
  fst run = Raise (CalledProcessError 1 ["zfs"; "snapshot"; Sim.snapshot])
  /\ Spec.first_snapshot (trace (snd run)) = None.
Proof.
  cbv zeta.
  assert (Hin : In (Ran (Spec.snapshot_request Sim.snapshot)
                        (Exited 1 "" "cannot create snapshot"))
                   (trace (snd (Sim.backup (Sim.with_snapshot_rc 1 Sim.healthy)
                                           ["/mnt/secrets"]))))
    by (vm_compute; repeat first [left; reflexivity | right]).
  assert (Hrc : 1 <> 0) by discriminate.
  pose proof (main_snapshot_failure
              (Sim.host (Sim.with_snapshot_rc 1 Sim.healthy))
              ["/mnt/secrets"] "zfs-restic-backup.py" 4242
              "truenas.local" Sim.abspath (Some "0f3a") (fun _ => 0) [] _ _
              (sim_backup_run (Sim.with_snapshot_rc 1 Sim.healthy)
                              ["/mnt/secrets"])
              (Spec.snapshot_request Sim.snapshot) 1 ""
              "cannot create snapshot" Hin eq_refl Hrc) as W.
  destruct W as (Hr & _ & Hf & _).
  split; [exact Hr | exact Hf].
Defined.

Lemma main_destroys_own_snapshot_witness :
  let run := Sim.backup (Sim.with_view false Sim.healthy) ["/mnt/secrets"] in
  exists snap post,
    Spec.first_snapshot (trace (snd run)) = Some (snap, post)
    /\ Spec.destroy_request Sim.snapshot = Spec.destroy_request snap
    /\ last post (IsDir "" true)
       = Ran (Spec.destroy_request Sim.snapshot) (Exited 0 "" "").
Proof.
  cbv zeta.
  assert (Hin : In (Ran (Spec.destroy_request Sim.snapshot) (Exited 0 "" ""))
                   (trace (snd (Sim.backup (Sim.with_view false Sim.healthy)
                                           ["/mnt/secrets"]))))
    by (vm_compute; repeat first [left; reflexivity | right]).
  exact (main_destroys_own_snapshot
           (Sim.host (Sim.with_view false Sim.healthy))
           ["/mnt/secrets"] "zfs-restic-backup.py" 4242
              "truenas.local" Sim.abspath (Some "0f3a") (fun _ => 0) [] _ _
           (sim_backup_run (Sim.with_view false Sim.healthy) ["/mnt/secrets"])
           (Spec.destroy_request Sim.snapshot) (Exited 0 "" "")
           Hin eq_refl).
Defined.

Lemma main_destroyed_snapshot_witness :
  let run := Sim.backup Sim.healthy ["/mnt/secrets"] in
  fst run = Ret 0 /\ ~ In Sim.snapshot (world (snd run)).
Proof.
  cbv zeta. split; [vm_compute; reflexivity|].
  assert (Hf : Spec.first_snapshot
                 (trace (snd (Sim.backup Sim.healthy ["/mnt/secrets"])))
               = Some (Sim.snapshot,
                       [Ran (Spec.creation_query Sim.snapshot)
                            (Exited 0 ("1704067200" ++ Sim.nl) "");
                        IsDir Sim.view true;
                        Ran (mkInvocation
                               ["restic"; "backup"; "--time";
                                "2024-01-01 00:00:00"; "."]
                               false (Some Sim.view))
                            (Exited 0 "" "");
                        Ran (Spec.destroy_request Sim.snapshot)
                            (Exited 0 "" "")]))
    by (vm_compute; reflexivity).
  exact (main_destroyed_snapshot
           (Sim.host Sim.healthy) ["/mnt/secrets"] "zfs-restic-backup.py" 4242
           "truenas.local" Sim.abspath (Some "0f3a") (fun _ => 0)
           (fun w s => In s w) (sim_destroyed Sim.healthy)
           [] _ _ (sim_backup_run Sim.healthy ["/mnt/secrets"])
           _ _ _ _ Hf eq_refl).
Defined.

Lemma main_success_witness :
  let host := Sim.answering (fun i => Spec.is_destroy_request i)
                            (Exited 1 "" "dataset is busy")
                            (Sim.host Sim.healthy) in
  let run := Sim.backup_on host ["/mnt/secrets"] in
  fst run = Ret 0
  /\ Spec.logged "Done." (last (printed (snd run)) "")
  /\ In Sim.snapshot (world (snd run)).
Proof.
  cbv zeta.
  assert (H0 : fst (Sim.backup_on
                      (Sim.answering (fun i => Spec.is_destroy_request i)
                                     (Exited 1 "" "dataset is busy")
                                     (Sim.host Sim.healthy))
                      ["/mnt/secrets"]) = Ret 0)
    by (vm_compute; reflexivity).
  pose proof (main_success
              (Sim.answering (fun i => Spec.is_destroy_request i)
                             (Exited 1 "" "dataset is busy")
                             (Sim.host Sim.healthy))
              ["/mnt/secrets"] "zfs-restic-backup.py" 4242
              "truenas.local" Sim.abspath (Some "0f3a") (fun _ => 0) [] _ _
              (sim_backup_on_run _ _) H0) as W.
  destruct W as (? & ? & ? & ? & ? & ? & ? & ? & ? & ? & _ & _ & Hd).
  split; [exact H0|]. split; [exact Hd|].
  vm_compute. left. reflexivity.
Defined.

Lemma main_exit_codes_witness :
  let run := Sim.backup (Sim.with_restic_rc 3 Sim.healthy) ["/mnt/secrets"] in
  3 = 0 \/ 3 = 1
  \/ exists i out err,
      last (trace (snd run)) (IsDir "" true) = Ran i (Exited 3 out err)
      /\ Spec.is_backup_invocation i = true.
Proof.
  cbv zeta.
  assert (H3 : fst (Sim.backup (Sim.with_restic_rc 3 Sim.healthy)
                               ["/mnt/secrets"]) = Ret 3)
    by (vm_compute; reflexivity).
  pose proof (sim_backup_run (Sim.with_restic_rc 3 Sim.healthy)
                             ["/mnt/secrets"]) as Hrun.
  rewrite H3 in Hrun at 1.
  exact (main_exit_codes
           (Sim.host (Sim.with_restic_rc 3 Sim.healthy))
           ["/mnt/secrets"] "zfs-restic-backup.py" 4242
              "truenas.local" Sim.abspath (Some "0f3a") (fun _ => 0) [] 3 _ Hrun).
Defined.

Lemma main_start_error_witness :
  let host := Sim.answering (Spec.is_zfs "list") NotFound
                            (Sim.host Sim.healthy) in
  let run := Sim.backup_on host ["/mnt/secrets"] in
  fst run = Raise FileNotFoundError
  /\ last (trace (snd run)) (IsDir "" true) = Ran Spec.list_query NotFound.
Proof.
  cbv zeta.
  assert (Hin : In (Ran Spec.list_query NotFound)
                   (trace (snd (Sim.backup_on
                                  (Sim.answering (Spec.is_zfs "list") NotFound
                                                 (Sim.host Sim.healthy))
                                  ["/mnt/secrets"]))))
    by (vm_compute; repeat first [left; reflexivity | right]).
  assert (Hv : NotFound = NotFound -> Spec.verb Spec.list_query <> "version")
    by (intros _; discriminate).
  exact (main_start_error
           (Sim.answering (Spec.is_zfs "list") NotFound
                          (Sim.host Sim.healthy))
           ["/mnt/secrets"] "zfs-restic-backup.py" 4242
              "truenas.local" Sim.abspath (Some "0f3a") (fun _ => 0) [] _ _
           (sim_backup_on_run _ _) Spec.list_query NotFound
           FileNotFoundError Hin eq_refl Hv).
Defined.

Lemma snap_name_chars_witness :
  Spec.all_chars Backup.is_name_char
    (Backup.snap_name_of 4242 "truenas.local"
                         (Datetime.mkDatetime 2024 1 1 0 0 5 250000))
  = true.
Proof.
  assert (Hp : 0 <= 4242) by lia.
  assert (Ht : Spec.four_digit_year
                 (Datetime.mkDatetime 2024 1 1 0 0 5 250000))
    by (unfold Spec.four_digit_year; simpl; lia).
  exact (snap_name_chars 4242 "truenas.local" _ Hp Ht).
Defined.

Lemma creation_time_scale_witness :
  Backup.creation_time_of (fun _ => 0)
    (mkCompleted [] 0 ("1704067200123456789" ++ Sim.nl) "")
  = Backup.creation_time_of (fun _ => 0)
      (mkCompleted [] 0 ("1704067200" ++ Sim.nl) "").
Proof.
  assert (Hs : 1000 < 1704067200 <= 10 ^ 12)
    by (change (10 ^ 12) with 1000000000000; lia).
  assert (Hn : 0 <= 123456789 < 10 ^ 9)
    by (change (10 ^ 9) with 1000000000; lia).
  assert (H1 : Py.int (Py.strip ("1704067200" ++ Sim.nl)) = Some 1704067200)
    by (vm_compute; reflexivity).
  assert (H2 : Py.int (Py.strip ("1704067200123456789" ++ Sim.nl))
               = Some (1704067200 * 10 ^ 9 + 123456789))
    by (vm_compute; reflexivity).
  exact (creation_time_scale (fun _ => 0) [] [] _ _ "" "" _ _ Hs Hn H1 H2).
Defined.

Lemma check_main_blank_paths_witness :
  Sim.check Sim.healthy [" "; ""] = (Ret 0, initial []).
Proof.
  assert (Hne : [" "; ""] <> []) by discriminate.
  assert (Hb : Forall (fun p => Py.strip p = "") [" "; ""])
    by (repeat constructor).
  exact (check_main_blank_paths (Sim.host Sim.healthy) Sim.abspath
                                "zfs-check-unlocked.py" _ _ Hne Hb).
Defined.

Lemma check_main_only_reads_witness :
  let host := Sim.host (Sim.with_keystatus "locked" Sim.healthy) in
  let run := Sim.check (Sim.with_keystatus "locked" Sim.healthy)
                       ["/mnt/secrets"; "/nope"] in
  exists evs lines,
    Spec.leads host (initial []) evs lines (snd run)
    /\ forallb Spec.is_read_only evs = true
    /\ (List.length evs <= 6)%nat.
Proof.
  cbv zeta.
  exact (check_main_only_reads
           (Sim.host (Sim.with_keystatus "locked" Sim.healthy)) Sim.abspath
           _ (initial []) _ _
           (sim_check_run (Sim.with_keystatus "locked" Sim.healthy)
                          ["/mnt/secrets"; "/nope"])).
Defined.

Lemma check_main_start_error_witness :
  let host := Sim.answering (Spec.is_zfs "get") NotFound
                            (Sim.host Sim.healthy) in
  let run := Sim.check_on host ["/mnt/secrets"] in
  fst run = Raise FileNotFoundError.
Proof.
  cbv zeta.
  pose proof (check_main_start_error
              (Sim.answering (Spec.is_zfs "get") NotFound
                             (Sim.host Sim.healthy)) Sim.abspath
              _ (initial []) _ _
              (sim_check_on_run
                 (Sim.answering (Spec.is_zfs "get") NotFound
                                (Sim.host Sim.healthy))
                 ["/mnt/secrets"])) as W.
  destruct W as (evs & lines & (T & _) & He).
  cbn [trace initial app] in T.
  assert (Hin : In (Ran (Spec.encryptionroot_query "tank/secrets") NotFound)
                   (trace (snd (Sim.check_on
                                  (Sim.answering (Spec.is_zfs "get") NotFound
                                                 (Sim.host Sim.healthy))
                                  ["/mnt/secrets"]))))
    by (vm_compute; repeat first [left; reflexivity | right]).
  rewrite T in Hin.
  exact (proj1 (He _ _ _ Hin eq_refl)).
Defined.
